(** * Travel-time tables and their interpolators

    A shallow embedding of [seismic/pick_harvester/travel_time.py]:
    the table parser [Phase._parse_tt], the construction of a [Phase]
    and of the [TTInterpolator] registry, and the three query methods
    [get_tt], [get_dtdd] and [get_dtdh].

    Conventions.
    - A Python [float] (IEEE binary64) is a [spec_float] in the canonical
      form of precision 53; an element of a NumPy array of dtype ['f4']
      is a [spec_float] in the canonical form of precision 24.
    - A Python [str] is a [string] holding its UTF-8 bytes, so that
      [str.encode] keeps the bytes and only changes the kind of label.
    - A dictionary is a [gmap].  The batched loop visits the keys in the
      order of [map_to_list] where Python uses insertion order; the keys
      are distinct, each visit writes the slots of its own key only and
      every exception ends in the same [ValueError], so the order is not
      observable.
    - What the file system, [float()] and SciPy's
      [CloughTocher2DInterpolator] do is not code of this module: the
      list of table files with their lines, the token parser and the
      interpolator constructor are parameters. *)

From Stdlib Require Import ZArith Bool List String Ascii Lia.
From Stdlib Require Import Floats.SpecFloat.
From stdpp Require Import gmap strings list fin_maps.

Open Scope string_scope.
Open Scope Z_scope.

(** ** Floating-point values *)

Definition float := spec_float.
Definition float32 := spec_float.

(** [float(n)] for an integer [n]. *)
Definition float_of_int (n : Z) : float := binary_normalize 53 1024 n 0 false.

(** Storing a binary64 value in an ['f4'] array: round to nearest even. *)
Definition float32_of (x : float) : float32 :=
  match x with
  | S754_finite s m e => binary_round 24 128 s m e
  | _ => x
  end.

(** Reading an ['f4'] element back as a binary64 value (exact). *)
Definition float64_of (x : float32) : float :=
  match x with
  | S754_finite s m e => binary_round 53 1024 s m e
  | _ => x
  end.

Definition f4_one : float32 := SFone 24 128.
Definition f4_mul : float32 -> float32 -> float32 := SFmul 24 128.

Definition isnan (x : float) : bool :=
  match x with S754_nan => true | _ => false end.

(** [x == y] on floats. *)
Definition float_eqb (x y : float) : bool := SFeqb x y.

(** [LARGE_VALUE = float(np.iinfo('i4').max)] *)
Definition LARGE_VALUE : float := float_of_int (2 ^ 31 - 1).

(** ** Exceptions *)

Inductive exn :=
| ValueError (msg : string)
| AssertionError
| IndexError
| QhullError.

(** [str(e)]: a bare [assert] raises an [AssertionError] without arguments. *)
Definition exn_message (e : exn) : string :=
  match e with
  | ValueError msg => msg
  | AssertionError => ""
  | IndexError => "boolean index did not match indexed array"
  | QhullError => "QhullError"
  end.

Definition result (A : Type) : Type := exn + A.
Definition Ok {A} (a : A) : result A := inr a.
Definition Raise {A} (e : exn) : result A := inl e.

Definition rbind {A B} (m : result A) (k : A -> result B) : result B :=
  match m with
  | inl e => inl e
  | inr a => k a
  end.

Declare Scope result_scope.
Delimit Scope result_scope with result.
Notation "'do' x <- m ; k" := (rbind m (fun x => k))
  (at level 10, x name, m at level 100, k at level 200) : result_scope.
Open Scope result_scope.

Fixpoint mapM {A B} (f : A -> result B) (l : list A) : result (list B) :=
  match l with
  | [] => Ok []
  | a :: l' => do b <- f a; do bs <- mapM f l'; Ok (b :: bs)
  end.

(** ** Python strings *)

(** [c.isspace()] on the ASCII range. *)
Definition isspace (c : ascii) : bool :=
  let n := nat_of_ascii c in
  ((9 <=? n)%nat && (n <=? 13)%nat) || ((28 <=? n)%nat && (n <=? 32)%nat).

(** [s.split()]: the maximal runs of non-space characters.  [cur] holds
    the run being read, in reverse. *)
Fixpoint split_ws (cur : list ascii) (s : string) : list string :=
  match s with
  | EmptyString =>
      match cur with
      | [] => []
      | _ => [string_of_list_ascii (rev cur)]
      end
  | String c s' =>
      if isspace c then
        match cur with
        | [] => split_ws [] s'
        | _ => string_of_list_ascii (rev cur) :: split_ws [] s'
        end
      else split_ws (c :: cur) s'
  end.

Definition split (line : string) : list string := split_ws [] line.

(** [s.split(sep)] for a one-character separator: empty fields are kept. *)
Fixpoint split_on_aux (sep : ascii) (cur : list ascii) (s : string) : list string :=
  match s with
  | EmptyString => [string_of_list_ascii (rev cur)]
  | String c s' =>
      if Ascii.eqb c sep then string_of_list_ascii (rev cur) :: split_on_aux sep [] s'
      else split_on_aux sep (c :: cur) s'
  end.

Definition split_on (sep : ascii) (s : string) : list string := split_on_aux sep [] s.

(** [sep.join(row)] *)
Fixpoint join (sep : string) (row : list string) : string :=
  match row with
  | [] => ""
  | [x] => x
  | x :: rest => x ++ sep ++ join sep rest
  end.

(** [os.path.basename(fn)]: what follows the last ['/']. *)
Definition basename (fn : string) : string :=
  List.last (split_on "/" fn) "".

(** [repr(s)]: the string between quotes.  The quotes are single ones
    unless the string holds a single quote and no double quote; the
    quote in use and the backslash are escaped with a backslash, the
    tabulation, the line feed and the carriage return are written with
    their letter, and the other control characters of the ASCII range
    with two hexadecimal digits.  A character above 127 is copied. *)
Definition squote : ascii := "'"%char.
Definition dquote : ascii := "034"%char.
Definition backslash : ascii := "092"%char.

Definition has_char (c : ascii) (s : string) : bool :=
  existsb (Ascii.eqb c) (list_ascii_of_string s).

Definition repr_quote (s : string) : ascii :=
  if has_char squote s && negb (has_char dquote s) then dquote else squote.

Definition hex_digit (n : nat) : ascii :=
  nth n (list_ascii_of_string "0123456789abcdef") "0"%char.

Definition repr_char (quote c : ascii) : string :=
  let n := nat_of_ascii c in
  if Ascii.eqb c quote || Ascii.eqb c backslash then String backslash (String c "")
  else if Nat.eqb n 9 then String backslash "t"
  else if Nat.eqb n 10 then String backslash "n"
  else if Nat.eqb n 13 then String backslash "r"
  else if (n <? 32)%nat || Nat.eqb n 127 then
    String backslash (String "x"
      (String (hex_digit (n / 16)) (String (hex_digit (n mod 16)) "")))
  else String c "".

Definition py_repr (s : string) : string :=
  let quote := repr_quote s in
  String quote
    (String.concat "" (map (repr_char quote) (list_ascii_of_string s))
       ++ String quote "").

(** ** NumPy arrays

    A one-dimensional array is a list.  A two-dimensional array is the
    list of its rows; [np.array] of an empty list of rows has shape
    [(0,)] and is the empty list. *)

Definition ndarray2 (A : Type) : Type := list (list A).

Definition shape {A} (a : ndarray2 A) : list nat :=
  match a with
  | [] => [0%nat]
  | row :: _ => [length a; length row]
  end.

(** [np.array(rows)] for a list of lists of floats.  Rows of unequal
    length are refused with a [ValueError]; older releases of NumPy
    build an array of objects instead, on which [np.isnan] then fails
    with a [TypeError], so that [_parse_tt] raises in both cases. *)
Definition np_array {A} (rows : list (list A)) : result (ndarray2 A) :=
  match rows with
  | [] => Ok []
  | row :: rest =>
      if forallb (fun r => Nat.eqb (length r) (length row)) rest then Ok rows
      else Raise (ValueError "setting an array element with a sequence. The requested array has an inhomogeneous shape")
  end.

(** [a[a == nanval] = np.nan] *)
Definition mask_nan (nanval : float) (a : ndarray2 float) : ndarray2 float :=
  map (map (fun x => if float_eqb x nanval then S754_nan else x)) a.

(** [np.isnan(a)] *)
Definition np_isnan (a : ndarray2 float) : ndarray2 bool := map (map isnan) a.

(** The length two axes of lengths [n] and [m] broadcast to, when they do. *)
Definition broadcast_dim (n m : nat) : option nat :=
  if Nat.eqb n m then Some n
  else if Nat.eqb n 1 then Some m
  else if Nat.eqb m 1 then Some n
  else None.

(** Reading cell [(i, j)] of [a] broadcast to a larger shape: an axis of
    length one is repeated. *)
Definition broadcast_get (a : ndarray2 bool) (i j : nat) : bool :=
  match a !! (if Nat.eqb (length a) 1 then 0%nat else i) with
  | Some row => default false (row !! (if Nat.eqb (length row) 1 then 0%nat else j))
  | None => false
  end.

(** [np.all(a == b)] on boolean arrays, with NumPy's broadcasting of
    shapes.  Shapes that do not broadcast are refused with a
    [ValueError]; older releases of NumPy compare to [False] instead,
    on which the [assert] then fails, so that [_parse_tt] raises in both
    cases. *)
Definition np_all_equal (a b : ndarray2 bool) : result bool :=
  let mismatch := ValueError "operands could not be broadcast together" in
  match a, b with
  | [], [] => Ok true
  | [], row :: _ | row :: _, [] =>
      match broadcast_dim 0 (length row) with
      | Some _ => Ok true
      | None => Raise mismatch
      end
  | ra :: _, rb :: _ =>
      match broadcast_dim (length a) (length b), broadcast_dim (length ra) (length rb) with
      | Some n, Some c =>
          Ok (forallb (fun i =>
                forallb (fun j => Bool.eqb (broadcast_get a i j) (broadcast_get b i j))
                        (seq 0 c))
              (seq 0 n))
      | _, _ => Raise mismatch
      end
  end.

(** [a.flatten()] *)
Definition flatten {A} (a : ndarray2 A) : list A := concat a.

(** [xg, yg = np.meshgrid(xs, ys, indexing='ij')] followed by
    [np.vstack([xg.flatten(), yg.flatten()]).T]. *)
Definition meshgrid_points (xs ys : list float) : list (float * float) :=
  concat (map (fun x => map (fun y => (x, y)) ys) xs).

(** [a[mask]] for a boolean [mask] along the first axis. *)
Fixpoint mask_index {A} (a : list A) (mask : list bool) : result (list A) :=
  match a, mask with
  | [], [] => Ok []
  | x :: a', b :: mask' =>
      do r <- mask_index a' mask'; Ok (if b then x :: r else r)
  | _, _ => Raise IndexError
  end.

(** [np.argwhere(c == a).flatten()] *)
Fixpoint argwhere_from {A} (eqb : A -> A -> bool) (c : A) (i : nat) (a : list A) : list nat :=
  match a with
  | [] => []
  | x :: a' => if eqb c x then i :: argwhere_from eqb c (S i) a' else argwhere_from eqb c (S i) a'
  end.

Definition argwhere {A} (eqb : A -> A -> bool) (c : A) (a : list A) : list nat :=
  argwhere_from eqb c 0 a.

(** [a[indices]] for an integer index array: out of range raises. *)
Fixpoint take_indices {A} (a : list A) (indices : list nat) : option (list A) :=
  match indices with
  | [] => Some []
  | i :: rest =>
      match a !! i, take_indices a rest with
      | Some x, Some xs => Some (x :: xs)
      | _, _ => None
      end
  end.

(** [a[indices] = values] *)
Fixpoint put_indices {A} (a : list A) (indices : list nat) (values : list A) : list A :=
  match indices, values with
  | i :: rest, v :: values' => put_indices (<[i := v]> a) rest values'
  | _, _ => a
  end.

(** ** class Phase *)

Definition interp : Type := float -> float -> float.

Module Phase.

(** The ten boundary indices of [_parse_tt]. *)
Record bounds := {
  dists_start : Z; dists_end : Z;
  depths_start : Z; depths_end : Z;
  times_start : Z; times_end : Z;
  dtdd_start : Z; dtdd_end : Z;
  dtdh_start : Z; dtdh_end : Z }.

(** All indices start at zero. *)
Definition bounds0 : bounds :=
  {| dists_start := 0; dists_end := 0; depths_start := 0; depths_end := 0;
     times_start := 0; times_end := 0; dtdd_start := 0; dtdd_end := 0;
     dtdh_start := 0; dtdh_end := 0 |}.

Definition delta_marker : string := "# delta samples".
Definition depth_marker : string := "# depth samples".
Definition times_marker : string := "# travel times (rows - delta, columns - depth)".
Definition dtdd_marker : string := "# dtdd (rows - delta, columns - depth)".
Definition dtdh_marker : string := "# dtdh (rows - delta, columns - depth)".

(** [' '.join(line.split())] *)
Definition normalise (line : string) : string := join " " (split line).

(** The body of the first loop, for the line of index [ind]. *)
Definition scan_line (b : bounds) (ind : Z) (line : string) : bounds :=
  let key := normalise line in
  if String.eqb key delta_marker then
    {| dists_start := ind + 1; dists_end := dists_end b;
       depths_start := depths_start b; depths_end := depths_end b;
       times_start := times_start b; times_end := times_end b;
       dtdd_start := dtdd_start b; dtdd_end := dtdd_end b;
       dtdh_start := dtdh_start b; dtdh_end := dtdh_end b |}
  else if String.eqb key depth_marker then
    {| dists_start := dists_start b; dists_end := ind - 1;
       depths_start := ind + 1; depths_end := depths_end b;
       times_start := times_start b; times_end := times_end b;
       dtdd_start := dtdd_start b; dtdd_end := dtdd_end b;
       dtdh_start := dtdh_start b; dtdh_end := dtdh_end b |}
  else if String.eqb key times_marker then
    {| dists_start := dists_start b; dists_end := dists_end b;
       depths_start := depths_start b; depths_end := ind - 2;
       times_start := ind + 2; times_end := times_end b;
       dtdd_start := dtdd_start b; dtdd_end := dtdd_end b;
       dtdh_start := dtdh_start b; dtdh_end := dtdh_end b |}
  else if String.eqb key dtdd_marker then
    {| dists_start := dists_start b; dists_end := dists_end b;
       depths_start := depths_start b; depths_end := depths_end b;
       times_start := times_start b; times_end := ind - 2;
       dtdd_start := ind + 2; dtdd_end := dtdd_end b;
       dtdh_start := dtdh_start b; dtdh_end := dtdh_end b |}
  else if String.eqb key dtdh_marker then
    {| dists_start := dists_start b; dists_end := dists_end b;
       depths_start := depths_start b; depths_end := depths_end b;
       times_start := times_start b; times_end := times_end b;
       dtdd_start := dtdd_start b; dtdd_end := ind - 2;
       dtdh_start := ind + 2; dtdh_end := dtdh_end b |}
  else b.

(** The first loop, from the line of index [ind] on: the indices found
    and the final value of [ind]. *)
Fixpoint scan_from (ind : Z) (lines : list string) (b : bounds) : bounds * Z :=
  match lines with
  | [] => (b, ind)
  | line :: rest => scan_from (ind + 1) rest (scan_line b ind line)
  end.

(** The first loop and the assignment [dtdh_end = ind - 4] after it. *)
Definition scan (lines : list string) : bounds :=
  let '(b, ind) := scan_from 0 lines bounds0 in
  {| dists_start := dists_start b; dists_end := dists_end b;
     depths_start := depths_start b; depths_end := depths_end b;
     times_start := times_start b; times_end := times_end b;
     dtdd_start := dtdd_start b; dtdd_end := dtdd_end b;
     dtdh_start := dtdh_start b; dtdh_end := ind - 4 |}.

(** [ind in range(lo, hi)] *)
Definition in_range (ind lo hi : Z) : bool := ((lo <=? ind) && (ind <? hi))%Z.

Inductive section := Dists | Depths | Times | Dtdd | Dtdh.

(** The [if]/[elif] chain of the second loop: the section a line of
    index [ind] is read into, if any. *)
Definition classify (b : bounds) (ind : Z) : option section :=
  if in_range ind (dists_start b) (dists_end b + 1) then Some Dists
  else if in_range ind (depths_start b) (depths_end b + 1) then Some Depths
  else if in_range ind (times_start b) (times_end b + 1) then Some Times
  else if in_range ind (dtdd_start b) (dtdd_end b + 1) then Some Dtdd
  else if in_range ind (dtdh_start b) (dtdh_end b + 1) then Some Dtdh
  else None.

(** The five lists the second loop fills. *)
Record lists := {
  l_ecdists : list float;
  l_depths_km : list float;
  l_times : list (list float);
  l_dtdd : list (list float);
  l_dtdh : list (list float) }.

Definition lists0 : lists :=
  {| l_ecdists := []; l_depths_km := []; l_times := []; l_dtdd := []; l_dtdh := [] |}.

(** What [_parse_tt] leaves in the object. *)
Record table := {
  t_ecdists : list float;
  t_depths_km : list float;
  t_times : ndarray2 float;
  t_dtdd : ndarray2 float;
  t_dtdh : ndarray2 float }.

Record t := {
  ecdists : list float;
  depths_km : list float;
  times : ndarray2 float;
  dtdd : ndarray2 float;
  dtdh : ndarray2 float;
  _fill_value : float;
  times_io : interp;
  dtdd_io : interp;
  dtdh_io : interp }.

Section WithLibraries.

(** [float(item)]: [None] stands for its [ValueError]. *)
Variable py_float : string -> option float.

(** [CloughTocher2DInterpolator(points, values, fill_value=...)]:
    [None] stands for a failed triangulation. *)
Variable CloughTocher2DInterpolator :
  list (float * float) -> list float -> float -> option interp.

(** The [ValueError] of [float()] shows the [repr] of its argument. *)
Definition to_float (item : string) : result float :=
  match py_float item with
  | Some x => Ok x
  | None => Raise (ValueError ("could not convert string to float: " ++ py_repr item))
  end.

(** [[float(item) for item in row if item != '']] *)
Definition floats_of (row : list string) : result (list float) :=
  mapM to_float (List.filter (fun item => negb (String.eqb item "")) row).

(** The body of the second loop. *)
Definition read_line (b : bounds) (ind : Z) (line : string) (acc : lists) : result lists :=
  let row := split line in
  match classify b ind with
  | Some Dists =>
      do xs <- floats_of row;
      Ok {| l_ecdists := l_ecdists acc ++ xs; l_depths_km := l_depths_km acc;
            l_times := l_times acc; l_dtdd := l_dtdd acc; l_dtdh := l_dtdh acc |}
  | Some Depths =>
      do xs <- floats_of row;
      Ok {| l_ecdists := l_ecdists acc; l_depths_km := l_depths_km acc ++ xs;
            l_times := l_times acc; l_dtdd := l_dtdd acc; l_dtdh := l_dtdh acc |}
  | Some Times =>
      do xs <- floats_of row;
      Ok {| l_ecdists := l_ecdists acc; l_depths_km := l_depths_km acc;
            l_times := l_times acc ++ [xs]; l_dtdd := l_dtdd acc; l_dtdh := l_dtdh acc |}
  | Some Dtdd =>
      do xs <- floats_of row;
      Ok {| l_ecdists := l_ecdists acc; l_depths_km := l_depths_km acc;
            l_times := l_times acc; l_dtdd := l_dtdd acc ++ [xs]; l_dtdh := l_dtdh acc |}
  | Some Dtdh =>
      do xs <- floats_of row;
      Ok {| l_ecdists := l_ecdists acc; l_depths_km := l_depths_km acc;
            l_times := l_times acc; l_dtdd := l_dtdd acc; l_dtdh := l_dtdh acc ++ [xs] |}
  | None => Ok acc
  end.

(** The second loop, from the line of index [ind] on. *)
Fixpoint read_from (b : bounds) (ind : Z) (lines : list string) (acc : lists) : result lists :=
  match lines with
  | [] => Ok acc
  | line :: rest =>
      do acc' <- read_line b ind line acc;
      read_from b (ind + 1) rest acc'
  end.

(** The two [assert]s that end [_parse_tt]. *)
Definition check_masks (tm dd dh : ndarray2 float) : result unit :=
  do ok1 <- np_all_equal (np_isnan tm) (np_isnan dd);
  if negb ok1 then Raise AssertionError else
  do ok2 <- np_all_equal (np_isnan tm) (np_isnan dh);
  if negb ok2 then Raise AssertionError else Ok tt.

(** [_parse_tt(self, tt_fn, nanval=-999.0)], on the lines that
    [open(tt_fn).readlines()] returns. *)
Definition _parse_tt (lines : list string) (nanval : float) : result table :=
  let b := scan lines in
  do acc <- read_from b 0 lines lists0;
  do tm <- np_array (l_times acc);
  do dd <- np_array (l_dtdd acc);
  do dh <- np_array (l_dtdh acc);
  let tm := mask_nan nanval tm in
  let dd := mask_nan nanval dd in
  let dh := mask_nan nanval dh in
  do _u <- check_masks tm dd dh;
  Ok {| t_ecdists := l_ecdists acc; t_depths_km := l_depths_km acc;
        t_times := tm; t_dtdd := dd; t_dtdh := dh |}.

Definition nanval_default : float := float_of_int (-999).

Definition make_interpolator (points : list (float * float)) (values : list float)
    (fill : float) : result interp :=
  match CloughTocher2DInterpolator points values fill with
  | Some f => Ok f
  | None => Raise QhullError
  end.

(** [Phase(tt_fn, fill_value)] *)
Definition __init__ (lines : list string) (fill_value : float) : result t :=
  do tb <- _parse_tt lines nanval_default;
  let points := meshgrid_points (t_ecdists tb) (t_depths_km tb) in
  let vidx := map (fun x => negb (isnan x)) (flatten (t_times tb)) in
  do pts <- mask_index points vidx;
  do tv <- mask_index (flatten (t_times tb)) vidx;
  do tio <- make_interpolator pts tv fill_value;
  do pts <- mask_index points vidx;
  do dv <- mask_index (flatten (t_dtdd tb)) vidx;
  do dio <- make_interpolator pts dv fill_value;
  do pts <- mask_index points vidx;
  do hv <- mask_index (flatten (t_dtdh tb)) vidx;
  do hio <- make_interpolator pts hv fill_value;
  Ok {| ecdists := t_ecdists tb; depths_km := t_depths_km tb;
        times := t_times tb; dtdd := t_dtdd tb; dtdh := t_dtdh tb;
        _fill_value := fill_value;
        times_io := tio; dtdd_io := dio; dtdh_io := hio |}.

End WithLibraries.

End Phase.

(** ** Phase labels

    A label is a Python [bytes] or a Python [str]; the two kinds never
    compare equal, whatever their characters. *)

Inductive label :=
| Bytes (b : string)
| Str (s : string).

#[global] Instance label_eq_dec : EqDecision label.
Proof. solve_decision. Defined.

#[global] Instance label_countable : Countable label.
Proof.
  refine (inj_countable'
            (fun l => match l with Bytes b => inl b | Str s => inr s end)
            (fun x => match x with inl b => Bytes b | inr s => Str s end) _).
  intros []; reflexivity.
Defined.

(** [cphase == phase[i]] *)
Definition label_eqb (a b : label) : bool := bool_decide (a = b).

(** [str.encode(phase_name)] *)
Definition str_encode (s : string) : label := Bytes s.

(** ** class TTInterpolator *)

(** The two call shapes of a query: [phase] is one label with scalar
    coordinates, or [phase], [ecdist] and [depth_km] are arrays. *)
Inductive query :=
| Scalar (phase : label) (ecdist depth_km : float)
| Batched (phase : list label) (ecdist depth_km : list float).

(** What a query returns: a float, or an array of dtype ['f4']. *)
Inductive value :=
| VFloat (v : float)
| VArray (a : list float32).

Module TTInterpolator.

Record t := {
  fill_value : float;
  phases : gmap string (gmap label Phase.t) }.

(** [self.phases[model]] on a [defaultdict]: a missing key is inserted
    with an empty dictionary before it is returned. *)
Definition phases_getitem (model : string) (self : t) : gmap label Phase.t * t :=
  match phases self !! model with
  | Some d => (d, self)
  | None => (∅, {| fill_value := fill_value self;
                   phases := <[model := ∅]> (phases self) |})
  end.

(** [self.phases[model][phase_name] = p] *)
Definition phases_setitem (model : string) (phase_name : label) (p : Phase.t) (self : t) : t :=
  let '(d, self') := phases_getitem model self in
  {| fill_value := fill_value self';
     phases := <[model := <[phase_name := p]> d]> (phases self') |}.

Section WithLibraries.

Variable py_float : string -> option float.
Variable CloughTocher2DInterpolator :
  list (float * float) -> list float -> float -> option interp.

(** The body of the loop of [__init__] for the file [fn], whose
    lines are [lines]. *)
Definition add_file (self : t) (fn : string) (lines : list string) : result t :=
  match split_on "." (basename fn) with
  | [model; phase_name; _] =>
      let phase_name := str_encode phase_name in
      do p <- Phase.__init__ py_float CloughTocher2DInterpolator lines (fill_value self);
      Ok (phases_setitem model phase_name p self)
  | _ => Raise (ValueError "wrong number of values to unpack")
  end.

Fixpoint add_files (self : t) (tt_files : list (string * list string)) : result t :=
  match tt_files with
  | [] => Ok self
  | (fn, lines) :: rest =>
      do self' <- add_file self fn lines;
      add_files self' rest
  end.

(** [TTInterpolator()], where [tt_files] is what [glob.glob] finds
    in the table folder, each file with its lines. *)
Definition __init__ (tt_files : list (string * list string)) : result t :=
  add_files {| fill_value := LARGE_VALUE; phases := ∅ |} tt_files.

End WithLibraries.

(** [np.ones(n, dtype='f4') * self.fill_value]: the fill value takes
    the dtype of the array. *)
Definition filled (n : nat) (fill : float) : list float32 :=
  replicate n (f4_mul f4_one (float32_of fill)).

(** The loop over [self.phases[model].keys()] of the batched shape;
    [None] stands for an exception raised inside the [try]. *)
Fixpoint batched_loop (io : Phase.t -> interp) (items : list (label * Phase.t))
    (phase : list label) (ecdist depth_km : list float) (res : list float32)
    : option (list float32) :=
  match items with
  | [] => Some res
  | (cphase, p) :: rest =>
      let indices := argwhere label_eqb cphase phase in
      match indices with
      | [] => batched_loop io rest phase ecdist depth_km res
      | _ =>
          match take_indices ecdist indices, take_indices depth_km indices with
          | Some xs, Some ys =>
              let values := zip_with (io p) xs ys in
              batched_loop io rest phase ecdist depth_km
                (put_indices res indices (map float32_of values))
          | _, _ => None
          end
      end
  end.

Definition not_found_message (model : string) : string :=
  "Either model " ++ model ++ " or phase not found..".

(** The common body of [get_tt], [get_dtdd] and [get_dtdh]; [io]
    selects the interpolator.  The registry after the call is returned
    with the outcome. *)
Definition dispatch (io : Phase.t -> interp) (q : query) (model : string) (self : t)
    : result value * t :=
  let '(d, self') := phases_getitem model self in
  match q with
  | Batched phase ecdist depth_km =>
      match batched_loop io (map_to_list d) phase ecdist depth_km
              (filled (length phase) (fill_value self)) with
      | Some res => (Ok (VArray res), self')
      | None => (Raise (ValueError (not_found_message model)), self')
      end
  | Scalar phase ecdist depth_km =>
      match d !! phase with
      | Some p => (Ok (VFloat (io p ecdist depth_km)), self')
      | None => (Ok (VFloat (fill_value self)), self')
      end
  end.

Definition get_tt (q : query) (model : string) (self : t) : result value * t :=
  dispatch Phase.times_io q model self.

Definition get_dtdd (q : query) (model : string) (self : t) : result value * t :=
  dispatch Phase.dtdd_io q model self.

Definition get_dtdh (q : query) (model : string) (self : t) : result value * t :=
  dispatch Phase.dtdh_io q model self.

End TTInterpolator.

(** ** Decimal literals

    A token reader for the worked examples.  On a plain decimal literal
    (an optional sign, digits, an optional point and digits) of at most
    fifteen digits it returns the binary64 value nearest to the literal,
    as [float()] does; it refuses every other token.  The general
    results below hold for any token reader. *)

Definition digit_of (c : ascii) : option Z :=
  let n := nat_of_ascii c in
  if ((48 <=? n) && (n <=? 57))%nat then Some (Z.of_nat n - 48) else None.

(** Reads a run of digits: the number read so far, how many digits were
    read, and what follows the run. *)
Fixpoint read_digits (s : string) (acc : Z) (count : nat) : Z * nat * string :=
  match s with
  | EmptyString => (acc, count, s)
  | String c s' =>
      match digit_of c with
      | Some d => read_digits s' (10 * acc + d) (S count)
      | None => (acc, count, s)
      end
  end.

Definition decimal_unsigned (neg : bool) (s : string) : option float :=
  let '(ip, ni, rest) := read_digits s 0 0 in
  let '(n, nf, rest') :=
    match rest with
    | String "." frac => read_digits frac ip 0
    | _ => (ip, 0%nat, rest)
    end in
  match rest' with
  | EmptyString =>
      if ((ni + nf =? 0) || (15 <? ni + nf))%nat then None
      else if (n =? 0)%Z then Some (S754_zero neg)
      else Some (SFdiv 53 1024 (float_of_int (if neg then - n else n))
                               (float_of_int (10 ^ Z.of_nat nf)))
  | _ => None
  end.

Definition decimal_literal (s : string) : option float :=
  match s with
  | String "-" s' => decimal_unsigned true s'
  | String "+" s' => decimal_unsigned false s'
  | _ => decimal_unsigned false s
  end.

(** ** Reading the registry *)

(** The [Phase] registered under a model and a label, if any. *)
Definition registered (self : TTInterpolator.t) (model : string) (l : label) : option Phase.t :=
  match TTInterpolator.phases self !! model with
  | Some d => d !! l
  | None => None
  end.

(** The three query methods, each with the interpolator it evaluates. *)
Definition query_methods :
    list ((query -> string -> TTInterpolator.t -> result value * TTInterpolator.t)
          * (Phase.t -> interp)) :=
  [ (TTInterpolator.get_tt, Phase.times_io);
    (TTInterpolator.get_dtdd, Phase.dtdd_io);
    (TTInterpolator.get_dtdh, Phase.dtdh_io) ].

(** ** A worked registry

    A stand-in for SciPy's constructor, for the worked examples: the
    function it builds returns the value of a sample at that sample's
    point and the fill value everywhere else; it refuses fewer than
    three points, as the triangulation does. *)

Definition point_eqb (p q : float * float) : bool :=
  float_eqb (fst p) (fst q) && float_eqb (snd p) (snd q).

Fixpoint sample_at (points : list (float * float)) (values : list float)
    (fill : float) (q : float * float) : float :=
  match points, values with
  | p :: points', v :: values' =>
      if point_eqb p q then v else sample_at points' values' fill q
  | _, _ => fill
  end.

Definition sample_interpolator (points : list (float * float)) (values : list float)
    (fill : float) : option interp :=
  if (length points <? 3)%nat then None
  else Some (fun x y => sample_at points values fill (x, y)).

(** A table of two distances and two depths. *)
Definition small_table (t00 t01 t10 t11 : string) : list string :=
  [ "# delta samples";
    "  0.0  1.0";
    "# depth samples";
    "  0.0  10.0";
    "#";
    "# travel times (rows - delta, columns - depth)";
    "#";
    "  " ++ t00 ++ "  " ++ t01;
    "  " ++ t10 ++ "  " ++ t11;
    "#";
    "# dtdd (rows - delta, columns - depth)";
    "#";
    "  13.5  13.25";
    "  13.0  12.75";
    "#";
    "# dtdh (rows - delta, columns - depth)";
    "#";
    "  -0.125  -0.25";
    "  -0.5  -0.75";
    "#";
    "#";
    "#" ].

Definition table_P : list string := small_table "0.0" "1.5" "13.5" "14.1".
Definition table_S : list string := small_table "0.0" "2.5" "24.25" "25.3".

Definition example_files : list (string * list string) :=
  [ ("/opt/tt/ak135.P.tab", table_P); ("/opt/tt/ak135.S.tab", table_S) ].

(** The float a decimal literal of the examples stands for. *)
Definition lit (s : string) : float := default S754_nan (decimal_literal s).

Definition empty_registry : TTInterpolator.t :=
  {| TTInterpolator.fill_value := LARGE_VALUE; TTInterpolator.phases := ∅ |}.

Definition example_registry : TTInterpolator.t :=
  Eval vm_compute in
  match TTInterpolator.__init__ decimal_literal sample_interpolator example_files with
  | inr self => self
  | inl _ => empty_registry
  end.

(** ** Reading a table *)

(** Whether some line of the file is the given marker line. *)
Definition has_marker (marker : string) (lines : list string) : bool :=
  existsb (fun line => String.eqb (Phase.normalise line) marker) lines.

(** The first and the last index of a section, as the second loop
    tests them, and the sections in the order of its tests. *)
Definition range_of (b : Phase.bounds) (s : Phase.section) : Z * Z :=
  match s with
  | Phase.Dists => (Phase.dists_start b, Phase.dists_end b)
  | Phase.Depths => (Phase.depths_start b, Phase.depths_end b)
  | Phase.Times => (Phase.times_start b, Phase.times_end b)
  | Phase.Dtdd => (Phase.dtdd_start b, Phase.dtdd_end b)
  | Phase.Dtdh => (Phase.dtdh_start b, Phase.dtdh_end b)
  end.

Definition in_section (b : Phase.bounds) (ind : Z) (s : Phase.section) : bool :=
  Phase.in_range ind (fst (range_of b s)) (snd (range_of b s) + 1).

Definition sections : list Phase.section :=
  [Phase.Dists; Phase.Depths; Phase.Times; Phase.Dtdd; Phase.Dtdh].

(** Whether a line is one of the five marker lines. *)
Definition is_marker (line : string) : bool :=
  existsb (String.eqb (Phase.normalise line))
    [ Phase.delta_marker; Phase.depth_marker; Phase.times_marker;
      Phase.dtdd_marker; Phase.dtdh_marker ].

(** All rows of a grid have the same length. *)
Definition rectangular {A} (a : ndarray2 A) : Prop :=
  exists c, Forall (fun row => length row = c) a.

(** The coordinates of the undefined cells of a grid, row by row. *)
Definition undefined_cells (a : ndarray2 float) : list (nat * nat) :=
  concat (imap (fun i row =>
            omap (fun jx => if isnan (snd jx) then Some (i, fst jx) else None)
                 (imap (fun j x => (j, x)) row)) a).

(** [table_P] without its first line, the marker of the distance samples. *)
Definition table_without_delta_marker : list string := tail table_P.

(** A table cut short after the marker of its last section. *)
Definition table_cut_at_dtdh : list string :=
  [ "# delta samples";
    "  0.0";
    "# depth samples";
    "  10.0";
    "#";
    "# travel times (rows - delta, columns - depth)";
    "#";
    "  1.5";
    "#";
    "# dtdd (rows - delta, columns - depth)";
    "#";
    "  13.5";
    "#";
    "# dtdh (rows - delta, columns - depth)" ].

(** A table of two distances and one depth whose travel times are all
    undefined and whose two derivative sections have one row only. *)
Definition table_short_derivatives : list string :=
  [ "# delta samples";
    "  0.0  1.0";
    "# depth samples";
    "  10.0";
    "#";
    "# travel times (rows - delta, columns - depth)";
    "#";
    "  -999.0";
    "  -999.0";
    "#";
    "# dtdd (rows - delta, columns - depth)";
    "#";
    "  -999.0";
    "#";
    "# dtdh (rows - delta, columns - depth)";
    "#";
    "  -999.0";
    "#";
    "#";
    "#" ].

(** [table_P] with the travel time at distance 1.0 and depth 10.0
    undefined while both derivatives are given there. *)
Definition table_mismatched_masks : list string :=
  small_table "0.0" "1.5" "13.5" "-999.0".

(** A table whose section of travel times holds no line, and whose two
    derivatives, one row of one cell each, are undefined in [dtdd] and
    given in [dtdh]. *)
Definition table_empty_times : list string :=
  [ "# delta samples";
    "  0.0";
    "# depth samples";
    "  10.0";
    "#";
    "# travel times (rows - delta, columns - depth)";
    "#";
    "#";
    "# dtdd (rows - delta, columns - depth)";
    "#";
    "  -999.0";
    "#";
    "# dtdh (rows - delta, columns - depth)";
    "#";
    "  1.0";
    "#";
    "#";
    "#" ].

(** ** Tokens, layouts and shapes

    Notions the further properties are stated with. *)

(** A token as [split] returns them: not empty and free of white space. *)
Definition clean_chars (cs : list ascii) : Prop :=
  cs <> [] /\ Forall (fun c => isspace c = false) cs.

Definition clean_token (tok : string) : Prop := clean_chars (list_ascii_of_string tok).

(** The standard layout of a table: comment lines, the marker of the
    distance samples and their lines, the marker of the depth samples
    and their lines, then for each matrix a comment line, its marker, a
    comment line and its lines, and three closing lines. *)
Record layout := {
  header : list string;
  dist_lines : list string;
  depth_lines : list string;
  before_times : string;
  after_times : string;
  time_lines : list string;
  before_dtdd : string;
  after_dtdd : string;
  dtdd_lines : list string;
  before_dtdh : string;
  after_dtdh : string;
  dtdh_lines : list string;
  trailer : list string }.

Definition lines_of (L : layout) : list string :=
  header L ++ [Phase.delta_marker] ++ dist_lines L ++
  [Phase.depth_marker] ++ depth_lines L ++
  [before_times L; Phase.times_marker; after_times L] ++ time_lines L ++
  [before_dtdd L; Phase.dtdd_marker; after_dtdd L] ++ dtdd_lines L ++
  [before_dtdh L; Phase.dtdh_marker; after_dtdh L] ++ dtdh_lines L ++
  trailer L.

(** The layout has three closing lines, and none of its lines other
    than the five markers is a marker line. *)
Definition well_laid (L : layout) : bool :=
  Nat.eqb (length (trailer L)) 3 &&
  forallb (fun line => negb (is_marker line))
    (header L ++ dist_lines L ++ depth_lines L ++
     [before_times L; after_times L] ++ time_lines L ++
     [before_dtdd L; after_dtdd L] ++ dtdd_lines L ++
     [before_dtdh L; after_dtdh L] ++ dtdh_lines L ++ trailer L).

(** The rows of floats that the lines of a section hold, line by line. *)
Definition rows_of (py_float : string -> option float) (block : list string)
    : result (list (list float)) :=
  mapM (fun line => Phase.floats_of py_float (split line)) block.

(** What [_parse_tt] does with the five lists once the second loop has
    filled them: the arrays, the sentinel and the two [assert]s. *)
Definition assemble (acc : Phase.lists) (nanval : float) : result Phase.table :=
  do tm <- np_array (Phase.l_times acc);
  do dd <- np_array (Phase.l_dtdd acc);
  do dh <- np_array (Phase.l_dtdh acc);
  let tm := mask_nan nanval tm in
  let dd := mask_nan nanval dd in
  let dh := mask_nan nanval dh in
  do _u <- Phase.check_masks tm dd dh;
  Ok {| Phase.t_ecdists := Phase.l_ecdists acc;
        Phase.t_depths_km := Phase.l_depths_km acc;
        Phase.t_times := tm; Phase.t_dtdd := dd; Phase.t_dtdh := dh |}.

(** Adding the rows of one section to the five lists: the samples of
    distance and of depth are joined into one list, the rows of a matrix
    are kept apart. *)
Definition extend (s : Phase.section) (rows : list (list float)) (acc : Phase.lists)
    : Phase.lists :=
  match s with
  | Phase.Dists =>
      {| Phase.l_ecdists := Phase.l_ecdists acc ++ concat rows;
         Phase.l_depths_km := Phase.l_depths_km acc;
         Phase.l_times := Phase.l_times acc; Phase.l_dtdd := Phase.l_dtdd acc;
         Phase.l_dtdh := Phase.l_dtdh acc |}
  | Phase.Depths =>
      {| Phase.l_ecdists := Phase.l_ecdists acc;
         Phase.l_depths_km := Phase.l_depths_km acc ++ concat rows;
         Phase.l_times := Phase.l_times acc; Phase.l_dtdd := Phase.l_dtdd acc;
         Phase.l_dtdh := Phase.l_dtdh acc |}
  | Phase.Times =>
      {| Phase.l_ecdists := Phase.l_ecdists acc;
         Phase.l_depths_km := Phase.l_depths_km acc;
         Phase.l_times := Phase.l_times acc ++ rows; Phase.l_dtdd := Phase.l_dtdd acc;
         Phase.l_dtdh := Phase.l_dtdh acc |}
  | Phase.Dtdd =>
      {| Phase.l_ecdists := Phase.l_ecdists acc;
         Phase.l_depths_km := Phase.l_depths_km acc;
         Phase.l_times := Phase.l_times acc; Phase.l_dtdd := Phase.l_dtdd acc ++ rows;
         Phase.l_dtdh := Phase.l_dtdh acc |}
  | Phase.Dtdh =>
      {| Phase.l_ecdists := Phase.l_ecdists acc;
         Phase.l_depths_km := Phase.l_depths_km acc;
         Phase.l_times := Phase.l_times acc; Phase.l_dtdd := Phase.l_dtdd acc;
         Phase.l_dtdh := Phase.l_dtdh acc ++ rows |}
  end.

(** [table_P] as a layout. *)
Definition layout_P : layout :=
  {| header := [];
     dist_lines := ["  0.0  1.0"];
     depth_lines := ["  0.0  10.0"];
     before_times := "#"; after_times := "#";
     time_lines := ["  0.0  1.5"; "  13.5  14.1"];
     before_dtdd := "#"; after_dtdd := "#";
     dtdd_lines := ["  13.5  13.25"; "  13.0  12.75"];
     before_dtdh := "#"; after_dtdh := "#";
     dtdh_lines := ["  -0.125  -0.25"; "  -0.5  -0.75"];
     trailer := ["#"; "#"; "#"] |}.

(** [layout_P] with a third distance sample and no row for it. *)
Definition layout_extra_distance : layout :=
  {| header := header layout_P;
     dist_lines := ["  0.0  1.0  2.0"];
     depth_lines := depth_lines layout_P;
     before_times := "#"; after_times := "#";
     time_lines := time_lines layout_P;
     before_dtdd := "#"; after_dtdd := "#";
     dtdd_lines := dtdd_lines layout_P;
     before_dtdh := "#"; after_dtdh := "#";
     dtdh_lines := dtdh_lines layout_P;
     trailer := trailer layout_P |}.

(** [s.count(c)] *)
Fixpoint count_char (c : ascii) (s : string) : nat :=
  match s with
  | EmptyString => 0
  | String c' s' => if Ascii.eqb c' c then S (count_char c s') else count_char c s'
  end.

(** [layout_P] with the second row of the travel times cut after its
    first value. *)
Definition layout_short_row : layout :=
  {| header := header layout_P;
     dist_lines := dist_lines layout_P;
     depth_lines := depth_lines layout_P;
     before_times := "#"; after_times := "#";
     time_lines := ["  0.0  1.5"; "  13.5"];
     before_dtdd := "#"; after_dtdd := "#";
     dtdd_lines := dtdd_lines layout_P;
     before_dtdh := "#"; after_dtdh := "#";
     dtdh_lines := dtdh_lines layout_P;
     trailer := trailer layout_P |}.

(** A file loads: its name has the three parts and its [Phase] can be
    built with the fill value [LARGE_VALUE]. *)
Definition loads (py_float : string -> option float)
    (CloughTocher2DInterpolator :
       list (float * float) -> list float -> float -> option interp)
    (file : string * list string) : Prop :=
  exists model name ext p,
    split_on "." (basename (fst file)) = [model; name; ext] /\
    Phase.__init__ py_float CloughTocher2DInterpolator (snd file) LARGE_VALUE = Ok p.

(** * Properties *)

(** ** Rounding to 32 bits *)

Section Rounding.

Lemma digits2_pos_size p : digits2_pos p = Pos.size p.
Proof. induction p; simpl; congruence. Qed.

Lemma Zdigits2_log2 m : 0 < m -> Zdigits2 m = Z.log2 m + 1.
Proof.
  destruct m as [|p|p]; try lia. intros _. simpl. rewrite digits2_pos_size.
  destruct p; simpl; lia.
Qed.

Lemma shr_1_m r : 0 <= shr_m r -> shr_m (shr_1 r) = Z.div2 (shr_m r).
Proof.
  destruct r as [m r s]. simpl. intros H.
  destruct m as [|[p|p|]|p]; simpl; try reflexivity; lia.
Qed.

Lemma iter_pos_iter {A} (f : A -> A) p x : SpecFloat.iter_pos f p x = Pos.iter f x p.
Proof.
  revert x. induction p; intros x; simpl.
  - rewrite !IHp, !Pos.iter_swap. reflexivity.
  - rewrite !IHp. reflexivity.
  - reflexivity.
Qed.

Lemma iter_shr_m p r :
  0 <= shr_m r -> shr_m (SpecFloat.iter_pos shr_1 p r) = Z.shiftr (shr_m r) (Zpos p).
Proof.
  rewrite iter_pos_iter. revert r.
  induction p using Pos.peano_ind; intros r H.
  - simpl. rewrite shr_1_m by assumption. rewrite Z.div2_spec. reflexivity.
  - rewrite Pos.iter_succ. rewrite shr_1_m.
    + rewrite IHp by assumption.
      rewrite Z.div2_spec, Z.shiftr_shiftr by lia. f_equal. lia.
    + rewrite IHp by assumption. apply Z.shiftr_nonneg. assumption.
Qed.

Lemma digits2_pos_iter_xO m d :
  Zpos (digits2_pos (Pos.iter xO m d)) = Zpos (digits2_pos m) + Zpos d.
Proof.
  induction d using Pos.peano_ind.
  - simpl. lia.
  - rewrite Pos.iter_succ. simpl. lia.
Qed.

Lemma round_nearest_even_bounds m l :
  m <= round_nearest_even m l <= m + 1.
Proof. destruct l as [|[]]; simpl; try lia. destruct (Z.even m); lia. Qed.

Variables prec emax : Z.
Hypothesis Hprec : 0 < prec.

Lemma shr_fexp_spec m e l :
  0 <= m -> e <= fexp prec emax (Zdigits2 m + e) ->
  shr_m (fst (shr_fexp prec emax m e l))
    = Z.shiftr m (fexp prec emax (Zdigits2 m + e) - e)
  /\ snd (shr_fexp prec emax m e l) = fexp prec emax (Zdigits2 m + e).
Proof.
  intros Hm He. unfold shr_fexp, shr.
  assert (Hrec : shr_m (shr_record_of_loc m l) = m) by (destruct l as [|[]]; reflexivity).
  destruct (fexp prec emax (Zdigits2 m + e) - e) as [|p|p] eqn:E; simpl.
  - rewrite Hrec, Z.shiftr_0_r. split; [reflexivity | lia].
  - rewrite iter_shr_m by (rewrite Hrec; assumption).
    rewrite Hrec. split; [reflexivity | lia].
  - lia.
Qed.

(** Rounding a mantissa that is not too short gives a number of the
    format: zero, an infinity, or a canonical mantissa and exponent. *)
Lemma binary_round_aux_valid s mx ex lx :
  0 < mx -> ex <= fexp prec emax (Zdigits2 mx + ex) ->
  valid_binary prec emax (binary_round_aux prec emax s mx ex lx) = true.
Proof.
  intros Hmx Hex. unfold binary_round_aux.
  destruct (shr_fexp_spec mx ex lx ltac:(lia) Hex) as [Hm1 He1].
  destruct (shr_fexp prec emax mx ex lx) as [mrs' e'] eqn:E1. simpl in Hm1, He1.
  set (m1 := shr_m mrs') in *.
  set (m2 := round_nearest_even m1 (loc_of_shr_record mrs')).
  pose proof (round_nearest_even_bounds m1 (loc_of_shr_record mrs')) as Hm2.
  fold m2 in Hm2.
  assert (Hm1nn : 0 <= m1) by (rewrite Hm1; apply Z.shiftr_nonneg; lia).
  assert (Hn' : e' <= fexp prec emax (Zdigits2 m2 + e')).
  { unfold fexp in *.
    destruct (Z.max_spec (Zdigits2 mx + ex - prec) (emin prec emax))
      as [[Hlt Hmax]|[Hge Hmax]]; rewrite Hmax in *; [lia|].
    pose proof (Zdigits2_log2 mx Hmx) as Hd.
    assert (Hl1 : Z.log2 m1 = prec - 1).
    { rewrite Hm1, Z.log2_shiftr by lia. rewrite Hd. clear -Hprec. lia. }
    assert (0 < m1).
    { destruct (Z.eq_dec m1 0) as [Hz|]; [|lia]. rewrite Hm1 in Hz.
      apply Z.shiftr_eq_0_iff in Hz. rewrite Hd in Hz. lia. }
    assert (Z.log2 m1 <= Z.log2 m2) by (apply Z.log2_le_mono; lia).
    rewrite (Zdigits2_log2 m2) by lia. lia. }
  destruct (shr_fexp_spec m2 e' loc_Exact ltac:(lia) Hn') as [Hm3 He3].
  destruct (shr_fexp prec emax m2 e' loc_Exact) as [mrs'' e''] eqn:E2.
  simpl in Hm3, He3.
  destruct (shr_m mrs'') as [|m3|m3] eqn:E3; try reflexivity.
  destruct (e'' <=? emax - prec) eqn:Ele; try reflexivity.
  simpl. unfold bounded. rewrite Ele, andb_true_r. unfold canonical_mantissa.
  apply Z.eqb_eq.
  change (Z.pos (digits2_pos m3)) with (Zdigits2 (Z.pos m3)).
  rewrite Zdigits2_log2 by lia. rewrite Hm3.
  assert (0 < m2).
  { destruct (Z.eq_dec m2 0) as [->|]; [|lia]. rewrite Z.shiftr_0_l in Hm3. lia. }
  rewrite Z.log2_shiftr by lia.
  assert (0 <= Z.log2 m2 - (fexp prec emax (Zdigits2 m2 + e') - e')).
  { destruct (Z.lt_ge_cases (Z.log2 m2) (fexp prec emax (Zdigits2 m2 + e') - e'))
      as [Hlt|]; [|lia].
    pose proof (proj2 (Z.shiftr_eq_0_iff m2 (fexp prec emax (Zdigits2 m2 + e') - e'))) as Hz.
    rewrite Hz in Hm3; [lia|]. right. split; lia. }
  rewrite Z.max_r by lia. rewrite (Zdigits2_log2 m2) in * by lia.
  rewrite He3. f_equal. lia.
Qed.

Lemma binary_round_valid s m e :
  valid_binary prec emax (binary_round prec emax s m e) = true.
Proof.
  unfold binary_round, shl_align.
  destruct (fexp prec emax (Z.pos (digits2_pos m) + e) - e) as [|d|d] eqn:E.
  - apply binary_round_aux_valid; cbn [Zdigits2]; lia.
  - apply binary_round_aux_valid; cbn [Zdigits2]; lia.
  - apply binary_round_aux_valid; try lia. cbn [Zdigits2].
    rewrite digits2_pos_iter_xO.
    replace (Z.pos (digits2_pos m) + Z.pos d + fexp prec emax (Z.pos (digits2_pos m) + e))
      with (Z.pos (digits2_pos m) + e) by lia.
    lia.
Qed.

End Rounding.

Lemma float32_of_valid x : valid_binary 24 128 (float32_of x) = true.
Proof. destruct x; try reflexivity. apply binary_round_valid. lia. Qed.

(** Multiplying a 32-bit float by [1.0] gives it back. *)
Lemma f4_mul_one y : valid_binary 24 128 y = true -> f4_mul f4_one y = y.
Proof.
  destruct y as [s|s| |s m e]; try reflexivity. simpl valid_binary.
  unfold bounded, canonical_mantissa. intros H. apply andb_prop in H as [Hc He].
  apply Z.eqb_eq in Hc.
  unfold f4_mul. change f4_one with (S754_finite false 8388608 (-23)).
  unfold SFmul. simpl xorb.
  change (Pos.mul 8388608 m) with (Pos.iter xO m 23).
  unfold binary_round_aux.
  assert (E1 : shr_fexp 24 128 (Z.pos (Pos.iter xO m 23)) (-23 + e) loc_Exact
               = ({| shr_m := Z.pos m; shr_r := false; shr_s := false |}, e)).
  { unfold shr_fexp. cbn [Zdigits2]. rewrite digits2_pos_iter_xO.
    replace (Z.pos (digits2_pos m) + 23 + (-23 + e)) with (Z.pos (digits2_pos m) + e) by lia.
    rewrite Hc. replace (e - (-23 + e)) with 23 by lia.
    unfold shr. replace (-23 + e + 23) with e by lia. reflexivity. }
  rewrite E1. cbn [shr_m loc_of_shr_record round_nearest_even].
  assert (E2 : shr_fexp 24 128 (Z.pos m) e loc_Exact
               = ({| shr_m := Z.pos m; shr_r := false; shr_s := false |}, e)).
  { unfold shr_fexp. cbn [Zdigits2]. rewrite Hc, Z.sub_diag. reflexivity. }
  rewrite E2. cbn [shr_m]. rewrite He. reflexivity.
Qed.

(** Every entry of the array [np.ones(n, dtype='f4') * fill] is the fill
    value rounded to 32 bits. *)
Lemma filled_lookup n fill i :
  (i < n)%nat -> TTInterpolator.filled n fill !! i = Some (float32_of fill).
Proof.
  intros Hi. unfold TTInterpolator.filled.
  rewrite f4_mul_one by apply float32_of_valid.
  apply lookup_replicate_2. exact Hi.
Qed.

(** ** Index arrays *)

Section Indices.
Context {A : Type}.

Lemma argwhere_from_spec (eqb : A -> A -> bool) c (a : list A) k j :
  j ∈ argwhere_from eqb c k a <->
  exists i x, j = (k + i)%nat /\ a !! i = Some x /\ eqb c x = true.
Proof.
  revert k. induction a as [|y a IH]; intros k; simpl.
  - split; [intros H; inversion H | intros (i & x & _ & H & _); discriminate].
  - split.
    + intros H. destruct (eqb c y) eqn:E.
      * apply elem_of_cons in H as [->|H].
        -- exists 0%nat, y. simpl. repeat split; [lia | assumption].
        -- apply IH in H as (i & x & -> & Hx & Hc).
           exists (S i), x. simpl. repeat split; [lia | assumption | assumption].
      * apply IH in H as (i & x & -> & Hx & Hc).
        exists (S i), x. simpl. repeat split; [lia | assumption | assumption].
    + intros (i & x & -> & Hx & Hc). destruct i as [|i]; simpl in Hx.
      * injection Hx as ->. rewrite Hc. rewrite Nat.add_0_r. apply list_elem_of_here.
      * assert (Hin : (k + S i)%nat ∈ argwhere_from eqb c (S k) a).
        { apply IH. exists i, x. repeat split; [lia | assumption | assumption]. }
        destruct (eqb c y); [apply list_elem_of_further|]; exact Hin.
Qed.

Lemma argwhere_from_lower (eqb : A -> A -> bool) c (a : list A) k j :
  j ∈ argwhere_from eqb c k a -> (k <= j)%nat.
Proof. intros H. apply argwhere_from_spec in H as (i & x & -> & _). lia. Qed.

Lemma argwhere_from_NoDup (eqb : A -> A -> bool) c (a : list A) k :
  NoDup (argwhere_from eqb c k a).
Proof.
  revert k. induction a as [|y a IH]; intros k; simpl.
  - constructor.
  - destruct (eqb c y); [|apply IH].
    constructor; [|apply IH].
    intros H. apply argwhere_from_lower in H. lia.
Qed.

Lemma take_indices_total (a : list A) indices :
  (forall j, j ∈ indices -> (j < length a)%nat) ->
  exists xs, take_indices a indices = Some xs /\ length xs = length indices /\
    forall k j, indices !! k = Some j -> xs !! k = a !! j.
Proof.
  induction indices as [|i rest IH]; intros Hb; simpl.
  - exists []. repeat split. intros k j H. discriminate.
  - destruct (lookup_lt_is_Some_2 a i) as [x Hx].
    { apply Hb. apply list_elem_of_here. }
    destruct IH as (xs & Hxs & Hlen & Hk).
    { intros j Hj. apply Hb. apply list_elem_of_further. exact Hj. }
    rewrite Hx, Hxs. exists (x :: xs). repeat split.
    + simpl. congruence.
    + intros [|k] j H; simpl in *.
      * injection H as <-. symmetry. exact Hx.
      * apply Hk. exact H.
Qed.

Lemma take_indices_Some (a : list A) indices xs :
  take_indices a indices = Some xs ->
  length xs = length indices /\
  forall k j, indices !! k = Some j -> is_Some (a !! j) /\ xs !! k = a !! j.
Proof.
  revert xs. induction indices as [|i rest IH]; intros xs; simpl.
  - intros H. injection H as <-. split; [reflexivity|]. intros k j H. discriminate.
  - destruct (a !! i) as [x|] eqn:Hx; [|discriminate].
    destruct (take_indices a rest) as [xs'|]; [|discriminate].
    intros H. injection H as <-. destruct (IH xs' eq_refl) as [Hlen Hk].
    split; [simpl; congruence|].
    intros [|k] j H; simpl in *.
    + injection H as <-. rewrite Hx. eauto.
    + apply Hk. exact H.
Qed.

Lemma put_indices_notin (a : list A) indices values j :
  j ∉ indices -> put_indices a indices values !! j = a !! j.
Proof.
  revert a values. induction indices as [|i rest IH]; intros a values Hj; simpl.
  - reflexivity.
  - destruct values as [|v values]; [reflexivity|].
    rewrite IH by (intros H; apply Hj; apply list_elem_of_further; exact H).
    apply list_lookup_insert_ne. intros ->. apply Hj. apply list_elem_of_here.
Qed.

Lemma put_indices_in (a : list A) indices values k j :
  NoDup indices -> length values = length indices ->
  indices !! k = Some j -> (j < length a)%nat ->
  put_indices a indices values !! j = values !! k.
Proof.
  revert a values k. induction indices as [|i rest IH]; intros a values k Hnd Hlen Hk Hj.
  - discriminate.
  - destruct values as [|v values]; [discriminate|]. simpl.
    apply NoDup_cons in Hnd as [Hi Hnd].
    destruct k as [|k]; simpl in Hk.
    + injection Hk as ->. rewrite put_indices_notin by exact Hi.
      simpl. apply list_lookup_insert_eq. exact Hj.
    + simpl. apply IH; try assumption.
      * simpl in Hlen. lia.
      * rewrite length_insert. exact Hj.
Qed.

Lemma put_indices_length (a : list A) indices values :
  length (put_indices a indices values) = length a.
Proof.
  revert a values. induction indices as [|i rest IH]; intros a values; simpl.
  - reflexivity.
  - destruct values; [reflexivity|]. rewrite IH. apply length_insert.
Qed.

End Indices.

Lemma argwhere_label c (phase : list label) j :
  j ∈ argwhere label_eqb c phase <-> phase !! j = Some c.
Proof.
  unfold argwhere. rewrite argwhere_from_spec. split.
  - intros (i & x & -> & Hx & Hc). apply bool_decide_eq_true in Hc. subst x. exact Hx.
  - intros H. exists j, c. repeat split; [assumption|]. apply bool_decide_eq_true. reflexivity.
Qed.

Lemma lookup_map {A B} (f : A -> B) (l : list A) i :
  map f l !! i = f <$> (l !! i).
Proof.
  revert i. induction l as [|a l IH]; intros [|i]; simpl; try reflexivity. apply IH.
Qed.

(** ** The batched loop *)

(** One turn of the loop, for the registered label [cphase]: the slots
    whose label is [cphase] receive the rounded value of its
    interpolator, the others are left as they were. *)
Lemma batched_loop_step io cphase p phase ecdist depth_km res :
  length ecdist = length phase ->
  length depth_km = length phase ->
  length res = length phase ->
  exists res1,
    length res1 = length phase /\
    (forall rest,
        TTInterpolator.batched_loop io ((cphase, p) :: rest) phase ecdist depth_km res
        = TTInterpolator.batched_loop io rest phase ecdist depth_km res1) /\
    forall i l x y,
      phase !! i = Some l -> ecdist !! i = Some x -> depth_km !! i = Some y ->
      (l = cphase -> res1 !! i = Some (float32_of (io p x y))) /\
      (l <> cphase -> res1 !! i = res !! i).
Proof.
  intros He Hd Hr. cbn [TTInterpolator.batched_loop].
  pose proof (argwhere_label cphase phase) as Hin.
  pose proof (argwhere_from_NoDup label_eqb cphase phase 0) as Hnd.
  fold (argwhere label_eqb cphase phase) in Hnd.
  generalize dependent (argwhere label_eqb cphase phase).
  intros [|i0 more] Hin Hnd.
  - exists res. split; [assumption|]. split; [reflexivity|].
    intros i l x y Hl Hx Hy. split; [|reflexivity].
    intros ->. apply Hin in Hl. inversion Hl.
  - set (indices := i0 :: more) in *.
    assert (Hb : forall j, j ∈ indices -> (j < length phase)%nat).
    { intros j Hj. apply Hin in Hj. eapply lookup_lt_Some. exact Hj. }
    destruct (take_indices_total ecdist indices) as (xs & Hxs & Hlx & Hkx).
    { intros j Hj. rewrite He. apply Hb. exact Hj. }
    destruct (take_indices_total depth_km indices) as (ys & Hys & Hly & Hky).
    { intros j Hj. rewrite Hd. apply Hb. exact Hj. }
    exists (put_indices res indices (map float32_of (zip_with (io p) xs ys))).
    split; [rewrite put_indices_length; assumption|]. split.
    + intros rest. rewrite Hxs, Hys. reflexivity.
    + intros i l x y Hl Hx Hy. split.
      * intros ->. apply Hin in Hl.
        apply list_elem_of_lookup in Hl as [k Hk].
        rewrite (put_indices_in _ _ _ k).
        -- rewrite lookup_map, lookup_zip_with.
           rewrite (Hkx _ _ Hk), (Hky _ _ Hk), Hx, Hy. reflexivity.
        -- exact Hnd.
        -- rewrite length_map, length_zip_with. lia.
        -- exact Hk.
        -- rewrite Hr. apply Hb. apply list_elem_of_lookup. eauto.
      * intros Hne. apply put_indices_notin.
        intros Hi. apply Hin in Hi. congruence.
Qed.

(** With parallel arrays the loop over the registered phases ends
    without an exception.  A slot whose label is registered holds the
    value of that phase's interpolator at the slot's coordinates, rounded
    to 32 bits; a slot whose label is not registered is left as it was. *)
Lemma batched_loop_spec io items phase ecdist depth_km res :
  NoDup items.*1 ->
  length ecdist = length phase ->
  length depth_km = length phase ->
  length res = length phase ->
  exists res',
    TTInterpolator.batched_loop io items phase ecdist depth_km res = Some res' /\
    length res' = length phase /\
    forall i l x y,
      phase !! i = Some l -> ecdist !! i = Some x -> depth_km !! i = Some y ->
      (forall p, (l, p) ∈ items -> res' !! i = Some (float32_of (io p x y))) /\
      (l ∉ items.*1 -> res' !! i = res !! i).
Proof.
  intros Hnd He Hd. revert res Hnd.
  induction items as [|[cphase p] rest IH]; intros res Hnd Hr.
  - exists res. repeat split; try assumption.
    intros q Hq. inversion Hq.
  - simpl in Hnd. apply NoDup_cons in Hnd as [Hfresh Hnd].
    destruct (batched_loop_step io cphase p phase ecdist depth_km res He Hd Hr)
      as (res1 & Hr1 & Hstep & Hspec1).
    destruct (IH res1 Hnd Hr1) as (res' & Hloop & Hlen & Hspec).
    exists res'. split; [rewrite Hstep; exact Hloop|].
    split; [exact Hlen|].
    intros i l x y Hl Hx Hy.
    destruct (Hspec i l x y Hl Hx Hy) as [Hreg Hunreg].
    destruct (Hspec1 i l x y Hl Hx Hy) as [Hsame Hother].
    split.
    + intros q Hq. apply elem_of_cons in Hq as [Hq|Hq].
      * injection Hq as -> ->. rewrite Hunreg by exact Hfresh. apply Hsame. reflexivity.
      * apply Hreg. exact Hq.
    + intros Hl'. simpl in Hl'. apply not_elem_of_cons in Hl' as [Hne Hl'].
      rewrite Hunreg by exact Hl'. apply Hother. exact Hne.
Qed.

Example example_registry_built :
  TTInterpolator.__init__ decimal_literal sample_interpolator example_files
  = Ok example_registry.
Proof. vm_compute. reflexivity. Qed.

(** The same for any arrays, parallel or not, when the loop ends without
    an exception: a slot whose label is registered then has coordinates. *)
Lemma batched_loop_step_ret io cphase p rest phase ecdist depth_km res res' :
  length res = length phase ->
  TTInterpolator.batched_loop io ((cphase, p) :: rest) phase ecdist depth_km res = Some res' ->
  exists res1,
    length res1 = length phase /\
    TTInterpolator.batched_loop io rest phase ecdist depth_km res1 = Some res' /\
    forall i l,
      phase !! i = Some l ->
      (l = cphase ->
         exists x y, ecdist !! i = Some x /\ depth_km !! i = Some y /\
                     res1 !! i = Some (float32_of (io p x y))) /\
      (l <> cphase -> res1 !! i = res !! i).
Proof.
  intros Hr. cbn [TTInterpolator.batched_loop].
  pose proof (argwhere_label cphase phase) as Hin.
  pose proof (argwhere_from_NoDup label_eqb cphase phase 0) as Hnd.
  fold (argwhere label_eqb cphase phase) in Hnd.
  generalize dependent (argwhere label_eqb cphase phase).
  intros [|i0 more] Hin Hnd.
  - intros Hloop. exists res. split; [assumption|]. split; [exact Hloop|].
    intros i l Hl. split; [|reflexivity].
    intros ->. apply Hin in Hl. inversion Hl.
  - set (indices := i0 :: more) in *.
    destruct (take_indices ecdist indices) as [xs|] eqn:Hxs; [|discriminate].
    destruct (take_indices depth_km indices) as [ys|] eqn:Hys; [|discriminate].
    intros Hloop.
    destruct (take_indices_Some _ _ _ Hxs) as [Hlx Hkx].
    destruct (take_indices_Some _ _ _ Hys) as [Hly Hky].
    exists (put_indices res indices (map float32_of (zip_with (io p) xs ys))).
    split; [rewrite put_indices_length; assumption|]. split; [exact Hloop|].
    intros i l Hl. split.
    + intros ->. apply Hin in Hl as Hi.
      apply list_elem_of_lookup in Hi as [k Hk].
      destruct (Hkx k i Hk) as [[x Hx] Hxk]. destruct (Hky k i Hk) as [[y Hy] Hyk].
      exists x, y. split; [exact Hx|]. split; [exact Hy|].
      rewrite (put_indices_in _ _ _ k).
      * rewrite lookup_map, lookup_zip_with, Hxk, Hyk, Hx, Hy. reflexivity.
      * exact Hnd.
      * rewrite length_map, length_zip_with. lia.
      * exact Hk.
      * rewrite Hr. eapply lookup_lt_Some. exact Hl.
    + intros Hne. apply put_indices_notin.
      intros Hi. apply Hin in Hi. congruence.
Qed.

Lemma batched_loop_ret io items phase ecdist depth_km : forall res res',
  NoDup items.*1 ->
  length res = length phase ->
  TTInterpolator.batched_loop io items phase ecdist depth_km res = Some res' ->
  length res' = length phase /\
  forall i l,
    phase !! i = Some l ->
    (forall p, (l, p) ∈ items ->
       exists x y, ecdist !! i = Some x /\ depth_km !! i = Some y /\
                   res' !! i = Some (float32_of (io p x y))) /\
    (l ∉ items.*1 -> res' !! i = res !! i).
Proof.
  induction items as [|[cphase p] rest IH]; intros res res' Hnd Hr Hloop.
  - simpl in Hloop. injection Hloop as <-. split; [exact Hr|].
    intros i l Hl. split; [|reflexivity]. intros q Hq. inversion Hq.
  - simpl in Hnd. apply NoDup_cons in Hnd as [Hfresh Hnd].
    destruct (batched_loop_step_ret _ _ _ _ _ _ _ _ _ Hr Hloop)
      as (res1 & Hr1 & Hrest & Hspec1).
    destruct (IH res1 res' Hnd Hr1 Hrest) as [Hlen Hspec].
    split; [exact Hlen|].
    intros i l Hl.
    destruct (Hspec i l Hl) as [Hreg Hunreg].
    destruct (Hspec1 i l Hl) as [Hsame Hother].
    split.
    + intros q Hq. apply elem_of_cons in Hq as [Hq|Hq].
      * injection Hq as -> ->.
        destruct (Hsame eq_refl) as (x & y & Hx & Hy & Hv).
        exists x, y. split; [exact Hx|]. split; [exact Hy|].
        rewrite Hunreg by exact Hfresh. exact Hv.
      * apply Hreg. exact Hq.
    + intros Hl'. simpl in Hl'. apply not_elem_of_cons in Hl' as [Hne Hl'].
      rewrite Hunreg by exact Hl'. apply Hother. exact Hne.
Qed.

(** ** The query methods *)

(** What a slot or a scalar query evaluates to before any rounding: the
    registered interpolator at the coordinates, or the fill value. *)
Lemma dispatch_scalar io l x y model self :
  fst (TTInterpolator.dispatch io (Scalar l x y) model self)
  = Ok (VFloat (match registered self model l with
                | Some p => io p x y
                | None => TTInterpolator.fill_value self
                end)).
Proof.
  unfold TTInterpolator.dispatch, TTInterpolator.phases_getitem, registered.
  destruct (TTInterpolator.phases self !! model) as [d|]; simpl.
  - destruct (d !! l); reflexivity.
  - rewrite lookup_empty. reflexivity.
Qed.

Lemma dispatch_batched io phase ecdist depth_km model self :
  length ecdist = length phase ->
  length depth_km = length phase ->
  exists res,
    fst (TTInterpolator.dispatch io (Batched phase ecdist depth_km) model self)
      = Ok (VArray res) /\
    length res = length phase /\
    forall i l x y,
      phase !! i = Some l -> ecdist !! i = Some x -> depth_km !! i = Some y ->
      res !! i = Some (float32_of (match registered self model l with
                                   | Some p => io p x y
                                   | None => TTInterpolator.fill_value self
                                   end)).
Proof.
  intros He Hd.
  unfold TTInterpolator.dispatch, TTInterpolator.phases_getitem, registered.
  assert (Hgen : forall d : gmap label Phase.t,
    exists res,
      TTInterpolator.batched_loop io (map_to_list d) phase ecdist depth_km
        (TTInterpolator.filled (length phase) (TTInterpolator.fill_value self)) = Some res /\
      length res = length phase /\
      forall i l x y,
        phase !! i = Some l -> ecdist !! i = Some x -> depth_km !! i = Some y ->
        res !! i = Some (float32_of (match d !! l with
                                     | Some p => io p x y
                                     | None => TTInterpolator.fill_value self
                                     end))).
  { intros d.
    destruct (batched_loop_spec io (map_to_list d) phase ecdist depth_km
                (TTInterpolator.filled (length phase) (TTInterpolator.fill_value self)))
      as (res & Hloop & Hlen & Hspec); try assumption.
    - apply NoDup_fst_map_to_list.
    - unfold TTInterpolator.filled. apply length_replicate.
    - exists res. split; [exact Hloop|]. split; [exact Hlen|].
      intros i l x y Hl Hx Hy. destruct (Hspec i l x y Hl Hx Hy) as [Hreg Hunreg].
      destruct (d !! l) as [p|] eqn:Hdl.
      + apply Hreg. apply elem_of_map_to_list. exact Hdl.
      + rewrite Hunreg.
        * apply filled_lookup. eapply lookup_lt_Some. exact Hl.
        * intros Hin. apply list_elem_of_fmap in Hin as ([l' p] & -> & Hin).
          apply elem_of_map_to_list in Hin. simpl in Hdl. congruence. }
  destruct (TTInterpolator.phases self !! model) as [d|].
  - destruct (Hgen d) as (res & Hloop & Hlen & Hspec).
    exists res. rewrite Hloop. simpl. auto.
  - destruct (Hgen ∅) as (res & Hloop & Hlen & Hspec).
    exists res. rewrite Hloop. simpl. split; [reflexivity|]. split; [exact Hlen|].
    intros i l x y Hl Hx Hy. rewrite (Hspec i l x y Hl Hx Hy), lookup_empty. reflexivity.
Qed.

Lemma dispatch_batched_ret io phase ecdist depth_km model self res :
  fst (TTInterpolator.dispatch io (Batched phase ecdist depth_km) model self)
    = Ok (VArray res) ->
  length res = length phase /\
  forall i l,
    phase !! i = Some l ->
    (forall p, registered self model l = Some p ->
       exists x y, ecdist !! i = Some x /\ depth_km !! i = Some y /\
                   res !! i = Some (float32_of (io p x y))) /\
    (registered self model l = None ->
       res !! i = Some (float32_of (TTInterpolator.fill_value self))).
Proof.
  unfold TTInterpolator.dispatch, TTInterpolator.phases_getitem, registered.
  assert (Hgen : forall d : gmap label Phase.t,
    TTInterpolator.batched_loop io (map_to_list d) phase ecdist depth_km
      (TTInterpolator.filled (length phase) (TTInterpolator.fill_value self)) = Some res ->
    length res = length phase /\
    forall i l,
      phase !! i = Some l ->
      (forall p, d !! l = Some p ->
         exists x y, ecdist !! i = Some x /\ depth_km !! i = Some y /\
                     res !! i = Some (float32_of (io p x y))) /\
      (d !! l = None ->
         res !! i = Some (float32_of (TTInterpolator.fill_value self)))).
  { intros d Hloop.
    destruct (batched_loop_ret io (map_to_list d) phase ecdist depth_km _ _
                (NoDup_fst_map_to_list d)
                (length_replicate _ _) Hloop) as [Hlen Hspec].
    split; [exact Hlen|]. intros i l Hl. destruct (Hspec i l Hl) as [Hreg Hunreg].
    split.
    - intros p Hp. apply Hreg. apply elem_of_map_to_list. exact Hp.
    - intros Hnone. rewrite Hunreg.
      + apply filled_lookup. eapply lookup_lt_Some. exact Hl.
      + intros Hin. apply list_elem_of_fmap in Hin as ([l' p] & -> & Hin).
        apply elem_of_map_to_list in Hin. simpl in Hnone. congruence. }
  destruct (TTInterpolator.phases self !! model) as [d|].
  - destruct (TTInterpolator.batched_loop _ _ _ _ _ _) as [r|] eqn:Hloop;
      simpl; [|discriminate].
    intros H. injection H as <-. apply Hgen. exact Hloop.
  - destruct (TTInterpolator.batched_loop _ _ _ _ _ _) as [r|] eqn:Hloop;
      simpl; [|discriminate].
    intros H. injection H as <-. destruct (Hgen ∅ Hloop) as [Hlen Hspec].
    split; [exact Hlen|]. intros i l Hl. destruct (Hspec i l Hl) as [_ Hunreg].
    split; [intros p Hp; discriminate|].
    intros _. apply Hunreg. apply lookup_empty.
Qed.

Lemma query_methods_dispatch get io :
  (get, io) ∈ query_methods -> get = TTInterpolator.dispatch io.
Proof.
  unfold query_methods. rewrite !elem_of_cons.
  intros [H|[H|[H|H]]]; try (injection H as -> ->; reflexivity). inversion H.
Qed.

(** *** Scalar queries for an unregistered phase *)

(** C1, as the code has it: a scalar query through [get_tt], [get_dtdd]
    or [get_dtdh] whose (model, phase) pair has no registered [Phase]
    does not raise; it returns the fill value of the registry. *)
Theorem scalar_unregistered_returns_fill get io self model phase x y :
  (get, io) ∈ query_methods ->
  registered self model phase = None ->
  fst (get (Scalar phase x y) model self)
  = Ok (VFloat (TTInterpolator.fill_value self)).
Proof.
  intros Hget Hreg. rewrite (query_methods_dispatch get io Hget).
  rewrite dispatch_scalar, Hreg. reflexivity.
Qed.

Lemma scalar_unregistered_returns_fill_witness :
  (TTInterpolator.get_dtdd, Phase.dtdd_io) ∈ query_methods /\
  registered example_registry "iasp91" (Bytes "P") = None /\
  fst (TTInterpolator.get_dtdd (Scalar (Bytes "P") (float_of_int 1) (float_of_int 10))
         "iasp91" example_registry)
  = Ok (VFloat (TTInterpolator.fill_value example_registry)).
Proof.
  assert (Hin : (TTInterpolator.get_dtdd, Phase.dtdd_io) ∈ query_methods)
    by (apply list_elem_of_further, list_elem_of_here).
  assert (Hreg : registered example_registry "iasp91" (Bytes "P") = None)
    by (vm_compute; reflexivity).
  split; [exact Hin|]. split; [exact Hreg|].
  exact (scalar_unregistered_returns_fill _ _ example_registry "iasp91" (Bytes "P")
           (float_of_int 1) (float_of_int 10) Hin Hreg).
Defined.

(** C1 fails as stated: the phase ["PKP"] is not registered under
    ["ak135"], and the scalar query returns [LARGE_VALUE] instead of
    raising. *)
Lemma scalar_unregistered_does_not_raise :
  registered example_registry "ak135" (Bytes "PKP") = None /\
  fst (TTInterpolator.get_tt (Scalar (Bytes "PKP") (float_of_int 1) (float_of_int 10))
         "ak135" example_registry)
  = Ok (VFloat LARGE_VALUE) /\
  ~ (exists e,
        fst (TTInterpolator.get_tt (Scalar (Bytes "PKP") (float_of_int 1) (float_of_int 10))
               "ak135" example_registry) = Raise e).
Proof.
  split; [vm_compute; reflexivity|].
  assert (H : fst (TTInterpolator.get_tt
                     (Scalar (Bytes "PKP") (float_of_int 1) (float_of_int 10))
                     "ak135" example_registry) = Ok (VFloat LARGE_VALUE))
    by (vm_compute; reflexivity).
  split; [exact H|]. intros [e He]. rewrite H in He. discriminate.
Qed.

(** *** Batched queries *)

(** C4, as the code has it: in a batched query over parallel arrays the
    call does not raise, and every slot whose label has no registered
    [Phase] under the model holds the fill value rounded to 32 bits. *)
Theorem batched_unregistered_slot get io self model phase ecdist depth_km :
  (get, io) ∈ query_methods ->
  length ecdist = length phase ->
  length depth_km = length phase ->
  exists res,
    fst (get (Batched phase ecdist depth_km) model self) = Ok (VArray res) /\
    length res = length phase /\
    forall i l,
      phase !! i = Some l -> registered self model l = None ->
      res !! i = Some (float32_of (TTInterpolator.fill_value self)).
Proof.
  intros Hget He Hd. rewrite (query_methods_dispatch get io Hget).
  destruct (dispatch_batched io phase ecdist depth_km model self He Hd)
    as (res & Hres & Hlen & Hspec).
  exists res. split; [exact Hres|]. split; [exact Hlen|].
  intros i l Hl Hreg.
  destruct (lookup_lt_is_Some_2 ecdist i) as [x Hx];
    [rewrite He; eapply lookup_lt_Some; exact Hl|].
  destruct (lookup_lt_is_Some_2 depth_km i) as [y Hy];
    [rewrite Hd; eapply lookup_lt_Some; exact Hl|].
  rewrite (Hspec i l x y Hl Hx Hy), Hreg. reflexivity.
Qed.

Lemma batched_unregistered_slot_witness :
  (TTInterpolator.get_tt, Phase.times_io) ∈ query_methods /\
  exists res,
    fst (TTInterpolator.get_tt
           (Batched [Bytes "P"; Bytes "PKP"]
                    [float_of_int 1; float_of_int 1] [float_of_int 10; float_of_int 10])
           "ak135" example_registry) = Ok (VArray res) /\
    length res = 2%nat /\
    forall i l,
      [Bytes "P"; Bytes "PKP"] !! i = Some l ->
      registered example_registry "ak135" l = None ->
      res !! i = Some (float32_of (TTInterpolator.fill_value example_registry)).
Proof.
  assert (Hin : (TTInterpolator.get_tt, Phase.times_io) ∈ query_methods)
    by apply list_elem_of_here.
  split; [exact Hin|].
  exact (batched_unregistered_slot _ _ example_registry "ak135"
           [Bytes "P"; Bytes "PKP"]
           [float_of_int 1; float_of_int 1] [float_of_int 10; float_of_int 10]
           Hin eq_refl eq_refl).
Defined.

(** C4 fails as stated: with the fill value [LARGE_VALUE] = 2147483647.0
    the slot of the unregistered label ["PKP"] holds 2147483648.0, which
    is not the fill value. *)
Lemma batched_unregistered_slot_is_not_fill :
  registered example_registry "ak135" (Bytes "PKP") = None /\
  TTInterpolator.fill_value example_registry = float_of_int 2147483647 /\
  fst (TTInterpolator.get_tt
         (Batched [Bytes "P"; Bytes "PKP"]
                  [float_of_int 1; float_of_int 1] [float_of_int 10; float_of_int 10])
         "ak135" example_registry)
  = Ok (VArray [float32_of (lit "14.1"); float32_of (float_of_int 2147483647)]) /\
  float64_of (float32_of (float_of_int 2147483647)) = float_of_int 2147483648 /\
  float_eqb (float64_of (float32_of (float_of_int 2147483647)))
            (TTInterpolator.fill_value example_registry) = false.
Proof. repeat split; vm_compute; reflexivity. Qed.

(** C5, as the code has it: the result of a batched query over parallel
    arrays is aligned with the input, and each element is the value of
    the scalar query for that element's phase, distance and depth,
    rounded to 32 bits. *)
Theorem batched_agrees_with_scalar get io self model phase ecdist depth_km :
  (get, io) ∈ query_methods ->
  length ecdist = length phase ->
  length depth_km = length phase ->
  exists res,
    fst (get (Batched phase ecdist depth_km) model self) = Ok (VArray res) /\
    length res = length phase /\
    forall i l x y,
      phase !! i = Some l -> ecdist !! i = Some x -> depth_km !! i = Some y ->
      exists v,
        fst (get (Scalar l x y) model self) = Ok (VFloat v) /\
        res !! i = Some (float32_of v).
Proof.
  intros Hget He Hd. rewrite (query_methods_dispatch get io Hget).
  destruct (dispatch_batched io phase ecdist depth_km model self He Hd)
    as (res & Hres & Hlen & Hspec).
  exists res. split; [exact Hres|]. split; [exact Hlen|].
  intros i l x y Hl Hx Hy. eexists. split; [apply dispatch_scalar|].
  apply Hspec; assumption.
Qed.

Lemma batched_agrees_with_scalar_witness :
  (TTInterpolator.get_tt, Phase.times_io) ∈ query_methods /\
  exists res,
    fst (TTInterpolator.get_tt
           (Batched [Bytes "S"; Bytes "P"; Bytes "S"]
                    [float_of_int 1; float_of_int 1; float_of_int 0]
                    [float_of_int 10; float_of_int 0; float_of_int 10])
           "ak135" example_registry) = Ok (VArray res) /\
    length res = 3%nat /\
    forall i l x y,
      [Bytes "S"; Bytes "P"; Bytes "S"] !! i = Some l ->
      [float_of_int 1; float_of_int 1; float_of_int 0] !! i = Some x ->
      [float_of_int 10; float_of_int 0; float_of_int 10] !! i = Some y ->
      exists v,
        fst (TTInterpolator.get_tt (Scalar l x y) "ak135" example_registry) = Ok (VFloat v) /\
        res !! i = Some (float32_of v).
Proof.
  assert (Hin : (TTInterpolator.get_tt, Phase.times_io) ∈ query_methods)
    by apply list_elem_of_here.
  split; [exact Hin|].
  exact (batched_agrees_with_scalar _ _ example_registry "ak135"
           [Bytes "S"; Bytes "P"; Bytes "S"]
           [float_of_int 1; float_of_int 1; float_of_int 0]
           [float_of_int 10; float_of_int 0; float_of_int 10]
           Hin eq_refl eq_refl).
Defined.

(** C5 fails as stated: the batched query and the scalar queries for the
    same phases and coordinates return different numbers.  For the
    unregistered ["PKP"] the array holds 2147483648.0 and the scalar call
    returns 2147483647.0; for the registered ["P"] the array holds the
    32-bit neighbour of the value the scalar call returns. *)
Lemma batched_differs_from_scalar :
  fst (TTInterpolator.get_tt
         (Batched [Bytes "P"; Bytes "PKP"]
                  [float_of_int 1; float_of_int 1] [float_of_int 10; float_of_int 10])
         "ak135" example_registry)
  = Ok (VArray [float32_of (lit "14.1"); float32_of (float_of_int 2147483647)]) /\
  fst (TTInterpolator.get_tt (Scalar (Bytes "PKP") (float_of_int 1) (float_of_int 10))
         "ak135" example_registry)
  = Ok (VFloat (float_of_int 2147483647)) /\
  float_eqb (float64_of (float32_of (float_of_int 2147483647)))
            (float_of_int 2147483647) = false /\
  fst (TTInterpolator.get_tt (Scalar (Bytes "P") (float_of_int 1) (float_of_int 10))
         "ak135" example_registry)
  = Ok (VFloat (lit "14.1")) /\
  float_eqb (float64_of (float32_of (lit "14.1"))) (lit "14.1") = false.
Proof. repeat split; vm_compute; reflexivity. Qed.

Lemma large_value_rounded :
  float64_of (float32_of LARGE_VALUE) = float_of_int 2147483648 /\
  float_eqb (float64_of (float32_of LARGE_VALUE)) LARGE_VALUE = false.
Proof. split; vm_compute; reflexivity. Qed.

(** C8: the array a batched query returns has 32-bit elements.  A slot
    whose label is registered holds the interpolated value rounded to 32
    bits, a slot whose label is not registered holds the fill value
    rounded to 32 bits.  With the fill value
    [LARGE_VALUE] = 2147483647.0 such a slot holds 2147483648.0, while
    the scalar query for the same label returns 2147483647.0, and the two
    are not equal. *)
Theorem batched_result_is_float32 get io self model phase ecdist depth_km res :
  (get, io) ∈ query_methods ->
  fst (get (Batched phase ecdist depth_km) model self) = Ok (VArray res) ->
  length res = length phase /\
  forall i l,
    phase !! i = Some l ->
    (forall p, registered self model l = Some p ->
       exists x y, ecdist !! i = Some x /\ depth_km !! i = Some y /\
                   res !! i = Some (float32_of (io p x y))) /\
    (registered self model l = None ->
       res !! i = Some (float32_of (TTInterpolator.fill_value self)) /\
       (TTInterpolator.fill_value self = LARGE_VALUE ->
          exists slot,
            res !! i = Some slot /\
            float64_of slot = float_of_int 2147483648 /\
            (forall x y, fst (get (Scalar l x y) model self)
                         = Ok (VFloat (float_of_int 2147483647))) /\
            float_eqb (float64_of slot) (float_of_int 2147483647) = false)).
Proof.
  intros Hget Hres. rewrite (query_methods_dispatch get io Hget) in *.
  destruct (dispatch_batched_ret io phase ecdist depth_km model self res Hres)
    as [Hlen Hspec].
  split; [exact Hlen|].
  intros i l Hl. destruct (Hspec i l Hl) as [Hreg Hunreg]. split; [exact Hreg|].
  intros Hnone. split; [exact (Hunreg Hnone)|].
  intros Hfill. exists (float32_of LARGE_VALUE).
  split; [rewrite <- Hfill; exact (Hunreg Hnone)|].
  destruct large_value_rounded as [H1 H2]. split; [exact H1|].
  split; [|exact H2].
  intros x y. rewrite dispatch_scalar, Hnone, Hfill. reflexivity.
Qed.

Lemma batched_result_is_float32_witness :
  (TTInterpolator.get_dtdh, Phase.dtdh_io) ∈ query_methods /\
  fst (TTInterpolator.get_dtdh
         (Batched [Bytes "S"; Str "S"]
                  [float_of_int 1; float_of_int 1] [float_of_int 10; float_of_int 10])
         "ak135" example_registry)
  = Ok (VArray [float32_of (lit "-0.75"); float32_of LARGE_VALUE]) /\
  length [float32_of (lit "-0.75"); float32_of LARGE_VALUE] = 2%nat.
Proof.
  assert (Hin : (TTInterpolator.get_dtdh, Phase.dtdh_io) ∈ query_methods)
    by (apply list_elem_of_further, list_elem_of_further, list_elem_of_here).
  assert (Hres : fst (TTInterpolator.get_dtdh
                        (Batched [Bytes "S"; Str "S"]
                           [float_of_int 1; float_of_int 1]
                           [float_of_int 10; float_of_int 10])
                        "ak135" example_registry)
                 = Ok (VArray [float32_of (lit "-0.75"); float32_of LARGE_VALUE]))
    by (vm_compute; reflexivity).
  split; [exact Hin|]. split; [exact Hres|].
  exact (proj1 (batched_result_is_float32 _ _ example_registry "ak135"
                  [Bytes "S"; Str "S"]
                  [float_of_int 1; float_of_int 1] [float_of_int 10; float_of_int 10]
                  _ Hin Hres)).
Defined.

(** *** The registry after a query *)

(** C7, as the code has it: a query leaves the fill value and every
    entry of the registry as they were, and leaves the whole registry
    unchanged when its model is already a key of [self.phases]; a query
    for a model that is not yet a key adds that model with an empty
    dictionary of phases.  In both cases the [Phase] registered under
    any model and label is the same before and after. *)
Theorem query_registry_frame get io q model self :
  (get, io) ∈ query_methods ->
  let self' := snd (get q model self) in
  TTInterpolator.fill_value self' = TTInterpolator.fill_value self /\
  (forall m l, registered self' m l = registered self m l) /\
  (is_Some (TTInterpolator.phases self !! model) -> self' = self) /\
  (TTInterpolator.phases self !! model = None ->
     TTInterpolator.phases self' = <[model := ∅]> (TTInterpolator.phases self)).
Proof.
  intros Hget. rewrite (query_methods_dispatch get io Hget). cbv zeta.
  assert (Hsnd : snd (TTInterpolator.dispatch io q model self)
                 = snd (TTInterpolator.phases_getitem model self)).
  { unfold TTInterpolator.dispatch.
    destruct (TTInterpolator.phases_getitem model self) as [d s'].
    destruct q as [l x y | ph xs ys]; simpl.
    - destruct (d !! l); reflexivity.
    - destruct (TTInterpolator.batched_loop _ _ _ _ _ _); reflexivity. }
  rewrite Hsnd. unfold TTInterpolator.phases_getitem, registered.
  destruct (TTInterpolator.phases self !! model) as [d|] eqn:Hm; simpl.
  - repeat split; try reflexivity. intros H. discriminate.
  - split; [reflexivity|]. split; [|split].
    + intros m l. destruct (decide (model = m)) as [<-|Hne].
      * rewrite lookup_insert_eq, Hm. apply lookup_empty.
      * rewrite lookup_insert_ne by exact Hne. reflexivity.
    + intros [d Hd]. discriminate.
    + reflexivity.
Qed.

Lemma query_registry_frame_witness :
  (TTInterpolator.get_tt, Phase.times_io) ∈ query_methods /\
  TTInterpolator.phases
    (snd (TTInterpolator.get_tt (Scalar (Bytes "P") (float_of_int 1) (float_of_int 10))
            "iasp91" example_registry))
  = <["iasp91" := ∅]> (TTInterpolator.phases example_registry).
Proof.
  assert (Hin : (TTInterpolator.get_tt, Phase.times_io) ∈ query_methods)
    by apply list_elem_of_here.
  split; [exact Hin|].
  apply (query_registry_frame _ _
           (Scalar (Bytes "P") (float_of_int 1) (float_of_int 10))
           "iasp91" example_registry Hin).
  vm_compute. reflexivity.
Defined.

(** C7 fails as stated: no table of the model ["iasp91"] was loaded, and
    a scalar query for it leaves a registry that has the key ["iasp91"],
    which the registry did not have before. *)
Lemma query_changes_registry :
  TTInterpolator.phases example_registry !! "iasp91" = None /\
  TTInterpolator.phases
    (snd (TTInterpolator.get_tt (Scalar (Bytes "P") (float_of_int 1) (float_of_int 10))
            "iasp91" example_registry)) !! "iasp91" = Some ∅ /\
  snd (TTInterpolator.get_tt (Scalar (Bytes "P") (float_of_int 1) (float_of_int 10))
         "iasp91" example_registry) <> example_registry.
Proof.
  assert (H0 : TTInterpolator.phases example_registry !! "iasp91" = None)
    by (vm_compute; reflexivity).
  assert (H1 : TTInterpolator.phases
                 (snd (TTInterpolator.get_tt
                         (Scalar (Bytes "P") (float_of_int 1) (float_of_int 10))
                         "iasp91" example_registry)) !! "iasp91" = Some ∅).
  { vm_compute. reflexivity. }
  split; [exact H0|]. split; [exact H1|].
  intros Heq. rewrite Heq in H1. rewrite H0 in H1. discriminate H1.
Qed.

(** ** Building the registry *)

Lemma registered_setitem model l p self m l' :
  registered (TTInterpolator.phases_setitem model l p self) m l'
  = if decide (m = model /\ l' = l) then Some p else registered self m l'.
Proof.
  unfold TTInterpolator.phases_setitem, TTInterpolator.phases_getitem, registered.
  destruct (TTInterpolator.phases self !! model) as [d|] eqn:Hm; simpl.
  - destruct (decide (m = model)) as [->|Hne].
    + rewrite lookup_insert_eq, Hm.
      destruct (decide (l' = l)) as [->|Hl].
      * rewrite lookup_insert_eq. rewrite decide_True by auto. reflexivity.
      * rewrite lookup_insert_ne by congruence.
        rewrite decide_False by (intros [_ ?]; contradiction). reflexivity.
    + rewrite lookup_insert_ne by congruence.
      rewrite decide_False by (intros [? _]; contradiction). reflexivity.
  - destruct (decide (m = model)) as [->|Hne].
    + rewrite lookup_insert_eq, Hm.
      destruct (decide (l' = l)) as [->|Hl].
      * rewrite lookup_insert_eq. rewrite decide_True by auto. reflexivity.
      * rewrite lookup_insert_ne by congruence.
        rewrite decide_False by (intros [_ ?]; contradiction). apply lookup_empty.
    + rewrite !lookup_insert_ne by congruence.
      rewrite decide_False by (intros [? _]; contradiction). reflexivity.
Qed.

Section Building.
Variable py_float : string -> option float.
Variable CloughTocher2DInterpolator :
  list (float * float) -> list float -> float -> option interp.

Lemma add_file_spec self fn lines self' :
  TTInterpolator.add_file py_float CloughTocher2DInterpolator self fn lines = Ok self' ->
  exists model name ext p,
    split_on "." (basename fn) = [model; name; ext] /\
    self' = TTInterpolator.phases_setitem model (Bytes name) p self.
Proof.
  unfold TTInterpolator.add_file.
  destruct (split_on "." (basename fn)) as [|model [|name [|ext [|? ?]]]];
    try discriminate.
  destruct (Phase.__init__ _ _ _ _) as [e|p]; simpl; [discriminate|].
  intros H. injection H as <-. exists model, name, ext, p. split; reflexivity.
Qed.

Lemma add_files_spec tt_files : forall self0 self,
  TTInterpolator.add_files py_float CloughTocher2DInterpolator self0 tt_files = Ok self ->
  TTInterpolator.fill_value self = TTInterpolator.fill_value self0 /\
  (forall m l, is_Some (registered self0 m l) -> is_Some (registered self m l)) /\
  (forall m l p, registered self m l = Some p ->
     is_Some (registered self0 m l) \/
     exists fn lines name ext,
       (fn, lines) ∈ tt_files /\
       split_on "." (basename fn) = [m; name; ext] /\ l = Bytes name) /\
  (forall fn lines, (fn, lines) ∈ tt_files ->
     exists m name ext,
       split_on "." (basename fn) = [m; name; ext] /\
       is_Some (registered self m (Bytes name))).
Proof.
  induction tt_files as [|[fn lines] rest IH]; intros self0 self; simpl.
  - intros H. injection H as <-. repeat split; auto.
    intros fn lines H. inversion H.
  - destruct (TTInterpolator.add_file _ _ self0 fn lines) as [e|self1] eqn:E1;
      simpl; [discriminate|].
    intros Hrest.
    apply add_file_spec in E1 as (model & name & ext & p & Hsplit & ->).
    destruct (IH _ _ Hrest) as (Hfill & Hmono & Hkeys & Hfiles).
    split; [rewrite Hfill; unfold TTInterpolator.phases_setitem,
              TTInterpolator.phases_getitem;
            destruct (TTInterpolator.phases self0 !! model); reflexivity|].
    split; [|split].
    + intros m l Hs. apply Hmono. rewrite registered_setitem.
      destruct (decide _); [eauto | exact Hs].
    + intros m l q Hq. destruct (Hkeys m l q Hq) as [Hold|Hnew].
      * rewrite registered_setitem in Hold.
        destruct (decide _) as [[-> ->]|_]; [|left; exact Hold].
        right. exists fn, lines, name, ext.
        split; [apply list_elem_of_here|]. split; [exact Hsplit | reflexivity].
      * right. destruct Hnew as (fn' & lines' & name' & ext' & Hin & Hs & ->).
        exists fn', lines', name', ext'.
        split; [apply list_elem_of_further; exact Hin|]. split; [exact Hs | reflexivity].
    + intros fn' lines' Hin. apply elem_of_cons in Hin as [Heq|Hin].
      * injection Heq as -> ->. exists model, name, ext. split; [exact Hsplit|].
        apply Hmono. rewrite registered_setitem.
        rewrite decide_True by auto. eauto.
      * apply Hfiles in Hin. exact Hin.
Qed.

End Building.

(** C9: in a registry that [TTInterpolator()] built, every table file
    [<model>.<phase>.tab] is registered under the byte string of its
    phase name, and every key is such a byte string.  So a scalar query
    finds a [Phase] only for a byte-string label that is the phase name
    of a loaded file, and a scalar query with a text-string label finds
    none and returns the fill value, whatever its characters. *)
Theorem registry_keys_are_byte_strings py_float CloughTocher2DInterpolator tt_files self :
  TTInterpolator.__init__ py_float CloughTocher2DInterpolator tt_files = Ok self ->
  (forall fn lines, (fn, lines) ∈ tt_files ->
     exists model name ext,
       split_on "." (basename fn) = [model; name; ext] /\
       is_Some (registered self model (str_encode name))) /\
  (forall model l p, registered self model l = Some p ->
     exists fn lines name ext,
       (fn, lines) ∈ tt_files /\
       split_on "." (basename fn) = [model; name; ext] /\ l = str_encode name) /\
  (forall get io model s x y,
     (get, io) ∈ query_methods ->
     registered self model (Str s) = None /\
     fst (get (Scalar (Str s) x y) model self)
     = Ok (VFloat (TTInterpolator.fill_value self))).
Proof.
  unfold TTInterpolator.__init__. intros Hinit.
  destruct (add_files_spec _ _ _ _ _ Hinit) as (_ & _ & Hkeys & Hfiles).
  assert (Hbytes : forall model l p, registered self model l = Some p ->
     exists fn lines name ext,
       (fn, lines) ∈ tt_files /\
       split_on "." (basename fn) = [model; name; ext] /\ l = str_encode name).
  { intros model l p Hp. destruct (Hkeys model l p Hp) as [[q Hq]|H]; [|exact H].
    unfold registered in Hq. simpl in Hq. rewrite lookup_empty in Hq. discriminate. }
  split; [exact Hfiles|]. split; [exact Hbytes|].
  intros get io model s x y Hget.
  assert (Hnone : registered self model (Str s) = None).
  { destruct (registered self model (Str s)) as [p|] eqn:Hp; [|reflexivity].
    destruct (Hbytes _ _ _ Hp) as (? & ? & ? & ? & _ & _ & Habs). discriminate. }
  split; [exact Hnone|].
  rewrite (query_methods_dispatch get io Hget), dispatch_scalar, Hnone. reflexivity.
Qed.

Lemma registry_keys_are_byte_strings_witness :
  TTInterpolator.__init__ decimal_literal sample_interpolator example_files
    = Ok example_registry /\
  is_Some (registered example_registry "ak135" (Bytes "P")) /\
  registered example_registry "ak135" (Str "P") = None /\
  fst (TTInterpolator.get_tt (Scalar (Str "P") (float_of_int 1) (float_of_int 10))
         "ak135" example_registry)
  = Ok (VFloat (TTInterpolator.fill_value example_registry)).
Proof.
  assert (Hinit : TTInterpolator.__init__ decimal_literal sample_interpolator example_files
                  = Ok example_registry) by (vm_compute; reflexivity).
  destruct (registry_keys_are_byte_strings _ _ _ _ Hinit) as (_ & _ & Hstr).
  split; [exact Hinit|].
  split; [vm_compute; eexists; reflexivity|].
  apply (Hstr TTInterpolator.get_tt Phase.times_io "ak135" "P").
  apply list_elem_of_here.
Defined.

(** ** The first loop of the parser *)

Lemma markers_distinct :
  Phase.delta_marker <> Phase.depth_marker /\
  Phase.delta_marker <> Phase.times_marker /\
  Phase.delta_marker <> Phase.dtdd_marker /\
  Phase.delta_marker <> Phase.dtdh_marker /\
  Phase.depth_marker <> Phase.times_marker /\
  Phase.depth_marker <> Phase.dtdd_marker /\
  Phase.depth_marker <> Phase.dtdh_marker /\
  Phase.times_marker <> Phase.dtdd_marker /\
  Phase.times_marker <> Phase.dtdh_marker /\
  Phase.dtdd_marker <> Phase.dtdh_marker.
Proof. repeat split; intros H; discriminate H. Qed.

(** Splits the goal along the [if]/[elif] chain of [scan_line]. *)
Ltac scan_line_cases line :=
  unfold Phase.scan_line;
  destruct (String.eqb (Phase.normalise line) Phase.delta_marker) eqn:?E1;
  [|destruct (String.eqb (Phase.normalise line) Phase.depth_marker) eqn:?E2;
    [|destruct (String.eqb (Phase.normalise line) Phase.times_marker) eqn:?E3;
      [|destruct (String.eqb (Phase.normalise line) Phase.dtdd_marker) eqn:?E4;
        [|destruct (String.eqb (Phase.normalise line) Phase.dtdh_marker) eqn:?E5]]]];
  cbn [Phase.dists_start Phase.dists_end Phase.depths_start Phase.depths_end
       Phase.times_start Phase.times_end Phase.dtdd_start Phase.dtdd_end
       Phase.dtdh_start Phase.dtdh_end].

(** A line that is not a given marker leaves the indices of that marker
    as they are. *)
Lemma scan_line_other b ind line :
  (String.eqb (Phase.normalise line) Phase.delta_marker = false ->
     Phase.dists_start (Phase.scan_line b ind line) = Phase.dists_start b) /\
  (String.eqb (Phase.normalise line) Phase.depth_marker = false ->
     Phase.dists_end (Phase.scan_line b ind line) = Phase.dists_end b /\
     Phase.depths_start (Phase.scan_line b ind line) = Phase.depths_start b) /\
  (String.eqb (Phase.normalise line) Phase.times_marker = false ->
     Phase.depths_end (Phase.scan_line b ind line) = Phase.depths_end b /\
     Phase.times_start (Phase.scan_line b ind line) = Phase.times_start b) /\
  (String.eqb (Phase.normalise line) Phase.dtdd_marker = false ->
     Phase.times_end (Phase.scan_line b ind line) = Phase.times_end b /\
     Phase.dtdd_start (Phase.scan_line b ind line) = Phase.dtdd_start b) /\
  (String.eqb (Phase.normalise line) Phase.dtdh_marker = false ->
     Phase.dtdd_end (Phase.scan_line b ind line) = Phase.dtdd_end b /\
     Phase.dtdh_start (Phase.scan_line b ind line) = Phase.dtdh_start b).
Proof.
  scan_line_cases line; repeat split; intros; try reflexivity; congruence.
Qed.

Lemma scan_from_ind lines : forall ind b,
  snd (Phase.scan_from ind lines b) = ind + Z.of_nat (length lines).
Proof.
  induction lines as [|line rest IH]; intros ind b; simpl.
  - lia.
  - rewrite IH. lia.
Qed.

Lemma scan_from_other lines : forall ind b,
  let b' := fst (Phase.scan_from ind lines b) in
  (has_marker Phase.delta_marker lines = false ->
     Phase.dists_start b' = Phase.dists_start b) /\
  (has_marker Phase.depth_marker lines = false ->
     Phase.dists_end b' = Phase.dists_end b /\
     Phase.depths_start b' = Phase.depths_start b) /\
  (has_marker Phase.times_marker lines = false ->
     Phase.depths_end b' = Phase.depths_end b /\
     Phase.times_start b' = Phase.times_start b) /\
  (has_marker Phase.dtdd_marker lines = false ->
     Phase.times_end b' = Phase.times_end b /\
     Phase.dtdd_start b' = Phase.dtdd_start b) /\
  (has_marker Phase.dtdh_marker lines = false ->
     Phase.dtdd_end b' = Phase.dtdd_end b /\
     Phase.dtdh_start b' = Phase.dtdh_start b).
Proof.
  induction lines as [|line rest IH]; intros ind b; cbn zeta.
  - simpl. repeat split; reflexivity.
  - cbn [Phase.scan_from].
    destruct (IH (ind + 1) (Phase.scan_line b ind line)) as (I1 & I2 & I3 & I4 & I5).
    destruct (scan_line_other b ind line) as (L1 & L2 & L3 & L4 & L5).
    unfold has_marker in *. cbn [existsb].
    split; [|split; [|split; [|split]]];
      intros H; apply orb_false_elim in H as [Hl Hr].
    + rewrite (I1 Hr). apply L1, Hl.
    + rewrite (proj1 (I2 Hr)), (proj2 (I2 Hr)). apply L2, Hl.
    + rewrite (proj1 (I3 Hr)), (proj2 (I3 Hr)). apply L3, Hl.
    + rewrite (proj1 (I4 Hr)), (proj2 (I4 Hr)). apply L4, Hl.
    + rewrite (proj1 (I5 Hr)), (proj2 (I5 Hr)). apply L5, Hl.
Qed.

Lemma scan_fields lines :
  let b := fst (Phase.scan_from 0 lines Phase.bounds0) in
  Phase.dists_start (Phase.scan lines) = Phase.dists_start b /\
  Phase.dists_end (Phase.scan lines) = Phase.dists_end b /\
  Phase.depths_start (Phase.scan lines) = Phase.depths_start b /\
  Phase.depths_end (Phase.scan lines) = Phase.depths_end b /\
  Phase.times_start (Phase.scan lines) = Phase.times_start b /\
  Phase.times_end (Phase.scan lines) = Phase.times_end b /\
  Phase.dtdd_start (Phase.scan lines) = Phase.dtdd_start b /\
  Phase.dtdd_end (Phase.scan lines) = Phase.dtdd_end b /\
  Phase.dtdh_start (Phase.scan lines) = Phase.dtdh_start b /\
  Phase.dtdh_end (Phase.scan lines) = Z.of_nat (length lines) - 4.
Proof.
  unfold Phase.scan. pose proof (scan_from_ind lines 0 Phase.bounds0) as Hind.
  destruct (Phase.scan_from 0 lines Phase.bounds0) as [b ind]. simpl in *.
  subst ind. repeat split.
Qed.

(** Of the sections whose range holds an index, the second loop takes
    the first in the order of its tests. *)
Lemma classify_first b ind :
  Phase.classify b ind = head (List.filter (in_section b ind) sections).
Proof.
  unfold Phase.classify, sections, in_section. cbn [List.filter range_of fst snd].
  repeat (destruct (Phase.in_range _ _ _); [reflexivity|]). reflexivity.
Qed.

(** C2, as the code has it: a missing marker line is no error, and
    neither are sections that overlap.  The indices that a missing
    marker would set keep their initial value zero, and the second loop
    reads the lines with the indices it is given: a line whose index
    lies in several sections is read into the first of them, in the
    order distances, depths, times, dtdd, dtdh. *)
Theorem missing_marker_keeps_zero lines :
  let b := Phase.scan lines in
  (has_marker Phase.delta_marker lines = false -> Phase.dists_start b = 0) /\
  (has_marker Phase.depth_marker lines = false ->
     Phase.dists_end b = 0 /\ Phase.depths_start b = 0) /\
  (has_marker Phase.times_marker lines = false ->
     Phase.depths_end b = 0 /\ Phase.times_start b = 0) /\
  (has_marker Phase.dtdd_marker lines = false ->
     Phase.times_end b = 0 /\ Phase.dtdd_start b = 0) /\
  (has_marker Phase.dtdh_marker lines = false ->
     Phase.dtdd_end b = 0 /\ Phase.dtdh_start b = 0) /\
  (forall ind,
     Phase.classify b ind = head (List.filter (in_section b ind) sections)).
Proof.
  cbn zeta.
  destruct (scan_fields lines) as (F1 & F2 & F3 & F4 & F5 & F6 & F7 & F8 & F9 & _).
  destruct (scan_from_other lines 0 Phase.bounds0) as (I1 & I2 & I3 & I4 & I5).
  rewrite F1, F2, F3, F4, F5, F6, F7, F8, F9.
  split; [|split; [|split; [|split; [|split]]]]; try intros H.
  - apply (I1 H).
  - apply (I2 H).
  - apply (I3 H).
  - apply (I4 H).
  - apply (I5 H).
  - apply classify_first.
Qed.

Lemma missing_marker_keeps_zero_witness :
  has_marker Phase.delta_marker table_without_delta_marker = false /\
  Phase.dists_start (Phase.scan table_without_delta_marker) = 0.
Proof.
  assert (H : has_marker Phase.delta_marker table_without_delta_marker = false)
    by (vm_compute; reflexivity).
  split; [exact H|].
  exact (proj1 (missing_marker_keeps_zero table_without_delta_marker) H).
Defined.

(** C2 fails as stated: the table below has no [# delta samples] line.
    Parsing does not fail: the indices of the distance samples stay at
    zero, the first line is read as the distance samples, and the table
    that results is the one of the complete file. *)
Lemma missing_marker_is_not_an_error :
  has_marker Phase.delta_marker table_without_delta_marker = false /\
  Phase.dists_start (Phase.scan table_without_delta_marker) = 0 /\
  Phase.dists_end (Phase.scan table_without_delta_marker) = 0 /\
  Phase._parse_tt decimal_literal table_without_delta_marker Phase.nanval_default
  = Ok {| Phase.t_ecdists := [lit "0.0"; lit "1.0"];
          Phase.t_depths_km := [lit "0.0"; lit "10.0"];
          Phase.t_times := [[lit "0.0"; lit "1.5"]; [lit "13.5"; lit "14.1"]];
          Phase.t_dtdd := [[lit "13.5"; lit "13.25"]; [lit "13.0"; lit "12.75"]];
          Phase.t_dtdh := [[lit "-0.125"; lit "-0.25"]; [lit "-0.5"; lit "-0.75"]] |}.
Proof. repeat split; vm_compute; reflexivity. Qed.

(** ** The last lines of a table *)

(** The four indices that end a section, other than [dtdh_end], are at
    most [m] when every marker line stands at an index at most [m + 1]. *)
Lemma scan_line_ends m b ind line :
  (Phase.dists_end b <= m /\ Phase.depths_end b <= m /\
   Phase.times_end b <= m /\ Phase.dtdd_end b <= m) ->
  (is_marker line = true -> ind - 1 <= m) ->
  let b' := Phase.scan_line b ind line in
  Phase.dists_end b' <= m /\ Phase.depths_end b' <= m /\
  Phase.times_end b' <= m /\ Phase.dtdd_end b' <= m.
Proof.
  intros (H1 & H2 & H3 & H4) Hm. cbn zeta. unfold is_marker in Hm. cbn [existsb] in Hm.
  scan_line_cases line; repeat split; try assumption;
    (assert (ind - 1 <= m) by (apply Hm; repeat (apply orb_true_iff; auto)); lia).
Qed.

Lemma scan_from_ends m lines : forall ind b,
  (Phase.dists_end b <= m /\ Phase.depths_end b <= m /\
   Phase.times_end b <= m /\ Phase.dtdd_end b <= m) ->
  (forall j line, lines !! j = Some line -> is_marker line = true ->
                  ind + Z.of_nat j - 1 <= m) ->
  let b' := fst (Phase.scan_from ind lines b) in
  Phase.dists_end b' <= m /\ Phase.depths_end b' <= m /\
  Phase.times_end b' <= m /\ Phase.dtdd_end b' <= m.
Proof.
  induction lines as [|line rest IH]; intros ind b Hb Hm; cbn zeta.
  - exact Hb.
  - cbn [Phase.scan_from]. apply IH.
    + apply scan_line_ends; [exact Hb|].
      intros Hl. specialize (Hm 0%nat line eq_refl Hl). lia.
    + intros j l Hj Hl. specialize (Hm (S j) l Hj Hl). lia.
Qed.

Lemma in_range_above ind lo hi : hi <= ind -> Phase.in_range ind lo hi = false.
Proof. intros H. unfold Phase.in_range. apply andb_false_iff. right. lia. Qed.

(** C10, as the code has it: the section of the dtdh matrix ends at the
    index [n - 4], for a file of [n] lines, so none of the last three
    lines is read as a row of dtdh.  When the file has four lines or
    more and neither of its last two lines is a marker line, the last
    three lines are read into no section at all, whatever they hold. *)
Theorem last_three_lines_not_dtdh py_float lines :
  let b := Phase.scan lines in
  let n := Z.of_nat (length lines) in
  Phase.dtdh_end b = n - 4 /\
  (forall ind, n - 4 < ind -> Phase.classify b ind <> Some Phase.Dtdh) /\
  (4 <= n ->
   (forall j line, lines !! j = Some line -> n - 2 <= Z.of_nat j ->
                   is_marker line = false) ->
   forall ind line acc,
     n - 4 < ind ->
     Phase.classify b ind = None /\
     Phase.read_line py_float b ind line acc = Ok acc).
Proof.
  cbn zeta.
  destruct (scan_fields lines) as (_ & F2 & _ & F4 & _ & F6 & _ & F8 & _ & F10).
  split; [exact F10|]. split.
  - intros ind Hind. unfold Phase.classify.
    rewrite (in_range_above ind (Phase.dtdh_start _) _) by lia.
    repeat destruct (Phase.in_range _ _ _); discriminate.
  - intros Hn Hlast ind line acc Hind.
    assert (Hends : Phase.dists_end (Phase.scan lines) <= Z.of_nat (length lines) - 4 /\
                    Phase.depths_end (Phase.scan lines) <= Z.of_nat (length lines) - 4 /\
                    Phase.times_end (Phase.scan lines) <= Z.of_nat (length lines) - 4 /\
                    Phase.dtdd_end (Phase.scan lines) <= Z.of_nat (length lines) - 4).
    { rewrite F2, F4, F6, F8. apply scan_from_ends.
      - cbn. lia.
      - intros j l Hj Hl.
        destruct (Z.lt_ge_cases (Z.of_nat j) (Z.of_nat (length lines) - 2)) as [Hlt|Hge];
          [lia|].
        rewrite (Hlast j l Hj Hge) in Hl. discriminate. }
    destruct Hends as (E1 & E2 & E3 & E4).
    assert (Hnone : Phase.classify (Phase.scan lines) ind = None).
    { unfold Phase.classify. rewrite !in_range_above by lia. reflexivity. }
    split; [exact Hnone|]. unfold Phase.read_line. rewrite Hnone. reflexivity.
Qed.

Lemma last_three_lines_not_dtdh_witness :
  4 <= Z.of_nat (length table_P) /\
  Phase.classify (Phase.scan table_P) 19 = None /\
  Phase.read_line decimal_literal (Phase.scan table_P) 19 "  7.5  8.5" Phase.lists0
  = Ok Phase.lists0.
Proof.
  assert (Hn : 4 <= Z.of_nat (length table_P)) by (vm_compute; discriminate).
  split; [exact Hn|].
  apply (last_three_lines_not_dtdh decimal_literal table_P); [exact Hn | | vm_compute; reflexivity].
  intros j line Hj Hge.
  assert (Hlt : (j < length table_P)%nat) by (eapply lookup_lt_Some; exact Hj).
  change (length table_P) with 22%nat in Hlt, Hge.
  assert (Hcase : j = 20%nat \/ j = 21%nat) by lia.
  destruct Hcase as [-> | ->]; vm_compute in Hj; injection Hj as <-; vm_compute; reflexivity.
Defined.

(** C10 fails as stated: in the table below, cut short after the marker
    of its last section, the line of index 11 is one of the last three of
    its fourteen lines, and it is read as the row of the dtdd matrix. *)
Lemma last_lines_can_be_read :
  length table_cut_at_dtdh = 14%nat /\
  table_cut_at_dtdh !! 11%nat = Some "  13.5" /\
  Phase.classify (Phase.scan table_cut_at_dtdh) 11 = Some Phase.Dtdd /\
  Phase._parse_tt decimal_literal table_cut_at_dtdh Phase.nanval_default
  = Ok {| Phase.t_ecdists := [lit "0.0"];
          Phase.t_depths_km := [lit "10.0"];
          Phase.t_times := [[lit "1.5"]];
          Phase.t_dtdd := [[lit "13.5"]];
          Phase.t_dtdh := [] |}.
Proof. repeat split; vm_compute; reflexivity. Qed.

(** ** The check of the masks *)

Lemma np_array_ok {A} (rows a : list (list A)) :
  np_array rows = Ok a -> a = rows /\ rectangular rows.
Proof.
  unfold np_array. destruct rows as [|row rest].
  - intros H. injection H as <-. split; [reflexivity|]. exists 0%nat. constructor.
  - destruct (forallb _ rest) eqn:E; [|discriminate].
    intros H. injection H as <-. split; [reflexivity|].
    exists (length row). constructor; [reflexivity|].
    apply Forall_forall. intros r Hr.
    rewrite forallb_forall in E. apply Nat.eqb_eq, E, list_elem_of_In, Hr.
Qed.

Lemma np_array_rectangular {A} (rows : list (list A)) :
  rectangular rows -> np_array rows = Ok rows.
Proof.
  intros [c Hc]. unfold np_array. destruct rows as [|row rest]; [reflexivity|].
  apply Forall_cons in Hc as [Hrow Hrest].
  replace (forallb _ rest) with true; [reflexivity|].
  symmetry. apply forallb_forall. intros r Hr. apply Nat.eqb_eq.
  rewrite Forall_forall in Hrest. rewrite Hrow. apply Hrest, list_elem_of_In, Hr.
Qed.

Lemma rectangular_map {A B} (f : A -> B) (a : ndarray2 A) :
  rectangular a -> rectangular (map (map f) a).
Proof.
  intros [c Hc]. exists c. induction Hc as [|row rest Hrow Hrest IH]; simpl.
  - constructor.
  - constructor; [rewrite length_map; exact Hrow | exact IH].
Qed.

Lemma shape_map {A B} (f : A -> B) (a : ndarray2 A) :
  shape (map (map f) a) = shape a.
Proof. destruct a as [|row rest]; simpl; [reflexivity|]. rewrite !length_map. reflexivity. Qed.

(** On a rectangular array the broadcasting read of a cell inside the
    array is the plain read. *)
Lemma broadcast_get_inside (a : ndarray2 bool) c i j row :
  Forall (fun r => length r = c) a ->
  a !! i = Some row -> (j < c)%nat ->
  row !! j = Some (broadcast_get a i j).
Proof.
  intros Hc Hi Hj. unfold broadcast_get.
  assert (Hlen : length row = c).
  { rewrite Forall_forall in Hc. apply Hc. eapply list_elem_of_lookup_2. exact Hi. }
  assert (Hi' : a !! (if Nat.eqb (length a) 1 then 0%nat else i) = Some row).
  { destruct (Nat.eqb (length a) 1) eqn:E; [|exact Hi].
    apply Nat.eqb_eq in E. apply lookup_lt_Some in Hi as Hlt.
    replace i with 0%nat in Hi by lia. exact Hi. }
  rewrite Hi'.
  assert (Hj' : (if Nat.eqb (length row) 1 then 0%nat else j) = j).
  { destruct (Nat.eqb (length row) 1) eqn:E; [|reflexivity].
    apply Nat.eqb_eq in E. lia. }
  rewrite Hj'. destruct (lookup_lt_is_Some_2 row j) as [x Hx]; [lia|].
  rewrite Hx. reflexivity.
Qed.

(** Between rectangular arrays of the same shape, the test of the
    [assert] is the equality of the two arrays. *)
Lemma np_all_equal_same_shape (a b : ndarray2 bool) :
  rectangular a -> rectangular b -> shape a = shape b ->
  np_all_equal a b = Ok (bool_decide (a = b)).
Proof.
  intros [ca Ha] [cb Hb] Hshape. unfold np_all_equal.
  destruct a as [|ra a'], b as [|rb b']; try discriminate.
  - rewrite bool_decide_eq_true_2 by reflexivity. reflexivity.
  - cbn [shape] in Hshape. injection Hshape as Hn Hc.
    assert (Hca : length ra = ca) by (apply Forall_cons in Ha as [? _]; assumption).
    assert (Hcb : length rb = cb) by (apply Forall_cons in Hb as [? _]; assumption).
    assert (Hcc : cb = ca) by congruence. rewrite Hcc in Hb. clear Hcb Hcc cb.
    assert (Hlen : length (rb :: b') = length (ra :: a')) by (simpl in *; lia).
    set (a := ra :: a') in *. set (b := rb :: b') in *.
    unfold broadcast_dim.
    rewrite Hlen, <- Hc, !Nat.eqb_refl. f_equal. rewrite Hca.
    destruct (forallb _ (seq 0 (length a))) eqn:E.
    + symmetry. apply bool_decide_eq_true_2.
      rewrite forallb_forall in E.
      apply list_eq_same_length with (length a); [exact Hlen | reflexivity|].
      intros i rowa rowb Hi Hra Hrb.
      assert (Hin : In i (seq 0 (length a))) by (apply in_seq; lia).
      specialize (E i Hin). rewrite forallb_forall in E.
      assert (Hla : length rowa = ca).
      { rewrite Forall_forall in Ha. apply Ha. eapply list_elem_of_lookup_2. exact Hra. }
      assert (Hlb : length rowb = ca).
      { rewrite Forall_forall in Hb. apply Hb. eapply list_elem_of_lookup_2. exact Hrb. }
      apply list_eq_same_length with ca; [exact Hlb | exact Hla|].
      intros j x y Hj Hx Hy.
      assert (Hjn : In j (seq 0 ca)) by (apply in_seq; lia).
      specialize (E j Hjn). apply Bool.eqb_prop in E.
      rewrite (broadcast_get_inside a ca i j rowa Ha Hra Hj) in Hx.
      rewrite (broadcast_get_inside b ca i j rowb Hb Hrb Hj) in Hy.
      congruence.
    + symmetry. apply bool_decide_eq_false_2. intros Heq.
      assert (Hall : forallb (fun i => forallb (fun j =>
                 Bool.eqb (broadcast_get a i j) (broadcast_get b i j))
                 (seq 0 ca)) (seq 0 (length a)) = true).
      { apply forallb_forall. intros i _. apply forallb_forall. intros j _.
        rewrite Heq. apply Bool.eqb_reflx. }
      congruence.
Qed.

Section Parsing.
Variable py_float : string -> option float.

(** What a successful call of [_parse_tt] went through. *)
Lemma parse_tt_ok_inv lines nanval tb :
  Phase._parse_tt py_float lines nanval = Ok tb ->
  exists acc,
    Phase.read_from py_float (Phase.scan lines) 0 lines Phase.lists0 = Ok acc /\
    rectangular (Phase.l_times acc) /\
    rectangular (Phase.l_dtdd acc) /\
    rectangular (Phase.l_dtdh acc) /\
    tb = {| Phase.t_ecdists := Phase.l_ecdists acc;
            Phase.t_depths_km := Phase.l_depths_km acc;
            Phase.t_times := mask_nan nanval (Phase.l_times acc);
            Phase.t_dtdd := mask_nan nanval (Phase.l_dtdd acc);
            Phase.t_dtdh := mask_nan nanval (Phase.l_dtdh acc) |} /\
    np_all_equal (np_isnan (mask_nan nanval (Phase.l_times acc)))
                 (np_isnan (mask_nan nanval (Phase.l_dtdd acc))) = Ok true /\
    np_all_equal (np_isnan (mask_nan nanval (Phase.l_times acc)))
                 (np_isnan (mask_nan nanval (Phase.l_dtdh acc))) = Ok true.
Proof.
  unfold Phase._parse_tt.
  destruct (Phase.read_from _ _ _ _ _) as [e|acc]; simpl; [discriminate|].
  destruct (np_array (Phase.l_times acc)) as [e|tm] eqn:Et; simpl; [discriminate|].
  destruct (np_array (Phase.l_dtdd acc)) as [e|dd] eqn:Ed; simpl; [discriminate|].
  destruct (np_array (Phase.l_dtdh acc)) as [e|dh] eqn:Eh; simpl; [discriminate|].
  apply np_array_ok in Et as [-> Rt].
  apply np_array_ok in Ed as [-> Rd].
  apply np_array_ok in Eh as [-> Rh].
  unfold Phase.check_masks.
  destruct (np_all_equal _ _) as [e|[|]] eqn:E1; simpl; try discriminate.
  destruct (np_all_equal _ (np_isnan (mask_nan nanval (Phase.l_dtdh acc))))
    as [e|[|]] eqn:E2; simpl; try discriminate.
  intros H. injection H as <-. exists acc. repeat split; assumption.
Qed.

(** The outcome of [_parse_tt] once the rows are read, when the three
    grids are rectangular and of the same shape. *)
Lemma parse_tt_same_shape lines nanval acc :
  Phase.read_from py_float (Phase.scan lines) 0 lines Phase.lists0 = Ok acc ->
  rectangular (Phase.l_times acc) ->
  rectangular (Phase.l_dtdd acc) ->
  rectangular (Phase.l_dtdh acc) ->
  shape (Phase.l_times acc) = shape (Phase.l_dtdd acc) ->
  shape (Phase.l_times acc) = shape (Phase.l_dtdh acc) ->
  Phase._parse_tt py_float lines nanval
  = if bool_decide (np_isnan (mask_nan nanval (Phase.l_times acc))
                    = np_isnan (mask_nan nanval (Phase.l_dtdd acc))) &&
       bool_decide (np_isnan (mask_nan nanval (Phase.l_times acc))
                    = np_isnan (mask_nan nanval (Phase.l_dtdh acc)))
    then Ok {| Phase.t_ecdists := Phase.l_ecdists acc;
               Phase.t_depths_km := Phase.l_depths_km acc;
               Phase.t_times := mask_nan nanval (Phase.l_times acc);
               Phase.t_dtdd := mask_nan nanval (Phase.l_dtdd acc);
               Phase.t_dtdh := mask_nan nanval (Phase.l_dtdh acc) |}
    else Raise AssertionError.
Proof.
  intros Hread Rt Rd Rh St Sh. unfold Phase._parse_tt. rewrite Hread. simpl.
  rewrite !np_array_rectangular by assumption. simpl.
  unfold Phase.check_masks, np_isnan, mask_nan.
  rewrite !np_all_equal_same_shape;
    try (apply rectangular_map, rectangular_map; assumption);
    try (rewrite !shape_map; assumption).
  simpl. destruct (bool_decide _); simpl; [|reflexivity].
  destruct (bool_decide _); reflexivity.
Qed.

End Parsing.

(** C3, as the code has it.  When parsing succeeds, the grids are the
    rows as they were read, with every entry equal to the sentinel
    replaced by not-a-number and nothing else changed; and each of the
    two grids of derivatives that has the shape of the grid of travel
    times has the same undefined cells as the grid of travel times.
    When the three grids as read are rectangular and of one shape,
    parsing succeeds if the mask of each grid of derivatives is the mask
    of the travel times, and fails with a bare [AssertionError], which
    names no file, if one of them is not. *)
Theorem parse_checks_masks py_float lines nanval :
  (forall tb,
     Phase._parse_tt py_float lines nanval = Ok tb ->
     (exists acc,
        Phase.read_from py_float (Phase.scan lines) 0 lines Phase.lists0 = Ok acc /\
        Phase.t_times tb = mask_nan nanval (Phase.l_times acc) /\
        Phase.t_dtdd tb = mask_nan nanval (Phase.l_dtdd acc) /\
        Phase.t_dtdh tb = mask_nan nanval (Phase.l_dtdh acc)) /\
     (shape (Phase.t_times tb) = shape (Phase.t_dtdd tb) ->
      np_isnan (Phase.t_times tb) = np_isnan (Phase.t_dtdd tb)) /\
     (shape (Phase.t_times tb) = shape (Phase.t_dtdh tb) ->
      np_isnan (Phase.t_times tb) = np_isnan (Phase.t_dtdh tb))) /\
  (forall acc,
     Phase.read_from py_float (Phase.scan lines) 0 lines Phase.lists0 = Ok acc ->
     rectangular (Phase.l_times acc) ->
     rectangular (Phase.l_dtdd acc) ->
     rectangular (Phase.l_dtdh acc) ->
     shape (Phase.l_times acc) = shape (Phase.l_dtdd acc) ->
     shape (Phase.l_times acc) = shape (Phase.l_dtdh acc) ->
     (np_isnan (mask_nan nanval (Phase.l_times acc))
        = np_isnan (mask_nan nanval (Phase.l_dtdd acc)) /\
      np_isnan (mask_nan nanval (Phase.l_times acc))
        = np_isnan (mask_nan nanval (Phase.l_dtdh acc)) ->
      exists tb, Phase._parse_tt py_float lines nanval = Ok tb) /\
     (np_isnan (mask_nan nanval (Phase.l_times acc))
        <> np_isnan (mask_nan nanval (Phase.l_dtdd acc)) \/
      np_isnan (mask_nan nanval (Phase.l_times acc))
        <> np_isnan (mask_nan nanval (Phase.l_dtdh acc)) ->
      Phase._parse_tt py_float lines nanval = Raise AssertionError /\
      exn_message AssertionError = "")).
Proof.
  split.
  - intros tb Hok.
    destruct (parse_tt_ok_inv py_float lines nanval tb Hok)
      as (acc & Hread & Rt & Rd & Rh & -> & E1 & E2).
    cbn [Phase.t_times Phase.t_dtdd Phase.t_dtdh].
    split; [exists acc; repeat split; assumption|].
    split; intros Hshape.
    + rewrite np_all_equal_same_shape in E1.
      * injection E1 as E1. apply bool_decide_eq_true in E1. exact E1.
      * apply rectangular_map, rectangular_map, Rt.
      * apply rectangular_map, rectangular_map, Rd.
      * unfold np_isnan. rewrite !shape_map. exact Hshape.
    + rewrite np_all_equal_same_shape in E2.
      * injection E2 as E2. apply bool_decide_eq_true in E2. exact E2.
      * apply rectangular_map, rectangular_map, Rt.
      * apply rectangular_map, rectangular_map, Rh.
      * unfold np_isnan. rewrite !shape_map. exact Hshape.
  - intros acc Hread Rt Rd Rh St Sh.
    rewrite (parse_tt_same_shape py_float lines nanval acc Hread Rt Rd Rh St Sh).
    split.
    + intros [H1 H2]. rewrite !bool_decide_eq_true_2 by assumption. simpl. eauto.
    + intros [H|H]; (split; [|reflexivity]).
      * rewrite (bool_decide_eq_false_2 _ H). reflexivity.
      * rewrite (bool_decide_eq_false_2 _ H), andb_false_r. reflexivity.
Qed.

Lemma parse_checks_masks_witness :
  (exists tb,
     Phase._parse_tt decimal_literal table_P Phase.nanval_default = Ok tb /\
     np_isnan (Phase.t_times tb) = np_isnan (Phase.t_dtdd tb)) /\
  Phase._parse_tt decimal_literal table_mismatched_masks Phase.nanval_default
  = Raise AssertionError.
Proof.
  split.
  - eexists. split; [vm_compute; reflexivity|].
    refine (proj1 (proj2 (proj1 (parse_checks_masks decimal_literal table_P
                                   Phase.nanval_default) _ _)) _);
      vm_compute; reflexivity.
  - eassert (Hread : Phase.read_from decimal_literal (Phase.scan table_mismatched_masks) 0
                       table_mismatched_masks Phase.lists0 = Ok _)
      by (vm_compute; reflexivity).
    refine (proj1 (proj2 (proj2 (parse_checks_masks decimal_literal table_mismatched_masks
                                   Phase.nanval_default) _ Hread _ _ _ _ _) _)).
    + exists 2%nat. repeat constructor.
    + exists 2%nat. repeat constructor.
    + exists 2%nat. repeat constructor.
    + reflexivity.
    + reflexivity.
    + left. vm_compute. discriminate.
Defined.

(** C3 fails as stated.  In the first table the travel times are
    undefined at two cells and each derivative at one cell only: the
    comparison of the masks repeats the single row of the derivatives,
    and parsing succeeds.  In the second table the three grids have one
    shape and the masks differ: parsing fails, and the error is a bare
    [AssertionError] whose message is empty and names no file. *)
Lemma mismatched_masks_can_parse :
  Phase._parse_tt decimal_literal table_short_derivatives Phase.nanval_default
  = Ok {| Phase.t_ecdists := [lit "0.0"; lit "1.0"];
          Phase.t_depths_km := [lit "10.0"];
          Phase.t_times := [[S754_nan]; [S754_nan]];
          Phase.t_dtdd := [[S754_nan]];
          Phase.t_dtdh := [[S754_nan]] |} /\
  undefined_cells [[S754_nan]; [S754_nan]] = [(0, 0); (1, 0)]%nat /\
  undefined_cells [[S754_nan]] = [(0, 0)]%nat /\
  Phase._parse_tt decimal_literal table_mismatched_masks Phase.nanval_default
  = Raise AssertionError /\
  exn_message AssertionError = "".
Proof. repeat split; vm_compute; reflexivity. Qed.

(** The two [assert]s compare each grid of derivatives with the travel
    times, and never the two grids of derivatives with one another.  In
    a table whose section of travel times is empty both comparisons are
    over no cell: parsing succeeds with two grids of derivatives of one
    shape, the cell of one undefined and the cell of the other given. *)
Lemma derivative_grids_not_compared :
  Phase._parse_tt decimal_literal table_empty_times Phase.nanval_default
  = Ok {| Phase.t_ecdists := [lit "0.0"];
          Phase.t_depths_km := [lit "10.0"];
          Phase.t_times := [];
          Phase.t_dtdd := [[S754_nan]];
          Phase.t_dtdh := [[lit "1.0"]] |} /\
  shape [[S754_nan]] = shape [[lit "1.0"]] /\
  np_isnan [[S754_nan]] <> np_isnan [[lit "1.0"]].
Proof.
  split; [vm_compute; reflexivity|]. split; [reflexivity|].
  vm_compute. discriminate.
Qed.

(** * Further properties *)

(** ** Marker lines *)

Lemma split_ws_token cs : forall cur rest,
  Forall (fun c => isspace c = false) cs ->
  split_ws cur (string_of_list_ascii cs ++ rest)%string = split_ws (rev cs ++ cur) rest.
Proof.
  induction cs as [|c cs IH]; intros cur rest Hcs; simpl.
  - reflexivity.
  - apply Forall_cons in Hcs as [Hc Hcs]. rewrite Hc. rewrite IH by exact Hcs.
    rewrite <- app_assoc. reflexivity.
Qed.

Lemma string_app_empty_r (s : string) : (s ++ "")%string = s.
Proof.
  induction s as [|c s IH]; [reflexivity|].
  change (String c (s ++ "")%string = String c s). f_equal. exact IH.
Qed.

Lemma split_ws_clean s : forall cur,
  Forall (fun c => isspace c = false) cur ->
  Forall clean_token (split_ws cur s).
Proof.
  assert (Htok : forall cur, cur <> [] -> Forall (fun c => isspace c = false) cur ->
                   clean_token (string_of_list_ascii (rev cur))).
  { intros cur Hne Hcur. unfold clean_token, clean_chars.
    rewrite list_ascii_of_string_of_list_ascii. split.
    - intros H. apply Hne. apply (f_equal (@rev ascii)) in H.
      rewrite rev_involutive in H. exact H.
    - apply Forall_forall. intros c Hc. rewrite Forall_forall in Hcur.
      apply Hcur. apply list_elem_of_In. apply list_elem_of_In in Hc.
      apply in_rev. exact Hc. }
  induction s as [|c s IH]; intros cur Hcur; simpl.
  - destruct cur as [|c0 cur]; [constructor|].
    constructor; [|constructor]. apply Htok; [discriminate | exact Hcur].
  - destruct (isspace c) eqn:Hc.
    + destruct cur as [|c0 cur]; [apply IH; constructor|].
      constructor; [apply Htok; [discriminate | exact Hcur] | apply IH; constructor].
    + apply IH. constructor; assumption.
Qed.

Lemma split_join row :
  Forall clean_token row -> split (join " " row) = row.
Proof.
  unfold split. induction row as [|tok row IH]; intros Hrow; [reflexivity|].
  apply Forall_cons in Hrow as [[Hne Hcs] Hrow].
  assert (Htok : string_of_list_ascii (rev (rev (list_ascii_of_string tok))) = tok)
    by (rewrite rev_involutive; apply string_of_list_ascii_of_string).
  assert (Hrev : rev (list_ascii_of_string tok) <> []).
  { intros H. apply Hne. apply (f_equal (@rev ascii)) in H.
    rewrite rev_involutive in H. exact H. }
  set (R := rev (list_ascii_of_string tok)) in *.
  destruct row as [|tok' row].
  - cbn [join]. rewrite <- (string_of_list_ascii_of_string tok) at 1.
    rewrite <- (string_app_empty_r (string_of_list_ascii _)).
    rewrite split_ws_token by exact Hcs. rewrite app_nil_r. fold R.
    destruct R as [|a l]; [contradiction|].
    cbn [split_ws]. rewrite Htok. reflexivity.
  - change (join " " (tok :: tok' :: row))
      with (tok ++ " " ++ join " " (tok' :: row))%string.
    rewrite <- (string_of_list_ascii_of_string tok) at 1.
    rewrite split_ws_token by exact Hcs. rewrite app_nil_r. fold R.
    change (" " ++ join " " (tok' :: row))%string
      with (String " "%char (join " " (tok' :: row))).
    destruct R as [|a l]; [contradiction|].
    cbn [split_ws]. change (isspace " "%char) with true. cbv iota.
    rewrite Htok. f_equal. apply IH. exact Hrow.
Qed.

Lemma normalise_tokens line toks :
  Forall clean_token toks ->
  Phase.normalise line = join " " toks <-> split line = toks.
Proof.
  intros Htoks. unfold Phase.normalise. split.
  - intros H. rewrite <- (split_join (split line)).
    + rewrite H. apply split_join. exact Htoks.
    + apply split_ws_clean. constructor.
  - intros ->. reflexivity.
Qed.

(** X1.  A line is taken for a marker exactly when its tokens, as
    [line.split()] cuts them, are the tokens of the marker text: blanks
    and tabs before, after and between the tokens do not matter, and any
    further token makes the line an ordinary one. *)
Theorem marker_lines_by_tokens line :
  (Phase.normalise line = Phase.delta_marker <->
     split line = ["#"; "delta"; "samples"]) /\
  (Phase.normalise line = Phase.depth_marker <->
     split line = ["#"; "depth"; "samples"]) /\
  (Phase.normalise line = Phase.times_marker <->
     split line = ["#"; "travel"; "times"; "(rows"; "-"; "delta,"; "columns"; "-"; "depth)"]) /\
  (Phase.normalise line = Phase.dtdd_marker <->
     split line = ["#"; "dtdd"; "(rows"; "-"; "delta,"; "columns"; "-"; "depth)"]) /\
  (Phase.normalise line = Phase.dtdh_marker <->
     split line = ["#"; "dtdh"; "(rows"; "-"; "delta,"; "columns"; "-"; "depth)"]).
Proof.
  assert (Hclean : forall toks,
            forallb (fun tok =>
                       negb (String.eqb tok "") &&
                       forallb (fun c => negb (isspace c)) (list_ascii_of_string tok))
                    toks = true ->
            Forall clean_token toks).
  { intros toks H. apply Forall_forall. intros tok Htok.
    rewrite forallb_forall in H. specialize (H tok (proj1 (list_elem_of_In _ _) Htok)).
    apply andb_prop in H as [Hne Hcs]. split.
    - intros Hnil. destruct tok; [discriminate Hne | discriminate Hnil].
    - apply Forall_forall. intros c Hc. rewrite forallb_forall in Hcs.
      specialize (Hcs c (proj1 (list_elem_of_In _ _) Hc)).
      apply negb_true_iff in Hcs. exact Hcs. }
  split; [|split; [|split; [|split]]].
  - apply (normalise_tokens line ["#"; "delta"; "samples"]).
    apply Hclean. vm_compute. reflexivity.
  - apply (normalise_tokens line ["#"; "depth"; "samples"]).
    apply Hclean. vm_compute. reflexivity.
  - apply (normalise_tokens line
             ["#"; "travel"; "times"; "(rows"; "-"; "delta,"; "columns"; "-"; "depth)"]).
    apply Hclean. vm_compute. reflexivity.
  - apply (normalise_tokens line
             ["#"; "dtdd"; "(rows"; "-"; "delta,"; "columns"; "-"; "depth)"]).
    apply Hclean. vm_compute. reflexivity.
  - apply (normalise_tokens line
             ["#"; "dtdh"; "(rows"; "-"; "delta,"; "columns"; "-"; "depth)"]).
    apply Hclean. vm_compute. reflexivity.
Qed.

(** ** The first loop, marker by marker *)

Lemma scan_from_app l1 : forall l2 ind b,
  Phase.scan_from ind (l1 ++ l2) b
  = Phase.scan_from (ind + Z.of_nat (length l1)) l2 (fst (Phase.scan_from ind l1 b)).
Proof.
  induction l1 as [|line l1 IH]; intros l2 ind b.
  - simpl. rewrite Z.add_0_r. reflexivity.
  - cbn [app Phase.scan_from length]. rewrite IH. f_equal. lia.
Qed.

Lemma has_marker_false marker lines :
  (forall l, l ∈ lines -> Phase.normalise l <> marker) ->
  has_marker marker lines = false.
Proof.
  intros H. unfold has_marker. induction lines as [|l lines IH]; [reflexivity|].
  cbn [existsb]. apply orb_false_iff. split.
  - apply String.eqb_neq. apply H. apply list_elem_of_here.
  - apply IH. intros l' Hl'. apply H. apply list_elem_of_further. exact Hl'.
Qed.

(** What a marker line sets, in terms of the indices before it. *)
Lemma scan_line_marker b ind line :
  (Phase.normalise line = Phase.delta_marker ->
     Phase.dists_start (Phase.scan_line b ind line) = ind + 1) /\
  (Phase.normalise line = Phase.depth_marker ->
     Phase.dists_end (Phase.scan_line b ind line) = ind - 1 /\
     Phase.depths_start (Phase.scan_line b ind line) = ind + 1) /\
  (Phase.normalise line = Phase.times_marker ->
     Phase.depths_end (Phase.scan_line b ind line) = ind - 2 /\
     Phase.times_start (Phase.scan_line b ind line) = ind + 2) /\
  (Phase.normalise line = Phase.dtdd_marker ->
     Phase.times_end (Phase.scan_line b ind line) = ind - 2 /\
     Phase.dtdd_start (Phase.scan_line b ind line) = ind + 2) /\
  (Phase.normalise line = Phase.dtdh_marker ->
     Phase.dtdd_end (Phase.scan_line b ind line) = ind - 2 /\
     Phase.dtdh_start (Phase.scan_line b ind line) = ind + 2).
Proof.
  destruct markers_distinct as (D1 & D2 & D3 & D4 & D5 & D6 & D7 & D8 & D9 & D10).
  split; [|split; [|split; [|split]]]; intros H; unfold Phase.scan_line; rewrite H;
    repeat match goal with
    | |- context [String.eqb ?a ?a] => rewrite (String.eqb_refl a)
    | |- context [String.eqb ?a ?b] =>
        rewrite (proj2 (String.eqb_neq a b)) by congruence
    end; cbn; auto.
Qed.

(** X2.  When a marker line occurs several times, its last occurrence
    decides: the indices that the marker sets are those computed from
    the index of the last line that is this marker. *)
Theorem last_marker_decides lines (j : nat) line :
  lines !! j = Some line ->
  (forall k l, lines !! k = Some l -> (j < k)%nat ->
               Phase.normalise l <> Phase.normalise line) ->
  let b := Phase.scan lines in
  (Phase.normalise line = Phase.delta_marker ->
     Phase.dists_start b = Z.of_nat j + 1) /\
  (Phase.normalise line = Phase.depth_marker ->
     Phase.dists_end b = Z.of_nat j - 1 /\ Phase.depths_start b = Z.of_nat j + 1) /\
  (Phase.normalise line = Phase.times_marker ->
     Phase.depths_end b = Z.of_nat j - 2 /\ Phase.times_start b = Z.of_nat j + 2) /\
  (Phase.normalise line = Phase.dtdd_marker ->
     Phase.times_end b = Z.of_nat j - 2 /\ Phase.dtdd_start b = Z.of_nat j + 2) /\
  (Phase.normalise line = Phase.dtdh_marker ->
     Phase.dtdd_end b = Z.of_nat j - 2 /\ Phase.dtdh_start b = Z.of_nat j + 2).
Proof.
  intros Hj Hlast. cbn zeta.
  destruct (scan_fields lines) as (F1 & F2 & F3 & F4 & F5 & F6 & F7 & F8 & F9 & _).
  rewrite F1, F2, F3, F4, F5, F6, F7, F8, F9. clear F1 F2 F3 F4 F5 F6 F7 F8 F9.
  pose proof (take_drop_middle lines j line Hj) as Hsplit.
  assert (Hlen : length (take j lines) = j).
  { apply length_take_le. apply lookup_lt_Some in Hj. lia. }
  rewrite <- Hsplit. rewrite scan_from_app. rewrite Hlen, Z.add_0_l.
  cbn [Phase.scan_from].
  set (b1 := fst (Phase.scan_from 0 (take j lines) Phase.bounds0)).
  assert (Hafter : has_marker (Phase.normalise line) (drop (S j) lines) = false).
  { apply has_marker_false. intros l Hl.
    apply list_elem_of_lookup in Hl as [k Hk]. rewrite lookup_drop in Hk.
    apply (Hlast _ _ Hk). lia. }
  destruct (scan_from_other (drop (S j) lines) (Z.of_nat j + 1)
              (Phase.scan_line b1 (Z.of_nat j) line)) as (I1 & I2 & I3 & I4 & I5).
  destruct (scan_line_marker b1 (Z.of_nat j) line) as (M1 & M2 & M3 & M4 & M5).
  split; [|split; [|split; [|split]]]; intros H; rewrite H in Hafter.
  - rewrite (I1 Hafter). apply M1, H.
  - rewrite (proj1 (I2 Hafter)), (proj2 (I2 Hafter)). apply M2, H.
  - rewrite (proj1 (I3 Hafter)), (proj2 (I3 Hafter)). apply M3, H.
  - rewrite (proj1 (I4 Hafter)), (proj2 (I4 Hafter)). apply M4, H.
  - rewrite (proj1 (I5 Hafter)), (proj2 (I5 Hafter)). apply M5, H.
Qed.

Lemma last_marker_decides_witness :
  Phase.depths_end (Phase.scan (table_P ++ ["# travel times (rows - delta, columns - depth)"]))
  = 20 /\
  Phase.times_start (Phase.scan (table_P ++ ["# travel times (rows - delta, columns - depth)"]))
  = 24.
Proof.
  refine (proj1 (proj2 (proj2 (last_marker_decides
            (table_P ++ ["# travel times (rows - delta, columns - depth)"]) 22
            "# travel times (rows - delta, columns - depth)" eq_refl _))) eq_refl).
  intros k l Hk Hlt. apply lookup_lt_Some in Hk as Hlen.
  change (length (table_P ++ _)) with 23%nat in Hlen. lia.
Defined.

(** ** The second loop, block by block *)

Section Blocks.
Variable py_float : string -> option float.

Lemma parse_tt_assemble lines nanval :
  Phase._parse_tt py_float lines nanval
  = do acc <- Phase.read_from py_float (Phase.scan lines) 0 lines Phase.lists0;
    assemble acc nanval.
Proof. reflexivity. Qed.

Lemma read_from_app b l1 : forall l2 ind acc,
  Phase.read_from py_float b ind (l1 ++ l2) acc
  = do acc' <- Phase.read_from py_float b ind l1 acc;
    Phase.read_from py_float b (ind + Z.of_nat (length l1)) l2 acc'.
Proof.
  induction l1 as [|line l1 IH]; intros l2 ind acc.
  - simpl. rewrite Z.add_0_r. reflexivity.
  - cbn [app Phase.read_from length].
    destruct (Phase.read_line py_float b ind line acc) as [e|acc']; simpl; [reflexivity|].
    rewrite IH. replace (ind + 1 + Z.of_nat (length l1))
      with (ind + Z.of_nat (S (length l1))) by lia. reflexivity.
Qed.

(** Lines that belong to no section are passed over. *)
Lemma read_from_skip b block : forall ind acc,
  (forall k, ind <= k < ind + Z.of_nat (length block) -> Phase.classify b k = None) ->
  Phase.read_from py_float b ind block acc = Ok acc.
Proof.
  induction block as [|line block IH]; intros ind acc Hk; [reflexivity|].
  cbn [Phase.read_from]. unfold Phase.read_line.
  rewrite Hk by (simpl length; lia). simpl.
  apply IH. intros k Hr. apply Hk. simpl length. lia.
Qed.

Lemma extend_nil s acc : extend s [] acc = acc.
Proof. destruct s, acc; simpl; rewrite ?app_nil_r; reflexivity. Qed.

Lemma extend_cons s row rows acc :
  extend s (row :: rows) acc = extend s rows (extend s [row] acc).
Proof.
  destruct s, acc; simpl; rewrite ?app_nil_r, <- ?app_assoc; reflexivity.
Qed.

(** Lines that all belong to one section are read in order, and the
    first token that [float()] refuses ends the loop. *)
Lemma read_from_section b s block : forall ind acc,
  (forall k, ind <= k < ind + Z.of_nat (length block) -> Phase.classify b k = Some s) ->
  Phase.read_from py_float b ind block acc
  = do rows <- rows_of py_float block; Ok (extend s rows acc).
Proof.
  induction block as [|line block IH]; intros ind acc Hk.
  - simpl. rewrite extend_nil. reflexivity.
  - cbn [Phase.read_from rows_of mapM]. unfold Phase.read_line.
    rewrite Hk by (simpl length; lia).
    destruct (Phase.floats_of py_float (split line)) as [e|xs] eqn:Ex.
    + destruct s; reflexivity.
    + transitivity (Phase.read_from py_float b (ind + 1) block (extend s [xs] acc)).
      * destruct s; simpl; rewrite ?app_nil_r; reflexivity.
      * rewrite IH by (intros k Hr; apply Hk; simpl length; lia).
        fold (rows_of py_float block).
        destruct (rows_of py_float block) as [e|rows]; simpl; [reflexivity|].
        rewrite (extend_cons s xs rows). reflexivity.
Qed.

End Blocks.

(** ** A table in the standard layout *)

Lemma scan_line_plain b ind line :
  is_marker line = false -> Phase.scan_line b ind line = b.
Proof.
  unfold is_marker. cbn [existsb]. intros H.
  repeat (apply orb_false_elim in H as [? H]).
  unfold Phase.scan_line.
  repeat match goal with
  | Heq : String.eqb _ _ = false |- _ => rewrite Heq; clear Heq
  end.
  reflexivity.
Qed.

Lemma scan_from_plain block : forall ind b,
  forallb (fun line => negb (is_marker line)) block = true ->
  Phase.scan_from ind block b = (b, ind + Z.of_nat (length block)).
Proof.
  induction block as [|line block IH]; intros ind b H.
  - simpl. rewrite Z.add_0_r. reflexivity.
  - cbn [forallb] in H. apply andb_prop in H as [Hl H].
    apply negb_true_iff in Hl.
    cbn [Phase.scan_from]. rewrite (scan_line_plain _ _ _ Hl), (IH _ _ H).
    f_equal. simpl length. lia.
Qed.

Lemma forallb_app_inv {A} (f : A -> bool) l1 l2 :
  forallb f (l1 ++ l2) = true -> forallb f l1 = true /\ forallb f l2 = true.
Proof. rewrite forallb_app. apply andb_prop. Qed.

Lemma scan_line_at_marker b ind :
  Phase.scan_line b ind Phase.delta_marker
  = {| Phase.dists_start := ind + 1; Phase.dists_end := Phase.dists_end b;
       Phase.depths_start := Phase.depths_start b; Phase.depths_end := Phase.depths_end b;
       Phase.times_start := Phase.times_start b; Phase.times_end := Phase.times_end b;
       Phase.dtdd_start := Phase.dtdd_start b; Phase.dtdd_end := Phase.dtdd_end b;
       Phase.dtdh_start := Phase.dtdh_start b; Phase.dtdh_end := Phase.dtdh_end b |} /\
  Phase.scan_line b ind Phase.depth_marker
  = {| Phase.dists_start := Phase.dists_start b; Phase.dists_end := ind - 1;
       Phase.depths_start := ind + 1; Phase.depths_end := Phase.depths_end b;
       Phase.times_start := Phase.times_start b; Phase.times_end := Phase.times_end b;
       Phase.dtdd_start := Phase.dtdd_start b; Phase.dtdd_end := Phase.dtdd_end b;
       Phase.dtdh_start := Phase.dtdh_start b; Phase.dtdh_end := Phase.dtdh_end b |} /\
  Phase.scan_line b ind Phase.times_marker
  = {| Phase.dists_start := Phase.dists_start b; Phase.dists_end := Phase.dists_end b;
       Phase.depths_start := Phase.depths_start b; Phase.depths_end := ind - 2;
       Phase.times_start := ind + 2; Phase.times_end := Phase.times_end b;
       Phase.dtdd_start := Phase.dtdd_start b; Phase.dtdd_end := Phase.dtdd_end b;
       Phase.dtdh_start := Phase.dtdh_start b; Phase.dtdh_end := Phase.dtdh_end b |} /\
  Phase.scan_line b ind Phase.dtdd_marker
  = {| Phase.dists_start := Phase.dists_start b; Phase.dists_end := Phase.dists_end b;
       Phase.depths_start := Phase.depths_start b; Phase.depths_end := Phase.depths_end b;
       Phase.times_start := Phase.times_start b; Phase.times_end := ind - 2;
       Phase.dtdd_start := ind + 2; Phase.dtdd_end := Phase.dtdd_end b;
       Phase.dtdh_start := Phase.dtdh_start b; Phase.dtdh_end := Phase.dtdh_end b |} /\
  Phase.scan_line b ind Phase.dtdh_marker
  = {| Phase.dists_start := Phase.dists_start b; Phase.dists_end := Phase.dists_end b;
       Phase.depths_start := Phase.depths_start b; Phase.depths_end := Phase.depths_end b;
       Phase.times_start := Phase.times_start b; Phase.times_end := Phase.times_end b;
       Phase.dtdd_start := Phase.dtdd_start b; Phase.dtdd_end := ind - 2;
       Phase.dtdh_start := ind + 2; Phase.dtdh_end := Phase.dtdh_end b |}.
Proof. repeat split. Qed.

(** The sizes of the blocks of a layout, and the indices the first loop
    finds in it. *)
Lemma scan_layout L :
  well_laid L = true ->
  let h := Z.of_nat (length (header L)) in
  let nd := Z.of_nat (length (dist_lines L)) in
  let np := Z.of_nat (length (depth_lines L)) in
  let nt := Z.of_nat (length (time_lines L)) in
  let ndd := Z.of_nat (length (dtdd_lines L)) in
  let ndh := Z.of_nat (length (dtdh_lines L)) in
  Phase.scan (lines_of L)
  = {| Phase.dists_start := h + 1; Phase.dists_end := h + nd;
       Phase.depths_start := h + nd + 2; Phase.depths_end := h + nd + np + 1;
       Phase.times_start := h + nd + np + 5; Phase.times_end := h + nd + np + nt + 4;
       Phase.dtdd_start := h + nd + np + nt + 8;
       Phase.dtdd_end := h + nd + np + nt + ndd + 7;
       Phase.dtdh_start := h + nd + np + nt + ndd + 11;
       Phase.dtdh_end := h + nd + np + nt + ndd + ndh + 10 |}.
Proof.
  unfold well_laid. intros H. apply andb_prop in H as [Htr H].
  apply Nat.eqb_eq in Htr.
  apply forallb_app_inv in H as [Hh H].
  apply forallb_app_inv in H as [Hd H].
  apply forallb_app_inv in H as [Hp H].
  apply forallb_app_inv in H as [Hc12 H].
  apply forallb_app_inv in H as [Ht H].
  apply forallb_app_inv in H as [Hc34 H].
  apply forallb_app_inv in H as [Hdd H].
  apply forallb_app_inv in H as [Hc56 H].
  apply forallb_app_inv in H as [Hdh Htl].
  cbn [forallb] in Hc12, Hc34, Hc56.
  apply andb_prop in Hc12 as [Hc1 Hc2]. apply andb_prop in Hc2 as [Hc2 _].
  apply andb_prop in Hc34 as [Hc3 Hc4]. apply andb_prop in Hc4 as [Hc4 _].
  apply andb_prop in Hc56 as [Hc5 Hc6]. apply andb_prop in Hc6 as [Hc6 _].
  apply negb_true_iff in Hc1, Hc2, Hc3, Hc4, Hc5, Hc6.
  cbn zeta. unfold Phase.scan, lines_of.
  destruct (scan_line_at_marker Phase.bounds0 0) as (_ & _ & _ & _ & _).
  assert (Hproj := fun b ind => scan_line_at_marker b ind).
  rewrite scan_from_app, (scan_from_plain _ _ _ Hh). cbn [fst app Phase.scan_from].
  rewrite (proj1 (Hproj _ _)).
  rewrite scan_from_app, (scan_from_plain _ _ _ Hd). cbn [fst app Phase.scan_from].
  rewrite (proj1 (proj2 (Hproj _ _))).
  cbn [Phase.dists_start Phase.dists_end Phase.depths_start Phase.depths_end
       Phase.times_start Phase.times_end Phase.dtdd_start Phase.dtdd_end
       Phase.dtdh_start Phase.dtdh_end].
  rewrite scan_from_app, (scan_from_plain _ _ _ Hp). cbn [fst app Phase.scan_from].
  rewrite (scan_line_plain _ _ _ Hc1).
  rewrite (proj1 (proj2 (proj2 (Hproj _ _)))).
  cbn [Phase.dists_start Phase.dists_end Phase.depths_start Phase.depths_end
       Phase.times_start Phase.times_end Phase.dtdd_start Phase.dtdd_end
       Phase.dtdh_start Phase.dtdh_end].
  rewrite (scan_line_plain _ _ _ Hc2).
  rewrite scan_from_app, (scan_from_plain _ _ _ Ht). cbn [fst app Phase.scan_from].
  rewrite (scan_line_plain _ _ _ Hc3).
  rewrite (proj1 (proj2 (proj2 (proj2 (Hproj _ _))))).
  cbn [Phase.dists_start Phase.dists_end Phase.depths_start Phase.depths_end
       Phase.times_start Phase.times_end Phase.dtdd_start Phase.dtdd_end
       Phase.dtdh_start Phase.dtdh_end].
  rewrite (scan_line_plain _ _ _ Hc4).
  rewrite scan_from_app, (scan_from_plain _ _ _ Hdd). cbn [fst app Phase.scan_from].
  rewrite (scan_line_plain _ _ _ Hc5).
  rewrite (proj2 (proj2 (proj2 (proj2 (Hproj _ _))))).
  cbn [Phase.dists_start Phase.dists_end Phase.depths_start Phase.depths_end
       Phase.times_start Phase.times_end Phase.dtdd_start Phase.dtdd_end
       Phase.dtdh_start Phase.dtdh_end].
  rewrite (scan_line_plain _ _ _ Hc6).
  rewrite scan_from_app, (scan_from_plain _ _ _ Hdh). cbn [fst].
  rewrite (scan_from_plain _ _ _ Htl). rewrite Htr.
  cbn [Phase.dists_start Phase.dists_end Phase.depths_start Phase.depths_end
       Phase.times_start Phase.times_end Phase.dtdd_start Phase.dtdd_end
       Phase.dtdh_start Phase.dtdh_end].
  f_equal; lia.
Qed.

(** Decides the first test of the [if]/[elif] chain of the second loop
    that is still open, from the bounds on the index in the context. *)
Ltac decide_range :=
  first
    [ rewrite (proj2 (andb_true_iff _ _))
        by (split; [apply Z.leb_le | apply Z.ltb_lt]; lia)
    | rewrite (proj2 (andb_false_iff _ _))
        by (first [left; apply Z.leb_gt; lia | right; apply Z.ltb_ge; lia]) ];
  cbv iota.

Ltac classify_block :=
  let k := fresh "k" in
  let Hk := fresh "Hk" in
  intros k Hk; cbn [length] in Hk;
  unfold Phase.classify, Phase.in_range;
  cbn [Phase.dists_start Phase.dists_end Phase.depths_start Phase.depths_end
       Phase.times_start Phase.times_end Phase.dtdd_start Phase.dtdd_end
       Phase.dtdh_start Phase.dtdh_end];
  repeat decide_range; reflexivity.

(** The second loop on a well laid table, section by section. *)
Lemma read_layout py_float L :
  well_laid L = true ->
  Phase.read_from py_float (Phase.scan (lines_of L)) 0 (lines_of L) Phase.lists0
  = do ds <- rows_of py_float (dist_lines L);
    do ps <- rows_of py_float (depth_lines L);
    do ts <- rows_of py_float (time_lines L);
    do dds <- rows_of py_float (dtdd_lines L);
    do dhs <- rows_of py_float (dtdh_lines L);
    Ok {| Phase.l_ecdists := concat ds; Phase.l_depths_km := concat ps;
          Phase.l_times := ts; Phase.l_dtdd := dds; Phase.l_dtdh := dhs |}.
Proof.
  intros Hw. rewrite (scan_layout L Hw). cbn zeta.
  unfold well_laid in Hw. apply andb_prop in Hw as [Htr _]. apply Nat.eqb_eq in Htr.
  set (h := Z.of_nat (length (header L))).
  set (nd := Z.of_nat (length (dist_lines L))).
  set (np := Z.of_nat (length (depth_lines L))).
  set (nt := Z.of_nat (length (time_lines L))).
  set (ndd := Z.of_nat (length (dtdd_lines L))).
  set (ndh := Z.of_nat (length (dtdh_lines L))).
  assert (Hh : 0 <= h) by (subst h; lia).
  assert (Hnd : 0 <= nd) by (subst nd; lia).
  assert (Hnp : 0 <= np) by (subst np; lia).
  assert (Hnt : 0 <= nt) by (subst nt; lia).
  assert (Hndd : 0 <= ndd) by (subst ndd; lia).
  assert (Hndh : 0 <= ndh) by (subst ndh; lia).
  unfold lines_of.
  rewrite read_from_app, read_from_skip by (fold h; classify_block).
  cbn [rbind Ok]. fold h.
  rewrite read_from_app, read_from_skip by classify_block.
  cbn [rbind Ok length].
  rewrite read_from_app, (read_from_section _ _ Phase.Dists) by (fold nd; classify_block).
  destruct (rows_of py_float (dist_lines L)) as [e|ds]; [reflexivity|].
  cbn [rbind Ok]. fold nd.
  rewrite read_from_app, read_from_skip by classify_block.
  cbn [rbind Ok length].
  rewrite read_from_app, (read_from_section _ _ Phase.Depths) by (fold np; classify_block).
  destruct (rows_of py_float (depth_lines L)) as [e|ps]; [reflexivity|].
  cbn [rbind Ok]. fold np.
  rewrite read_from_app, read_from_skip by classify_block.
  cbn [rbind Ok length].
  rewrite read_from_app, (read_from_section _ _ Phase.Times) by (fold nt; classify_block).
  destruct (rows_of py_float (time_lines L)) as [e|ts]; [reflexivity|].
  cbn [rbind Ok]. fold nt.
  rewrite read_from_app, read_from_skip by classify_block.
  cbn [rbind Ok length].
  rewrite read_from_app, (read_from_section _ _ Phase.Dtdd) by (fold ndd; classify_block).
  destruct (rows_of py_float (dtdd_lines L)) as [e|dds]; [reflexivity|].
  cbn [rbind Ok]. fold ndd.
  rewrite read_from_app, read_from_skip by classify_block.
  cbn [rbind Ok length].
  rewrite read_from_app, (read_from_section _ _ Phase.Dtdh) by (fold ndh; classify_block).
  destruct (rows_of py_float (dtdh_lines L)) as [e|dhs]; [reflexivity|].
  cbn [rbind Ok]. fold ndh.
  rewrite read_from_skip by (rewrite Htr; classify_block).
  cbn [rbind Ok extend Phase.lists0 Phase.l_ecdists Phase.l_depths_km Phase.l_times
       Phase.l_dtdd Phase.l_dtdh app].
  reflexivity.
Qed.

(** X3.  A table in the standard layout is read section by section: the
    distance samples and the depth samples are the numbers of their
    lines, in order and joined over the lines they wrap on; each matrix
    has one row for each of its lines; comment lines and the three
    closing lines are not read.  The first token that [float()] refuses
    ends the parse with its error. *)
Theorem parse_standard_table py_float L nanval :
  well_laid L = true ->
  Phase._parse_tt py_float (lines_of L) nanval
  = do ds <- rows_of py_float (dist_lines L);
    do ps <- rows_of py_float (depth_lines L);
    do ts <- rows_of py_float (time_lines L);
    do dds <- rows_of py_float (dtdd_lines L);
    do dhs <- rows_of py_float (dtdh_lines L);
    assemble {| Phase.l_ecdists := concat ds; Phase.l_depths_km := concat ps;
                Phase.l_times := ts; Phase.l_dtdd := dds; Phase.l_dtdh := dhs |}
             nanval.
Proof.
  intros Hw. rewrite parse_tt_assemble, (read_layout py_float L Hw).
  destruct (rows_of py_float (dist_lines L)) as [e|ds]; [reflexivity|].
  destruct (rows_of py_float (depth_lines L)) as [e|ps]; [reflexivity|].
  destruct (rows_of py_float (time_lines L)) as [e|ts]; [reflexivity|].
  destruct (rows_of py_float (dtdd_lines L)) as [e|dds]; [reflexivity|].
  destruct (rows_of py_float (dtdh_lines L)) as [e|dhs]; reflexivity.
Qed.

Lemma parse_standard_table_witness :
  well_laid layout_P = true /\
  lines_of layout_P = table_P /\
  Phase._parse_tt decimal_literal (lines_of layout_P) Phase.nanval_default
  = Ok {| Phase.t_ecdists := [lit "0.0"; lit "1.0"];
          Phase.t_depths_km := [lit "0.0"; lit "10.0"];
          Phase.t_times := [[lit "0.0"; lit "1.5"]; [lit "13.5"; lit "14.1"]];
          Phase.t_dtdd := [[lit "13.5"; lit "13.25"]; [lit "13.0"; lit "12.75"]];
          Phase.t_dtdh := [[lit "-0.125"; lit "-0.25"]; [lit "-0.5"; lit "-0.75"]] |}.
Proof.
  assert (Hw : well_laid layout_P = true) by (vm_compute; reflexivity).
  split; [exact Hw|]. split; [reflexivity|].
  rewrite (parse_standard_table decimal_literal layout_P Phase.nanval_default Hw).
  vm_compute. reflexivity.
Defined.

(** ** Tokens that are not numbers *)

Section Tokens.
Variable py_float : string -> option float.

Lemma mapM_to_float_ok row :
  (forall tok, tok ∈ row -> is_Some (py_float tok)) ->
  exists xs, mapM (Phase.to_float py_float) row = Ok xs.
Proof.
  induction row as [|tok row IH]; intros H; [exists []; reflexivity|].
  destruct (H tok (list_elem_of_here _ _)) as [x Hx].
  destruct IH as [xs Hxs]; [intros t Ht; apply H, list_elem_of_further, Ht|].
  exists (x :: xs). cbn [mapM]. unfold Phase.to_float at 1. rewrite Hx. simpl.
  rewrite Hxs. reflexivity.
Qed.

Lemma mapM_to_float_bad row tok :
  tok ∈ row -> py_float tok = None ->
  exists tok', tok' ∈ row /\ py_float tok' = None /\
    mapM (Phase.to_float py_float) row
    = Raise (ValueError ("could not convert string to float: " ++ py_repr tok')).
Proof.
  induction row as [|t row IH]; intros Hin Hbad; [inversion Hin|].
  cbn [mapM]. unfold Phase.to_float at 1.
  destruct (py_float t) as [x|] eqn:Ht.
  - apply elem_of_cons in Hin as [->|Hin]; [congruence|].
    destruct (IH Hin Hbad) as (tok' & Hin' & Hbad' & Hm).
    exists tok'. split; [apply list_elem_of_further, Hin'|]. split; [exact Hbad'|].
    simpl. rewrite Hm. reflexivity.
  - exists t. split; [apply list_elem_of_here|]. split; [exact Ht|]. reflexivity.
Qed.

(** No token of [line.split()] is the empty string, so the filter of
    the comprehension keeps them all. *)
Lemma filter_split line :
  List.filter (fun item => negb (String.eqb item "")) (split line) = split line.
Proof.
  pose proof (split_ws_clean line [] (List.Forall_nil _)) as H. fold (split line) in H.
  induction (split line) as [|tok row IH]; [reflexivity|].
  apply Forall_cons in H as [[Hne _] H]. cbn [List.filter].
  destruct tok as [|c tok]; [exfalso; apply Hne; reflexivity|].
  cbn [String.eqb negb]. rewrite IH by exact H. reflexivity.
Qed.

(** Either every token of a row is a number for [float()], or one is not. *)
Lemma classic_tokens (row : list string) :
  (forall tok, tok ∈ row -> is_Some (py_float tok)) \/
  (exists tok, tok ∈ row /\ py_float tok = None).
Proof.
  induction row as [|t row IH]; [left; intros tok H; inversion H|].
  destruct (py_float t) as [x|] eqn:Ht.
  - destruct IH as [Hall|(tok & Hin & Hbad)].
    + left. intros tok Hin. apply elem_of_cons in Hin as [->|Hin]; [eauto | apply Hall, Hin].
    + right. exists tok. split; [apply list_elem_of_further, Hin | exact Hbad].
  - right. exists t. split; [apply list_elem_of_here | exact Ht].
Qed.

Lemma read_line_ok b ind line acc :
  (Phase.classify b ind <> None ->
   forall tok, tok ∈ split line -> is_Some (py_float tok)) ->
  exists acc', Phase.read_line py_float b ind line acc = Ok acc'.
Proof.
  intros H. unfold Phase.read_line.
  destruct (Phase.classify b ind) as [s|]; [|eauto].
  destruct (mapM_to_float_ok (split line) (H ltac:(discriminate))) as [xs Hxs].
  unfold Phase.floats_of. rewrite filter_split, Hxs.
  destruct s; simpl; eauto.
Qed.

Lemma read_line_bad b ind line acc tok :
  Phase.classify b ind <> None -> tok ∈ split line -> py_float tok = None ->
  exists tok', tok' ∈ split line /\ py_float tok' = None /\
    Phase.read_line py_float b ind line acc
    = Raise (ValueError ("could not convert string to float: " ++ py_repr tok')).
Proof.
  intros Hc Hin Hbad. unfold Phase.read_line.
  destruct (Phase.classify b ind) as [s|]; [|contradiction].
  destruct (mapM_to_float_bad (split line) tok Hin Hbad) as (tok' & Hin' & Hbad' & Hm).
  exists tok'. split; [exact Hin'|]. split; [exact Hbad'|].
  unfold Phase.floats_of. rewrite filter_split, Hm. destruct s; reflexivity.
Qed.

Lemma read_from_ok b lines : forall ind acc,
  (forall j line tok, lines !! j = Some line ->
                      Phase.classify b (ind + Z.of_nat j) <> None ->
                      tok ∈ split line -> is_Some (py_float tok)) ->
  exists acc', Phase.read_from py_float b ind lines acc = Ok acc'.
Proof.
  induction lines as [|line lines IH]; intros ind acc H; [eexists; reflexivity|].
  cbn [Phase.read_from].
  destruct (read_line_ok b ind line acc) as [acc1 H1].
  { intros Hc tok Htok. apply (H 0%nat line tok eq_refl); [|exact Htok].
    rewrite Z.add_0_r. exact Hc. }
  rewrite H1. simpl. apply IH.
  intros j l tok Hj Hc Htok. apply (H (S j) l tok Hj); [|exact Htok].
  replace (ind + Z.of_nat (S j)) with (ind + 1 + Z.of_nat j) by lia. exact Hc.
Qed.

Lemma read_from_bad b lines : forall ind acc (j : nat) line tok,
  lines !! j = Some line ->
  Phase.classify b (ind + Z.of_nat j) <> None ->
  tok ∈ split line -> py_float tok = None ->
  exists tok', py_float tok' = None /\
    Phase.read_from py_float b ind lines acc
    = Raise (ValueError ("could not convert string to float: " ++ py_repr tok')).
Proof.
  induction lines as [|l lines IH]; intros ind acc j line tok Hj Hc Hin Hbad;
    [discriminate|].
  cbn [Phase.read_from].
  destruct (Phase.read_line py_float b ind l acc) as [e|acc1] eqn:E1.
  - (* this line already fails: its error is one of a refused token *)
    unfold Phase.read_line in E1.
    destruct (Phase.classify b ind) as [s|] eqn:Es; [|discriminate].
    unfold Phase.floats_of in E1. rewrite filter_split in E1.
    destruct (mapM (Phase.to_float py_float) (split l)) as [e'|xs] eqn:Em.
    + assert (He : e = e') by (destruct s; simpl in E1; congruence). subst e'.
      assert (Hex : exists t, t ∈ split l /\ py_float t = None).
      { destruct (classic_tokens (split l)) as [Hall|Hex]; [|exact Hex].
        destruct (mapM_to_float_ok _ Hall) as [xs Hxs]. unfold Ok in *. congruence. }
      destruct Hex as (t & Ht & Htb).
      destruct (mapM_to_float_bad _ _ Ht Htb) as (tok' & _ & Hbad' & Hm).
      exists tok'. split; [exact Hbad'|]. simpl.
      rewrite Em in Hm. unfold Raise in *. congruence.
    + destruct s; simpl in E1; discriminate.
  - simpl. destruct j as [|j]; simpl in Hj.
    + injection Hj as ->. rewrite Z.add_0_r in Hc.
      destruct (read_line_bad b ind line acc tok Hc Hin Hbad) as (? & _ & _ & Hr).
      unfold Raise in *. congruence.
    + apply (IH (ind + 1) acc1 j line tok Hj); try assumption.
      replace (ind + 1 + Z.of_nat j) with (ind + Z.of_nat (S j)) by lia. exact Hc.
Qed.

End Tokens.

(** X4.  Only the lines of the five sections are converted.  When every
    token on these lines is a number for [float()], the second loop ends
    and the parse goes on with the five lists, whatever the other lines
    hold; when some token on such a line is not, the parse raises a
    [ValueError] of [float()], whose message begins with the words
    "could not convert string to float: ".  What follows these words,
    the refused token as [float()] shows it, is not stated. *)
Theorem tokens_of_sections py_float lines nanval :
  ((forall (j : nat) line tok,
      lines !! j = Some line ->
      Phase.classify (Phase.scan lines) (Z.of_nat j) <> None ->
      tok ∈ split line -> is_Some (py_float tok)) ->
   exists acc,
     Phase.read_from py_float (Phase.scan lines) 0 lines Phase.lists0 = Ok acc /\
     Phase._parse_tt py_float lines nanval = assemble acc nanval) /\
  (forall (j : nat) line tok,
      lines !! j = Some line ->
      Phase.classify (Phase.scan lines) (Z.of_nat j) <> None ->
      tok ∈ split line -> py_float tok = None ->
      exists shown,
        Phase._parse_tt py_float lines nanval
        = Raise (ValueError ("could not convert string to float: " ++ shown))).
Proof.
  split.
  - intros Hall.
    destruct (read_from_ok py_float (Phase.scan lines) lines 0 Phase.lists0)
      as [acc Hacc].
    { intros j line tok Hj Hc Htok. apply (Hall j line tok Hj); assumption. }
    exists acc. split; [exact Hacc|].
    rewrite parse_tt_assemble, Hacc. reflexivity.
  - intros j line tok Hj Hc Htok Hbad.
    destruct (read_from_bad py_float (Phase.scan lines) lines 0 Phase.lists0
                j line tok Hj Hc Htok Hbad) as (tok' & Hbad' & Hr).
    exists (py_repr tok'). rewrite parse_tt_assemble, Hr. reflexivity.
Qed.

Lemma tokens_of_sections_witness :
  (exists shown,
     Phase._parse_tt decimal_literal (small_table "0.0" "n/a" "13.5" "14.1")
       Phase.nanval_default
     = Raise (ValueError ("could not convert string to float: " ++ shown))) /\
  Phase._parse_tt decimal_literal (small_table "0.0" "n/a" "13.5" "14.1")
    Phase.nanval_default
  = Raise (ValueError "could not convert string to float: 'n/a'").
Proof.
  split; [|vm_compute; reflexivity].
  apply (proj2 (tokens_of_sections decimal_literal
                  (small_table "0.0" "n/a" "13.5" "14.1") Phase.nanval_default)
           7%nat "  0.0  n/a" "n/a").
  - reflexivity.
  - vm_compute. discriminate.
  - vm_compute. apply list_elem_of_further, list_elem_of_here.
  - reflexivity.
Defined.

(** ** The grids of a [Phase] *)

Lemma mask_index_length {A} (a : list A) : forall mask r,
  mask_index a mask = Ok r -> length a = length mask.
Proof.
  induction a as [|x a IH]; intros [|m mask] r H; simpl in H; try discriminate.
  - reflexivity.
  - destruct (mask_index a mask) as [e|r'] eqn:E; simpl in H; [discriminate|].
    simpl. f_equal. eapply IH. exact E.
Qed.

Lemma mask_index_mismatch {A} (a : list A) : forall mask,
  length a <> length mask -> mask_index a mask = Raise IndexError.
Proof.
  induction a as [|x a IH]; intros [|m mask] H; simpl in *; try reflexivity.
  - contradiction.
  - rewrite IH by lia. reflexivity.
Qed.

Lemma mask_index_total {A} (a : list A) : forall mask,
  length a = length mask -> exists r, mask_index a mask = Ok r.
Proof.
  induction a as [|x a IH]; intros [|m mask] H; simpl in *; try discriminate.
  - eexists. reflexivity.
  - destruct (IH mask) as [r Hr]; [lia|]. rewrite Hr. simpl. eexists. reflexivity.
Qed.

Lemma mask_index_Forall {A} (P : A -> Prop) (a : list A) : forall mask r,
  mask_index a mask = Ok r ->
  (forall k x, a !! k = Some x -> mask !! k = Some true -> P x) ->
  Forall P r.
Proof.
  induction a as [|x a IH]; intros [|m mask] r H HP; simpl in H; try discriminate.
  - injection H as <-. constructor.
  - destruct (mask_index a mask) as [e|r'] eqn:E; simpl in H; [discriminate|].
    injection H as <-.
    assert (Hr' : Forall P r').
    { apply (IH mask r' E). intros k y Hy Hm. apply (HP (S k) y); assumption. }
    destruct m; [|exact Hr'].
    constructor; [apply (HP 0%nat x); reflexivity | exact Hr'].
Qed.

Lemma meshgrid_points_length xs ys :
  length (meshgrid_points xs ys) = (length xs * length ys)%nat.
Proof.
  unfold meshgrid_points. induction xs as [|x xs IH]; [reflexivity|].
  cbn [map concat]. rewrite length_app, length_map, IH. reflexivity.
Qed.

Lemma concat_rect_length {A} (a : ndarray2 A) c :
  Forall (fun r => length r = c) a -> length (concat a) = (length a * c)%nat.
Proof.
  induction 1 as [|r a Hr Ha IH]; [reflexivity|].
  cbn [concat]. rewrite length_app, IH, Hr. reflexivity.
Qed.

Lemma concat_columns {A} (b : ndarray2 A) :
  Forall (fun r => length r = 1%nat) b ->
  forall k, concat b !! k = b !! k ≫= (fun row => row !! 0%nat).
Proof.
  induction 1 as [|r b Hr Hb IH]; intros k; [reflexivity|].
  destruct r as [|x [|? ?]]; try discriminate.
  destruct k as [|k]; [reflexivity|]. simpl. apply IH.
Qed.

Lemma concat_no_columns {A} (a : ndarray2 A) c :
  Forall (fun r => length r = c) a -> c = 0%nat -> concat a = [].
Proof.
  intros Ha ->. apply nil_length_inv. rewrite (concat_rect_length a 0 Ha). lia.
Qed.

(** What the comparison of two non-empty masks has checked when it
    returns [True]: the shapes broadcast, and the cells agree. *)
Lemma np_all_equal_cells (ra rb : list bool) (a' b' : ndarray2 bool) :
  np_all_equal (ra :: a') (rb :: b') = Ok true ->
  exists n c,
    broadcast_dim (length (ra :: a')) (length (rb :: b')) = Some n /\
    broadcast_dim (length ra) (length rb) = Some c /\
    forall i j, (i < n)%nat -> (j < c)%nat ->
      broadcast_get (ra :: a') i j = broadcast_get (rb :: b') i j.
Proof.
  unfold np_all_equal.
  destruct (broadcast_dim (length (ra :: a')) (length (rb :: b'))) as [n|];
    [|discriminate].
  destruct (broadcast_dim (length ra) (length rb)) as [c|]; [|discriminate].
  intros H. injection H as H. exists n, c. split; [reflexivity|]. split; [reflexivity|].
  intros i j Hi Hj. rewrite forallb_forall in H.
  specialize (H i ltac:(apply in_seq; lia)). rewrite forallb_forall in H.
  specialize (H j ltac:(apply in_seq; lia)). apply Bool.eqb_prop in H. exact H.
Qed.

(** A mask of one row against a mask of one column, when all cells of
    the two agree under broadcasting: the row is the column. *)
Lemma row_is_column (ra : list bool) (b : ndarray2 bool) :
  length b = length ra -> length ra <> 1%nat ->
  Forall (fun r => length r = 1%nat) b ->
  (forall i j, (i < length ra)%nat -> (j < length ra)%nat ->
     broadcast_get [ra] i j = broadcast_get b i j) ->
  ra = concat b.
Proof.
  intros Hlen Hne Hb Hcells.
  apply list_eq_same_length with (length ra).
  - rewrite (concat_rect_length b 1 Hb). lia.
  - reflexivity.
  - intros k x y Hk Hx Hy.
    rewrite (concat_columns b Hb) in Hy.
    destruct (b !! k) as [row|] eqn:Hrow; [|discriminate]. simpl in Hy.
    specialize (Hcells k k Hk Hk).
    assert (Hrl : length row = 1%nat).
    { rewrite Forall_forall in Hb. apply Hb. eapply list_elem_of_lookup_2. exact Hrow. }
    assert (Hleft : broadcast_get [ra] k k = x).
    { change (broadcast_get [ra] k k)
        with (default false (ra !! (if Nat.eqb (length ra) 1 then 0%nat else k))).
      rewrite (proj2 (Nat.eqb_neq (length ra) 1) Hne), Hx. reflexivity. }
    assert (Hright : broadcast_get b k k = y).
    { unfold broadcast_get.
      rewrite (proj2 (Nat.eqb_neq (length b) 1)) by lia.
      rewrite Hrow, Hrl. cbn [Nat.eqb]. rewrite Hy. reflexivity. }
    congruence.
Qed.

(** When the comparison of two rectangular masks returns [True] and the
    masks have the same number of cells, they agree cell by cell in the
    order of [flatten]. *)
Lemma flat_masks_equal (a b : ndarray2 bool) :
  rectangular a -> rectangular b ->
  np_all_equal a b = Ok true ->
  length (concat a) = length (concat b) ->
  concat a = concat b.
Proof.
  intros [ca Ha] [cb Hb] Heq Hsize.
  destruct a as [|ra a'], b as [|rb b'].
  - reflexivity.
  - symmetry. apply nil_length_inv. rewrite <- Hsize. reflexivity.
  - apply nil_length_inv. rewrite Hsize. reflexivity.
  - destruct (np_all_equal_cells _ _ _ _ Heq) as (n & c & Hn & Hc & Hcells).
    assert (Hca : length ra = ca) by (apply Forall_cons in Ha as [? _]; assumption).
    assert (Hcb : length rb = cb) by (apply Forall_cons in Hb as [? _]; assumption).
    rewrite (concat_rect_length _ ca Ha), (concat_rect_length _ cb Hb) in Hsize.
    set (A := ra :: a') in *. set (B := rb :: b') in *.
    assert (HlA : length A = S (length a')) by reflexivity.
    assert (HlB : length B = S (length b')) by reflexivity.
    destruct (decide (length A = length B /\ ca = cb)) as [[Hrows Hcols]|Hdiff].
    + (* the same shape *)
      assert (Hsame : np_all_equal A B = Ok (bool_decide (A = B))).
      { apply np_all_equal_same_shape; [exists ca; exact Ha | exists cb; exact Hb|].
        subst A B. cbn [shape]. rewrite Hca, Hcb, Hcols. f_equal.
        exact Hrows. }
      rewrite Heq in Hsame. injection Hsame as Hsame. symmetry in Hsame.
      apply bool_decide_eq_true in Hsame. rewrite Hsame. reflexivity.
    + unfold broadcast_dim in Hn, Hc. rewrite Hca, Hcb in Hc.
      destruct (Nat.eqb_spec (length A) (length B)) as [Hrows|Hrows].
      * (* the same number of rows: then the same number of columns *)
        exfalso. apply Hdiff. split; [exact Hrows|]. rewrite Hrows in Hsize. nia.
      * destruct (Nat.eqb_spec (length A) 1) as [HA1|HA1].
        -- (* one row against several *)
           injection Hn as <-.
           destruct (Nat.eqb_spec ca cb) as [Hcols|Hcols].
           ++ rewrite (concat_no_columns A ca Ha), (concat_no_columns B cb Hb) by nia.
              reflexivity.
           ++ destruct (Nat.eqb_spec ca 1) as [Hca1|Hca1]; [exfalso; nia|].
              destruct (Nat.eqb_spec cb 1) as [Hcb1|Hcb1]; [|discriminate].
              injection Hc as <-.
              destruct a' as [|? ?]; [|simpl in HA1; lia].
              subst A. cbn [concat length] in *. rewrite app_nil_r.
              apply row_is_column; [lia | lia | rewrite <- Hcb1; exact Hb |].
              intros i j Hi Hj. apply Hcells; lia.
        -- destruct (Nat.eqb_spec (length B) 1) as [HB1|HB1]; [|discriminate].
           (* several rows against one *)
           injection Hn as <-.
           destruct (Nat.eqb_spec ca cb) as [Hcols|Hcols].
           ++ rewrite (concat_no_columns A ca Ha), (concat_no_columns B cb Hb) by nia.
              reflexivity.
           ++ destruct (Nat.eqb_spec ca 1) as [Hca1|Hca1].
              ** injection Hc as <-.
                 destruct b' as [|? ?]; [|simpl in HB1; lia].
                 subst B. cbn [concat length] in *. rewrite app_nil_r. symmetry.
                 apply row_is_column; [lia | lia | rewrite <- Hca1; exact Ha |].
                 intros i j Hi Hj. symmetry. apply Hcells; lia.
              ** destruct (Nat.eqb_spec cb 1) as [Hcb1|Hcb1]; [exfalso; nia|discriminate].
Qed.

Section PhaseObject.
Variable py_float : string -> option float.
Variable CloughTocher2DInterpolator :
  list (float * float) -> list float -> float -> option interp.

(** What a successful [Phase(tt_fn, fill_value)] went through. *)
Lemma phase_init_inv lines fill p :
  Phase.__init__ py_float CloughTocher2DInterpolator lines fill = Ok p ->
  exists tb pts tv dv hv,
    Phase._parse_tt py_float lines Phase.nanval_default = Ok tb /\
    Phase.ecdists p = Phase.t_ecdists tb /\
    Phase.depths_km p = Phase.t_depths_km tb /\
    Phase.times p = Phase.t_times tb /\
    Phase.dtdd p = Phase.t_dtdd tb /\
    Phase.dtdh p = Phase.t_dtdh tb /\
    Phase._fill_value p = fill /\
    let vidx := map (fun x => negb (isnan x)) (flatten (Phase.times p)) in
    mask_index (meshgrid_points (Phase.ecdists p) (Phase.depths_km p)) vidx = Ok pts /\
    mask_index (flatten (Phase.times p)) vidx = Ok tv /\
    mask_index (flatten (Phase.dtdd p)) vidx = Ok dv /\
    mask_index (flatten (Phase.dtdh p)) vidx = Ok hv /\
    CloughTocher2DInterpolator pts tv fill = Some (Phase.times_io p) /\
    CloughTocher2DInterpolator pts dv fill = Some (Phase.dtdd_io p) /\
    CloughTocher2DInterpolator pts hv fill = Some (Phase.dtdh_io p).
Proof.
  unfold Phase.__init__, Phase.make_interpolator.
  destruct (Phase._parse_tt py_float lines Phase.nanval_default) as [e|tb];
    simpl; [discriminate|].
  destruct (mask_index (meshgrid_points _ _) _) as [e|pts] eqn:Ep; simpl; [discriminate|].
  destruct (mask_index (flatten (Phase.t_times tb)) _) as [e|tv] eqn:Et;
    simpl; [discriminate|].
  destruct (CloughTocher2DInterpolator pts tv fill) as [tio|] eqn:Ct;
    simpl; [|discriminate].
  destruct (mask_index (flatten (Phase.t_dtdd tb)) _) as [e|dv] eqn:Ed;
    simpl; [discriminate|].
  destruct (CloughTocher2DInterpolator pts dv fill) as [dio|] eqn:Cd;
    simpl; [|discriminate].
  destruct (mask_index (flatten (Phase.t_dtdh tb)) _) as [e|hv] eqn:Eh;
    simpl; [discriminate|].
  destruct (CloughTocher2DInterpolator pts hv fill) as [hio|] eqn:Ch;
    simpl; [|discriminate].
  intros H. injection H as <-. exists tb, pts, tv, dv, hv. cbn.
  repeat split; assumption.
Qed.

(** X5.  In every [Phase] that was built, the three grids have as many
    cells as there are pairs of a distance and a depth, and the same
    cells are undefined in the three of them, in the order of
    [flatten].  The three interpolators are what SciPy's constructor
    returns for one list of points, the pairs whose travel time is
    defined, with the values of each grid at these points, none of which
    is not-a-number, and with the fill value of the [Phase]. *)
Theorem phase_grids_agree lines fill p :
  Phase.__init__ py_float CloughTocher2DInterpolator lines fill = Ok p ->
  let defined := map (fun x => negb (isnan x)) (flatten (Phase.times p)) in
  Phase._fill_value p = fill /\
  length (flatten (Phase.times p))
    = (length (Phase.ecdists p) * length (Phase.depths_km p))%nat /\
  map isnan (flatten (Phase.dtdd p)) = map isnan (flatten (Phase.times p)) /\
  map isnan (flatten (Phase.dtdh p)) = map isnan (flatten (Phase.times p)) /\
  exists pts tv dv hv,
    mask_index (meshgrid_points (Phase.ecdists p) (Phase.depths_km p)) defined = Ok pts /\
    mask_index (flatten (Phase.times p)) defined = Ok tv /\
    mask_index (flatten (Phase.dtdd p)) defined = Ok dv /\
    mask_index (flatten (Phase.dtdh p)) defined = Ok hv /\
    CloughTocher2DInterpolator pts tv fill = Some (Phase.times_io p) /\
    CloughTocher2DInterpolator pts dv fill = Some (Phase.dtdd_io p) /\
    CloughTocher2DInterpolator pts hv fill = Some (Phase.dtdh_io p) /\
    Forall (fun x => isnan x = false) (tv ++ dv ++ hv).
Proof.
  intros Hinit. cbn zeta.
  destruct (phase_init_inv lines fill p Hinit)
    as (tb & pts & tv & dv & hv & Hparse & He & Hd & Ht & Hdd & Hdh & Hfill &
        Hpts & Htv & Hdv & Hhv & Ct & Cd & Ch).
  cbn zeta in Hpts, Htv, Hdv, Hhv.
  destruct (parse_tt_ok_inv py_float lines _ tb Hparse)
    as (acc & _ & Rt & Rd & Rh & Htb & E1 & E2).
  pose proof (mask_index_length _ _ _ Hpts) as Lp.
  pose proof (mask_index_length _ _ _ Hdv) as Ld.
  pose proof (mask_index_length _ _ _ Hhv) as Lh.
  rewrite length_map in Lp, Ld, Lh. rewrite meshgrid_points_length in Lp.
  assert (Hflat : forall (a : ndarray2 float), map isnan (concat a) = concat (np_isnan a)).
  { intros a. unfold np_isnan. induction a as [|r a IH]; [reflexivity|].
    cbn [concat map]. rewrite map_app, IH. reflexivity. }
  assert (Mdd : map isnan (flatten (Phase.dtdd p)) = map isnan (flatten (Phase.times p))).
  { unfold flatten. rewrite !Hflat. symmetry. rewrite Ht, Hdd, Htb.
    cbn [Phase.t_times Phase.t_dtdd].
    apply flat_masks_equal.
    - apply rectangular_map, rectangular_map, Rt.
    - apply rectangular_map, rectangular_map, Rd.
    - exact E1.
    - rewrite <- !Hflat, !length_map.
      unfold flatten in Ld. rewrite Ht, Hdd, Htb in Ld.
      cbn [Phase.t_times Phase.t_dtdd] in Ld. symmetry. exact Ld. }
  assert (Mdh : map isnan (flatten (Phase.dtdh p)) = map isnan (flatten (Phase.times p))).
  { unfold flatten. rewrite !Hflat. symmetry. rewrite Ht, Hdh, Htb.
    cbn [Phase.t_times Phase.t_dtdh].
    apply flat_masks_equal.
    - apply rectangular_map, rectangular_map, Rt.
    - apply rectangular_map, rectangular_map, Rh.
    - exact E2.
    - rewrite <- !Hflat, !length_map.
      unfold flatten in Lh. rewrite Ht, Hdh, Htb in Lh.
      cbn [Phase.t_times Phase.t_dtdh] in Lh. symmetry. exact Lh. }
  split; [exact Hfill|]. split; [symmetry; exact Lp|].
  split; [exact Mdd|]. split; [exact Mdh|].
  exists pts, tv, dv, hv. repeat (split; [assumption|]).
  assert (Hdef : forall (g : list float),
            map isnan g = map isnan (flatten (Phase.times p)) ->
            forall k x, g !! k = Some x ->
              map (fun x => negb (isnan x)) (flatten (Phase.times p)) !! k = Some true ->
              isnan x = false).
  { intros g Hg k x Hx Hm.
    assert (Hk : map isnan g !! k = Some (isnan x)) by (rewrite lookup_map, Hx; reflexivity).
    rewrite Hg, lookup_map in Hk. rewrite lookup_map in Hm.
    destruct (flatten (Phase.times p) !! k) as [y|]; [|discriminate].
    simpl in Hk, Hm. injection Hk as Hk. injection Hm as Hm.
    rewrite <- Hk. apply negb_true_iff. exact Hm. }
  apply Forall_app. split; [|apply Forall_app; split].
  - eapply mask_index_Forall; [exact Htv|]. apply Hdef. reflexivity.
  - eapply mask_index_Forall; [exact Hdv|]. apply Hdef. exact Mdd.
  - eapply mask_index_Forall; [exact Hhv|]. apply Hdef. exact Mdh.
Qed.

(** X6.  A table that parses to a grid of travel times whose number of
    cells is not the number of distance samples times the number of
    depth samples gives no [Phase]: the selection of the points raises
    an [IndexError] before SciPy is called. *)
Theorem phase_size_mismatch lines fill tb :
  Phase._parse_tt py_float lines Phase.nanval_default = Ok tb ->
  length (flatten (Phase.t_times tb))
    <> (length (Phase.t_ecdists tb) * length (Phase.t_depths_km tb))%nat ->
  Phase.__init__ py_float CloughTocher2DInterpolator lines fill = Raise IndexError.
Proof.
  intros Hparse Hsize. unfold Phase.__init__. rewrite Hparse. simpl.
  rewrite mask_index_mismatch; [reflexivity|].
  rewrite meshgrid_points_length, length_map. congruence.
Qed.

End PhaseObject.

Lemma phase_grids_agree_witness :
  exists p,
    Phase.__init__ decimal_literal sample_interpolator table_P LARGE_VALUE = Ok p /\
    Phase._fill_value p = LARGE_VALUE /\
    length (flatten (Phase.times p)) = 4%nat /\
    map isnan (flatten (Phase.dtdd p)) = map isnan (flatten (Phase.times p)).
Proof.
  destruct (Phase.__init__ decimal_literal sample_interpolator table_P LARGE_VALUE)
    as [e|p] eqn:E; [vm_compute in E; discriminate E|].
  exists p. split; [reflexivity|].
  destruct (phase_grids_agree decimal_literal sample_interpolator table_P LARGE_VALUE p E)
    as (Hfill & Hsize & Mdd & _).
  split; [exact Hfill|]. split; [|exact Mdd].
  rewrite Hsize. vm_compute in E. injection E as <-. reflexivity.
Defined.

Lemma phase_size_mismatch_witness :
  Phase.__init__ decimal_literal sample_interpolator (lines_of layout_extra_distance)
    LARGE_VALUE
  = Raise IndexError.
Proof.
  eapply (phase_size_mismatch decimal_literal sample_interpolator
            (lines_of layout_extra_distance) LARGE_VALUE).
  - vm_compute. reflexivity.
  - vm_compute. discriminate.
Defined.


(** ** Loading the table files *)

Lemma split_on_aux_length sep s : forall cur,
  length (split_on_aux sep cur s) = S (count_char sep s).
Proof.
  induction s as [|c s IH]; intros cur; [reflexivity|].
  cbn [split_on_aux count_char]. destruct (Ascii.eqb c sep).
  - cbn [length]. rewrite IH. reflexivity.
  - apply IH.
Qed.

Section Loading.
Variable py_float : string -> option float.
Variable CloughTocher2DInterpolator :
  list (float * float) -> list float -> float -> option interp.

#[local] Abbreviation add_file := (TTInterpolator.add_file py_float CloughTocher2DInterpolator).
#[local] Abbreviation add_files := (TTInterpolator.add_files py_float CloughTocher2DInterpolator).
#[local] Abbreviation init := (TTInterpolator.__init__ py_float CloughTocher2DInterpolator).
#[local] Abbreviation new_phase := (Phase.__init__ py_float CloughTocher2DInterpolator).

Lemma add_files_app files1 : forall files2 self,
  add_files self (files1 ++ files2)
  = do self' <- add_files self files1; add_files self' files2.
Proof.
  induction files1 as [|[fn lines] files1 IH]; intros files2 self; [reflexivity|].
  cbn [app TTInterpolator.add_files].
  destruct (add_file self fn lines) as [e|self1]; simpl; [reflexivity|]. apply IH.
Qed.

Lemma setitem_fill model l p self :
  TTInterpolator.fill_value (TTInterpolator.phases_setitem model l p self)
  = TTInterpolator.fill_value self.
Proof.
  unfold TTInterpolator.phases_setitem, TTInterpolator.phases_getitem.
  destruct (TTInterpolator.phases self !! model); reflexivity.
Qed.

Lemma add_file_inv self fn lines self' :
  add_file self fn lines = Ok self' ->
  exists model name ext p,
    split_on "." (basename fn) = [model; name; ext] /\
    new_phase lines (TTInterpolator.fill_value self) = Ok p /\
    self' = TTInterpolator.phases_setitem model (Bytes name) p self.
Proof.
  unfold TTInterpolator.add_file.
  destruct (split_on "." (basename fn)) as [|model [|name [|ext [|? ?]]]];
    try discriminate.
  destruct (new_phase lines (TTInterpolator.fill_value self)) as [e|p] eqn:E;
    simpl; [discriminate|].
  intros H. injection H as <-. exists model, name, ext, p. repeat split. 
Qed.

(** Every [Phase] of the registry is the one built from the lines of a
    file of that model and phase, with the fill value of the registry. *)
Lemma add_files_phases files : forall self0 self,
  add_files self0 files = Ok self ->
  TTInterpolator.fill_value self = TTInterpolator.fill_value self0 /\
  forall m l p, registered self m l = Some p ->
    registered self0 m l = Some p \/
    exists fn lines name ext,
      (fn, lines) ∈ files /\
      split_on "." (basename fn) = [m; name; ext] /\ l = Bytes name /\
      new_phase lines (TTInterpolator.fill_value self0) = Ok p.
Proof.
  induction files as [|[fn lines] files IH]; intros self0 self; simpl.
  - intros H. injection H as <-. split; [reflexivity|]. intros m l p Hp. left. exact Hp.
  - destruct (add_file self0 fn lines) as [e|self1] eqn:E1; simpl; [discriminate|].
    intros Hrest.
    apply add_file_inv in E1 as (model & name & ext & q & Hsplit & Hq & ->).
    destruct (IH _ _ Hrest) as [Hfill Hkeys]. rewrite setitem_fill in Hfill, Hkeys.
    split; [exact Hfill|].
    intros m l p Hp. destruct (Hkeys m l p Hp) as [Hold|Hnew].
    + rewrite registered_setitem in Hold.
      destruct (decide _) as [[-> ->]|_]; [|left; exact Hold].
      injection Hold as <-. right. exists fn, lines, name, ext.
      split; [apply list_elem_of_here|]. repeat split; assumption.
    + right. destruct Hnew as (fn' & lines' & name' & ext' & Hin & Hs & -> & Hp').
      exists fn', lines', name', ext'.
      split; [apply list_elem_of_further; exact Hin|]. repeat split; assumption.
Qed.

(** X7.  Every [Phase] that a scalar or batched query can reach in a
    registry built by [TTInterpolator()] is the [Phase] of a table file
    of that model and phase, built with the fill value [LARGE_VALUE] of
    the registry: the value a query returns for an unknown phase and the
    value the interpolators were given for points outside their domain
    are the same number. *)
Theorem registry_holds_file_phases tt_files self :
  init tt_files = Ok self ->
  TTInterpolator.fill_value self = LARGE_VALUE /\
  forall model l p,
    registered self model l = Some p ->
    Phase._fill_value p = TTInterpolator.fill_value self /\
    exists fn lines name ext,
      (fn, lines) ∈ tt_files /\
      split_on "." (basename fn) = [model; name; ext] /\
      l = str_encode name /\
      new_phase lines LARGE_VALUE = Ok p.
Proof.
  unfold TTInterpolator.__init__. intros Hinit.
  destruct (add_files_phases _ _ _ Hinit) as [Hfill Hkeys]. cbn in Hfill.
  split; [exact Hfill|].
  intros model l p Hp. destruct (Hkeys model l p Hp) as [Hold|Hnew].
  - unfold registered in Hold. cbn in Hold. rewrite lookup_empty in Hold. discriminate.
  - destruct Hnew as (fn & lines & name & ext & Hin & Hs & -> & Hp'). cbn in Hp'.
    split.
    + rewrite Hfill.
      destruct (phase_init_inv py_float CloughTocher2DInterpolator lines LARGE_VALUE p Hp')
        as (? & ? & ? & ? & ? & _ & _ & _ & _ & _ & _ & Hf & _). exact Hf.
    + exists fn, lines, name, ext. repeat split; assumption.
Qed.

(** X8.  The table files are loaded one after the other and the first
    failure ends the construction: when a file's name has the three
    parts and its [Phase] cannot be built, [TTInterpolator()] raises the
    error of that [Phase], whatever files come after it, and returns no
    registry. *)
Theorem registry_fails_fast files1 fn lines files2 self1 model name ext e :
  init files1 = Ok self1 ->
  split_on "." (basename fn) = [model; name; ext] ->
  new_phase lines LARGE_VALUE = Raise e ->
  init (files1 ++ (fn, lines) :: files2) = Raise e.
Proof.
  unfold TTInterpolator.__init__. intros H1 Hname Hphase.
  rewrite add_files_app, H1. simpl.
  destruct (add_files_phases _ _ _ H1) as [Hfill _]. cbn in Hfill.
  unfold TTInterpolator.add_file. rewrite Hname, Hfill, Hphase. reflexivity.
Qed.

(** X9.  A table file whose base name does not have exactly two dots is
    refused: [TTInterpolator()] raises a [ValueError] when it comes to
    this file, whatever the file holds and whatever files come after
    it. *)
Theorem registry_refuses_name files1 fn lines files2 self1 :
  init files1 = Ok self1 ->
  count_char "." (basename fn) <> 2%nat ->
  exists msg, init (files1 ++ (fn, lines) :: files2) = Raise (ValueError msg).
Proof.
  unfold TTInterpolator.__init__. intros H1 Hdots.
  rewrite add_files_app, H1. simpl. unfold TTInterpolator.add_file.
  pose proof (split_on_aux_length "." (basename fn) []) as Hlen.
  fold (split_on "." (basename fn)) in Hlen.
  destruct (split_on "." (basename fn)) as [|a [|b [|c [|d rest]]]];
    simpl in Hlen; try (eexists; reflexivity).
  exfalso. apply Hdots. lia.
Qed.

End Loading.

Lemma registry_holds_file_phases_witness :
  exists p,
    registered example_registry "ak135" (Bytes "S") = Some p /\
    Phase._fill_value p = TTInterpolator.fill_value example_registry /\
    Phase.__init__ decimal_literal sample_interpolator table_S LARGE_VALUE = Ok p.
Proof.
  destruct (registered example_registry "ak135" (Bytes "S")) as [p|] eqn:Hp;
    [|vm_compute in Hp; discriminate Hp].
  exists p. split; [reflexivity|].
  destruct (registry_holds_file_phases decimal_literal sample_interpolator
              example_files example_registry example_registry_built) as [_ Hall].
  destruct (Hall "ak135" (Bytes "S") p Hp) as [Hf _]. split; [exact Hf|].
  vm_compute in Hp. injection Hp as <-. vm_compute. reflexivity.
Defined.

Lemma registry_fails_fast_witness :
  TTInterpolator.__init__ decimal_literal sample_interpolator
    ([("/opt/tt/ak135.P.tab", table_P)] ++
     ("/opt/tt/ak135.Pn.tab", table_mismatched_masks) ::
     [("/opt/tt/ak135.S.tab", table_S)])
  = Raise AssertionError.
Proof.
  eapply (registry_fails_fast decimal_literal sample_interpolator
            [("/opt/tt/ak135.P.tab", table_P)] "/opt/tt/ak135.Pn.tab"
            table_mismatched_masks [("/opt/tt/ak135.S.tab", table_S)]).
  - vm_compute. reflexivity.
  - vm_compute. reflexivity.
  - vm_compute. reflexivity.
Defined.

Lemma registry_refuses_name_witness :
  exists msg,
    TTInterpolator.__init__ decimal_literal sample_interpolator
      ([("/opt/tt/ak135.P.tab", table_P)] ++
       ("/opt/tt/ak135.P.v2.tab", table_P) :: [])
    = Raise (ValueError msg).
Proof.
  eapply (registry_refuses_name decimal_literal sample_interpolator
            [("/opt/tt/ak135.P.tab", table_P)] "/opt/tt/ak135.P.v2.tab" table_P []).
  - vm_compute. reflexivity.
  - vm_compute. discriminate.
Defined.

(** ** Queries, one after the other *)

(** The outcome of a query depends on the registry through its fill
    value and through the phases of the model only, an absent model
    counting as one without phases. *)
Lemma dispatch_depends io q model self self' :
  TTInterpolator.fill_value self = TTInterpolator.fill_value self' ->
  default ∅ (TTInterpolator.phases self !! model)
    = default ∅ (TTInterpolator.phases self' !! model) ->
  fst (TTInterpolator.dispatch io q model self)
  = fst (TTInterpolator.dispatch io q model self').
Proof.
  intros Hfill Hd.
  assert (Hgen : forall s,
    fst (TTInterpolator.dispatch io q model s)
    = match q with
      | Batched phase ecdist depth_km =>
          match TTInterpolator.batched_loop io
                  (map_to_list (default ∅ (TTInterpolator.phases s !! model)))
                  phase ecdist depth_km
                  (TTInterpolator.filled (length phase) (TTInterpolator.fill_value s)) with
          | Some res => Ok (VArray res)
          | None => Raise (ValueError (TTInterpolator.not_found_message model))
          end
      | Scalar phase ecdist depth_km =>
          match default ∅ (TTInterpolator.phases s !! model) !! phase with
          | Some p => Ok (VFloat (io p ecdist depth_km))
          | None => Ok (VFloat (TTInterpolator.fill_value s))
          end
      end).
  { intros s. unfold TTInterpolator.dispatch, TTInterpolator.phases_getitem.
    destruct (TTInterpolator.phases s !! model) as [d|]; simpl.
    - destruct q as [l x y|ph xs ys].
      + destruct (d !! l); reflexivity.
      + destruct (TTInterpolator.batched_loop _ _ _ _ _ _); reflexivity.
    - destruct q as [l x y|ph xs ys].
      + rewrite lookup_empty. reflexivity.
      + destruct (TTInterpolator.batched_loop _ _ _ _ _ _); reflexivity. }
  rewrite (Hgen self), (Hgen self'), Hfill, Hd. reflexivity.
Qed.

Lemma dispatch_state io q model self :
  snd (TTInterpolator.dispatch io q model self)
  = snd (TTInterpolator.phases_getitem model self).
Proof.
  unfold TTInterpolator.dispatch.
  destruct (TTInterpolator.phases_getitem model self) as [d s'].
  destruct q as [l x y | ph xs ys]; simpl.
  - destruct (d !! l); reflexivity.
  - destruct (TTInterpolator.batched_loop _ _ _ _ _ _); reflexivity.
Qed.

Lemma getitem_keeps model self m :
  TTInterpolator.fill_value (snd (TTInterpolator.phases_getitem model self))
    = TTInterpolator.fill_value self /\
  default ∅ (TTInterpolator.phases (snd (TTInterpolator.phases_getitem model self)) !! m)
    = default ∅ (TTInterpolator.phases self !! m).
Proof.
  unfold TTInterpolator.phases_getitem.
  destruct (TTInterpolator.phases self !! model) as [d|] eqn:Hm; cbn.
  - split; reflexivity.
  - split; [reflexivity|]. destruct (decide (model = m)) as [<-|Hne].
    + rewrite lookup_insert_eq, Hm. reflexivity.
    + rewrite lookup_insert_ne by exact Hne. reflexivity.
Qed.

(** X10.  What a query returns does not depend on the queries made
    before it: any query gives the same outcome on the registry that
    another query has left as on the registry before that query, and a
    second query for the same model leaves the registry as the first
    left it. *)
Theorem queries_do_not_interfere get1 io1 get2 io2 q1 model1 q2 model2 self :
  (get1, io1) ∈ query_methods ->
  (get2, io2) ∈ query_methods ->
  fst (get2 q2 model2 (snd (get1 q1 model1 self))) = fst (get2 q2 model2 self) /\
  snd (get2 q2 model1 (snd (get1 q1 model1 self))) = snd (get1 q1 model1 self).
Proof.
  intros H1 H2.
  rewrite (query_methods_dispatch get1 io1 H1), (query_methods_dispatch get2 io2 H2).
  rewrite !dispatch_state. split.
  - apply dispatch_depends;
      [apply (proj1 (getitem_keeps model1 self model2))
      |apply (proj2 (getitem_keeps model1 self model2))].
  - unfold TTInterpolator.phases_getitem.
    destruct (TTInterpolator.phases self !! model1) as [d|] eqn:Hm; cbn.
    + rewrite Hm. reflexivity.
    + rewrite lookup_insert_eq. reflexivity.
Qed.

Lemma queries_do_not_interfere_witness :
  fst (TTInterpolator.get_tt
         (Batched [Bytes "P"; Bytes "S"] [float_of_int 1; float_of_int 1]
                  [float_of_int 10; float_of_int 10]) "ak135"
         (snd (TTInterpolator.get_dtdd (Scalar (Bytes "P") (float_of_int 1) (float_of_int 10))
                 "iasp91" example_registry)))
  = fst (TTInterpolator.get_tt
           (Batched [Bytes "P"; Bytes "S"] [float_of_int 1; float_of_int 1]
                    [float_of_int 10; float_of_int 10]) "ak135" example_registry).
Proof.
  apply (queries_do_not_interfere TTInterpolator.get_dtdd Phase.dtdd_io
           TTInterpolator.get_tt Phase.times_io).
  - apply list_elem_of_further, list_elem_of_here.
  - apply list_elem_of_here.
Defined.

(** ** Arrays that are not parallel *)

(** The loop ends without an exception as soon as every slot of a
    registered label has its two coordinates. *)
Lemma batched_loop_total io items phase ecdist depth_km : forall res,
  length res = length phase ->
  (forall i l p, phase !! i = Some l -> (l, p) ∈ items ->
                 is_Some (ecdist !! i) /\ is_Some (depth_km !! i)) ->
  exists res', TTInterpolator.batched_loop io items phase ecdist depth_km res = Some res'.
Proof.
  induction items as [|[cphase p] rest IH]; intros res Hr Hc; [eexists; reflexivity|].
  cbn [TTInterpolator.batched_loop].
  pose proof (argwhere_label cphase phase) as Hin.
  assert (Hrest : forall r, length r = length phase ->
            exists res', TTInterpolator.batched_loop io rest phase ecdist depth_km r
                         = Some res').
  { intros r Hlen. apply IH; [exact Hlen|].
    intros i l q Hl Hq. apply (Hc i l q Hl). apply list_elem_of_further. exact Hq. }
  generalize dependent (argwhere label_eqb cphase phase).
  intros [|i0 more] Hin; [apply Hrest, Hr|].
  set (indices := i0 :: more) in *.
  destruct (take_indices_total ecdist indices) as (xs & Hxs & _).
  { intros j Hj. apply Hin in Hj.
    destruct (Hc j cphase p Hj (list_elem_of_here _ _)) as [Hx _].
    apply lookup_lt_is_Some. exact Hx. }
  destruct (take_indices_total depth_km indices) as (ys & Hys & _).
  { intros j Hj. apply Hin in Hj.
    destruct (Hc j cphase p Hj (list_elem_of_here _ _)) as [_ Hy].
    apply lookup_lt_is_Some. exact Hy. }
  rewrite Hxs, Hys. apply Hrest.
  rewrite put_indices_length. exact Hr.
Qed.

(** X11.  A batched query raises exactly when a slot whose label is
    registered under the model lacks a distance or a depth; the
    coordinates of slots with unknown labels are never read.  The error
    is then the [ValueError] that speaks of a model or phase not found,
    and it names the model only. *)
Theorem batched_raises_iff get io self model phase ecdist depth_km :
  (get, io) ∈ query_methods ->
  ((forall i l, phase !! i = Some l -> is_Some (registered self model l) ->
                is_Some (ecdist !! i) /\ is_Some (depth_km !! i)) ->
   exists res, fst (get (Batched phase ecdist depth_km) model self) = Ok (VArray res)) /\
  (forall i l, phase !! i = Some l -> is_Some (registered self model l) ->
               ecdist !! i = None \/ depth_km !! i = None ->
   fst (get (Batched phase ecdist depth_km) model self)
   = Raise (ValueError ("Either model " ++ model ++ " or phase not found.."))).
Proof.
  intros Hget. rewrite (query_methods_dispatch get io Hget). split.
  - intros Hc.
    unfold TTInterpolator.dispatch, TTInterpolator.phases_getitem, registered in *.
    destruct (TTInterpolator.phases self !! model) as [d|].
    + destruct (batched_loop_total io (map_to_list d) phase ecdist depth_km
                  (TTInterpolator.filled (length phase) (TTInterpolator.fill_value self)))
        as [res Hres].
      * apply length_replicate.
      * intros i l p Hl Hp. apply (Hc i l Hl). apply elem_of_map_to_list in Hp.
        rewrite Hp. eauto.
      * exists res. rewrite Hres. reflexivity.
    + destruct (batched_loop_total io (map_to_list (∅ : gmap label Phase.t))
                  phase ecdist depth_km
                  (TTInterpolator.filled (length phase) (TTInterpolator.fill_value self)))
        as [res Hres].
      * apply length_replicate.
      * intros i l p Hl Hp. apply elem_of_map_to_list in Hp.
        rewrite lookup_empty in Hp. discriminate.
      * exists res. rewrite Hres. reflexivity.
  - intros i l Hl [p Hp] Hmissing.
    destruct (fst (TTInterpolator.dispatch io (Batched phase ecdist depth_km) model self))
      as [e|v] eqn:E.
    + unfold TTInterpolator.dispatch in E.
      destruct (TTInterpolator.phases_getitem model self) as [d s'].
      destruct (TTInterpolator.batched_loop _ _ _ _ _ _); simpl in E; [discriminate|].
      injection E as <-. reflexivity.
    + exfalso.
      assert (Hv : exists res, v = VArray res).
      { unfold TTInterpolator.dispatch in E.
        destruct (TTInterpolator.phases_getitem model self) as [d s'].
        destruct (TTInterpolator.batched_loop _ _ _ _ _ _); simpl in E; [|discriminate].
        injection E as <-. eauto. }
      destruct Hv as [res ->].
      destruct (dispatch_batched_ret io phase ecdist depth_km model self res E)
        as [_ Hspec].
      destruct (Hspec i l Hl) as [Hreg _].
      destruct (Hreg p Hp) as (x & y & Hx & Hy & _).
      destruct Hmissing as [H|H]; congruence.
Qed.

Lemma batched_raises_iff_witness :
  fst (TTInterpolator.get_tt
         (Batched [Bytes "PKP"; Bytes "P"] [float_of_int 1] [float_of_int 10; float_of_int 10])
         "ak135" example_registry)
  = Raise (ValueError "Either model ak135 or phase not found..").
Proof.
  apply (proj2 (batched_raises_iff TTInterpolator.get_tt Phase.times_io example_registry
                  "ak135" [Bytes "PKP"; Bytes "P"] [float_of_int 1]
                  [float_of_int 10; float_of_int 10] (list_elem_of_here _ _))
           1%nat (Bytes "P")).
  - reflexivity.
  - vm_compute. eexists. reflexivity.
  - left. reflexivity.
Defined.

(** ** Rows of unequal length, and the sentinel *)

Lemma np_array_ragged {A} (rows : list (list A)) :
  ~ rectangular rows -> exists e, np_array rows = Raise e.
Proof.
  intros Hr. destruct (np_array rows) as [e|a] eqn:E; [eauto|].
  exfalso. apply Hr. apply np_array_ok in E as [_ H]. exact H.
Qed.

(** X12.  In a table in the standard layout, the lines of a matrix are
    its rows as they stand: lines of one matrix that do not all hold the
    same number of values are not joined, and the parse raises. *)
Theorem matrix_rows_do_not_wrap py_float L nanval ds ps ts dds dhs :
  well_laid L = true ->
  rows_of py_float (dist_lines L) = Ok ds ->
  rows_of py_float (depth_lines L) = Ok ps ->
  rows_of py_float (time_lines L) = Ok ts ->
  rows_of py_float (dtdd_lines L) = Ok dds ->
  rows_of py_float (dtdh_lines L) = Ok dhs ->
  ~ rectangular ts \/ ~ rectangular dds \/ ~ rectangular dhs ->
  exists e, Phase._parse_tt py_float (lines_of L) nanval = Raise e.
Proof.
  intros Hw Hds Hps Hts Hdds Hdhs Hrag.
  rewrite parse_tt_assemble, (read_layout py_float L Hw), Hds, Hps, Hts, Hdds, Hdhs.
  cbn [rbind Ok]. unfold assemble.
  cbn [Phase.l_times Phase.l_dtdd Phase.l_dtdh].
  destruct (np_array ts) as [e|tm] eqn:Et; [eexists; reflexivity|].
  destruct (np_array dds) as [e|dd] eqn:Ed; [eexists; reflexivity|].
  destruct (np_array dhs) as [e|dh] eqn:Eh; [eexists; reflexivity|].
  exfalso.
  apply np_array_ok in Et as [_ Rt]. apply np_array_ok in Ed as [_ Rd].
  apply np_array_ok in Eh as [_ Rh]. destruct Hrag as [H|[H|H]]; contradiction.
Qed.

(** X13.  No cell of a parsed grid is equal to the sentinel: a cell of
    the file that is equal to it is not-a-number in the grid, and
    not-a-number is equal to no number. *)
Theorem parsed_grids_hold_no_sentinel py_float lines nanval tb :
  Phase._parse_tt py_float lines nanval = Ok tb ->
  forall x,
    x ∈ (flatten (Phase.t_times tb) ++ flatten (Phase.t_dtdd tb)
           ++ flatten (Phase.t_dtdh tb))%list ->
    float_eqb x nanval = false.
Proof.
  intros Hok x Hx.
  destruct (parse_tt_ok_inv py_float lines nanval tb Hok)
    as (acc & _ & _ & _ & _ & -> & _ & _).
  cbn [Phase.t_times Phase.t_dtdd Phase.t_dtdh] in Hx.
  assert (Hmask : forall a, x ∈ flatten (mask_nan nanval a) -> float_eqb x nanval = false).
  { intros a Ha. unfold flatten, mask_nan in Ha.
    apply list_elem_of_In, in_concat in Ha as (row & Hrow & Hin).
    apply in_map_iff in Hrow as (raw & <- & _).
    apply in_map_iff in Hin as (y & <- & _).
    destruct (float_eqb y nanval) eqn:E; [reflexivity | exact E]. }
  rewrite !elem_of_app in Hx. destruct Hx as [H|[H|H]]; eapply Hmask; exact H.
Qed.

Lemma matrix_rows_do_not_wrap_witness :
  exists e,
    Phase._parse_tt decimal_literal (lines_of layout_short_row) Phase.nanval_default
    = Raise e.
Proof.
  eapply (matrix_rows_do_not_wrap decimal_literal layout_short_row Phase.nanval_default).
  - vm_compute. reflexivity.
  - vm_compute. reflexivity.
  - vm_compute. reflexivity.
  - vm_compute. reflexivity.
  - vm_compute. reflexivity.
  - vm_compute. reflexivity.
  - left. intros [c Hc]. apply Forall_cons in Hc as [H1 Hc].
    apply Forall_cons in Hc as [H2 _]. simpl in H1, H2. congruence.
Defined.

Lemma parsed_grids_hold_no_sentinel_witness :
  float_eqb S754_nan Phase.nanval_default = false.
Proof.
  eapply (parsed_grids_hold_no_sentinel decimal_literal table_short_derivatives
            Phase.nanval_default).
  - vm_compute. reflexivity.
  - cbn [Phase.t_times flatten concat app]. apply list_elem_of_here.
Defined.

(** ** Loading and then asking *)

Section LoadAndAsk.
Variable py_float : string -> option float.
Variable CloughTocher2DInterpolator :
  list (float * float) -> list float -> float -> option interp.

#[local] Abbreviation add_file' :=
  (TTInterpolator.add_file py_float CloughTocher2DInterpolator).
#[local] Abbreviation add_files' :=
  (TTInterpolator.add_files py_float CloughTocher2DInterpolator).
#[local] Abbreviation init' :=
  (TTInterpolator.__init__ py_float CloughTocher2DInterpolator).
#[local] Abbreviation new_phase' :=
  (Phase.__init__ py_float CloughTocher2DInterpolator).

(** X14.  [TTInterpolator()] returns a registry exactly when every table
    file loads: its name has the three parts and its [Phase] can be
    built. *)
Theorem registry_built_iff tt_files :
  (exists self, init' tt_files = Ok self) <->
  Forall (loads py_float CloughTocher2DInterpolator) tt_files.
Proof.
  unfold TTInterpolator.__init__.
  set (self0 := {| TTInterpolator.fill_value := LARGE_VALUE;
                   TTInterpolator.phases := ∅ |}).
  assert (Hfill : TTInterpolator.fill_value self0 = LARGE_VALUE) by reflexivity.
  clearbody self0. revert self0 Hfill.
  induction tt_files as [|[fn lines] files IH]; intros self0 Hfill.
  - split; [constructor | eexists; reflexivity].
  - cbn [TTInterpolator.add_files]. split.
    + intros [self Hself].
      destruct (add_file' self0 fn lines) as [e|self1] eqn:E1; [discriminate|].
      simpl in Hself.
      pose proof E1 as E1'.
      apply add_file_inv in E1' as (model & name & ext & p & Hs & Hp & ->).
      constructor.
      * exists model, name, ext, p. rewrite <- Hfill. split; assumption.
      * apply (IH (TTInterpolator.phases_setitem model (Bytes name) p self0)).
        -- rewrite setitem_fill. exact Hfill.
        -- eauto.
    + intros H. apply Forall_cons in H as [(model & name & ext & p & Hs & Hp) H].
      cbn [fst snd] in Hs, Hp.
      unfold TTInterpolator.add_file. rewrite Hs, Hfill, Hp. simpl.
      apply IH; [rewrite setitem_fill; exact Hfill | exact H].
Qed.

Lemma add_files_untouched files m n : forall self0 self,
  add_files' self0 files = Ok self ->
  (forall fn lines ext, (fn, lines) ∈ files ->
                        split_on "." (basename fn) <> [m; n; ext]) ->
  registered self m (Bytes n) = registered self0 m (Bytes n).
Proof.
  induction files as [|[fn lines] files IH]; intros self0 self; simpl.
  - intros H _. injection H as <-. reflexivity.
  - destruct (add_file' self0 fn lines) as [e|self1] eqn:E1; simpl; [discriminate|].
    intros Hrest Hother.
    apply add_file_inv in E1 as (model & name & ext & p & Hs & Hp & ->).
    rewrite (IH _ _ Hrest).
    + rewrite registered_setitem. destruct (decide _) as [[-> Heq]|_]; [|reflexivity].
      injection Heq as ->. exfalso.
      apply (Hother fn lines ext (list_elem_of_here _ _)). exact Hs.
    + intros fn' lines' ext' Hin. apply (Hother fn' lines' ext').
      apply list_elem_of_further. exact Hin.
Qed.

(** X15.  Loading and then asking: after [TTInterpolator()], a scalar
    query for the model and the byte string of the phase of a table
    file returns the value of the interpolator of the [Phase] built
    from that file, provided no file loaded after it has the same model
    and phase. *)
Theorem load_then_query files1 fn lines files2 self model name ext :
  init' (files1 ++ (fn, lines) :: files2) = Ok self ->
  split_on "." (basename fn) = [model; name; ext] ->
  (forall fn' lines' ext', (fn', lines') ∈ files2 ->
                           split_on "." (basename fn') <> [model; name; ext']) ->
  exists p,
    new_phase' lines LARGE_VALUE = Ok p /\
    registered self model (str_encode name) = Some p /\
    forall x y,
      fst (TTInterpolator.get_tt (Scalar (str_encode name) x y) model self)
        = Ok (VFloat (Phase.times_io p x y)) /\
      fst (TTInterpolator.get_dtdd (Scalar (str_encode name) x y) model self)
        = Ok (VFloat (Phase.dtdd_io p x y)) /\
      fst (TTInterpolator.get_dtdh (Scalar (str_encode name) x y) model self)
        = Ok (VFloat (Phase.dtdh_io p x y)).
Proof.
  unfold TTInterpolator.__init__. intros Hinit Hname Hlater.
  rewrite add_files_app in Hinit.
  destruct (add_files' _ files1) as [e|self1] eqn:E1; [discriminate|].
  simpl in Hinit.
  destruct (add_file' self1 fn lines) as [e|self2] eqn:E2; [discriminate|].
  simpl in Hinit.
  destruct (add_files_phases _ _ _ _ _ E1) as [Hfill _]. cbn in Hfill.
  apply add_file_inv in E2 as (model' & name' & ext' & p & Hs & Hp & ->).
  rewrite Hname in Hs. injection Hs as <- <- <-. rewrite Hfill in Hp.
  exists p. split; [exact Hp|].
  assert (Hreg : registered self model (str_encode name) = Some p).
  { unfold str_encode. rewrite (add_files_untouched _ _ _ _ _ Hinit Hlater).
    rewrite registered_setitem. rewrite decide_True by auto. reflexivity. }
  split; [exact Hreg|].
  intros x y. unfold TTInterpolator.get_tt, TTInterpolator.get_dtdd, TTInterpolator.get_dtdh.
  rewrite !dispatch_scalar, Hreg. repeat split.
Qed.

End LoadAndAsk.

Lemma registry_built_iff_witness :
  exists self, TTInterpolator.__init__ decimal_literal sample_interpolator example_files
               = Ok self.
Proof.
  apply (registry_built_iff decimal_literal sample_interpolator example_files).
  repeat constructor.
  - exists "ak135", "P", "tab". eexists. split; vm_compute; reflexivity.
  - exists "ak135", "S", "tab". eexists. split; vm_compute; reflexivity.
Defined.

Lemma load_then_query_witness :
  exists p,
    Phase.__init__ decimal_literal sample_interpolator table_P LARGE_VALUE = Ok p /\
    registered example_registry "ak135" (Bytes "P") = Some p.
Proof.
  destruct (load_then_query decimal_literal sample_interpolator
              [] "/opt/tt/ak135.P.tab" table_P [("/opt/tt/ak135.S.tab", table_S)]
              example_registry "ak135" "P" "tab" example_registry_built eq_refl)
    as (p & Hp & Hreg & _).
  - intros fn' lines' ext' Hin. apply list_elem_of_singleton in Hin.
    injection Hin as -> ->. vm_compute. discriminate.
  - exists p. split; assumption.
Defined.
